(** * scmtp-ticketing-service: command core, projector and query validation

    A shallow embedding of the ticketing service's write path
    (commands/bookTicket, reserveTicket, confirmTicket, cancelTicket over
    infrastructure/database/writeDb and events/publisher), of its read-model
    projector (projections/ticketProjector), of the list query's validation
    (queries/getUserTickets) and of the request schemas (middleware/validate).

    Conventions of the embedding:
    - a [Date] is a number of milliseconds ([Z]); one handler invocation
      runs at one instant [now] (the database clock [NOW()] and the
      process clock [new Date()] are read as the same instant);
    - a number is an integer ([Z]): minutes, pages, limits, and prices
      counted in minor currency units (the columns are [DECIMAL(10, 2)]);
    - a string is the sequence of the bytes of its UTF-8 encoding: its
      length for JavaScript counts UTF-16 code units, its length for a
      [VARCHAR(n)] column counts characters;
    - [uuidv4()] results are inputs of the handlers, and so is the test
      PostgreSQL makes of a value for a [UUID] column;
    - a table with a primary or unique key is a [gmap] on that key; the
      event store, which is append-only and has no key on
      (aggregate_id, version), is a list in insertion order. *)

From stdpp Require Import gmap strings list fin_maps.
From Stdlib Require Import ZArith.

Local Open Scope Z_scope.

#[local] Set Warnings "-clear-no-such-hyp".

(** ** JavaScript truthiness of the values the handlers test *)

Definition truthy (s : string) : bool := negb (String.eqb s EmptyString).

Definition truthy_opt (o : option string) : bool :=
  match o with
  | Some s => truthy s
  | None => false
  end.

Definition truthy_num (o : option Z) : bool :=
  match o with
  | Some n => negb (n =? 0)
  | None => false
  end.

(** [a || b] on an optional number. *)
Definition or_num (o : option Z) (d : Z) : Z :=
  match o with
  | Some n => if n =? 0 then d else n
  | None => d
  end.

(** [a || null] on an optional string. *)
Definition or_null (o : option string) : option string :=
  if truthy_opt o then o else None.

(** ** Strings as JavaScript and PostgreSQL measure them *)

(** A byte of the form 10xxxxxx continues a character. *)
Definition is_continuation (a : Ascii.ascii) : bool :=
  (128 <=? Ascii.N_of_ascii a)%N && (Ascii.N_of_ascii a <? 192)%N.

(** [s.length]: one UTF-16 code unit for a character of one, two or three
    bytes, two for a character of four bytes (lead byte 11110xxx). *)
Fixpoint js_length (s : string) : nat :=
  match s with
  | EmptyString => 0
  | String a s' =>
      (if is_continuation a then 0
       else if (240 <=? Ascii.N_of_ascii a)%N then 2
       else 1) + js_length s'
  end%nat.

(** [char_length(s)]: the characters. *)
Fixpoint char_length (s : string) : nat :=
  match s with
  | EmptyString => 0
  | String a s' => (if is_continuation a then 0 else 1) + char_length s'
  end%nat.

(** The first [n] characters of [s], and the others. *)
Fixpoint take_chars (n : nat) (s : string) : string :=
  match s with
  | EmptyString => EmptyString
  | String a s' =>
      if is_continuation a then String a (take_chars n s')
      else match n with
           | O => EmptyString
           | S n' => String a (take_chars n' s')
           end
  end.

Fixpoint drop_chars (n : nat) (s : string) : string :=
  match s with
  | EmptyString => EmptyString
  | String a s' =>
      if is_continuation a then drop_chars n s'
      else match n with
           | O => s
           | S n' => drop_chars n' s'
           end
  end.

Fixpoint all_spaces (s : string) : bool :=
  match s with
  | EmptyString => true
  | String a s' => (Ascii.N_of_ascii a =? 32)%N && all_spaces s'
  end.

Fixpoint has_nul (s : string) : bool :=
  match s with
  | EmptyString => false
  | String a s' => (Ascii.N_of_ascii a =? 0)%N || has_nul s'
  end.

(** ** models/booking.ts *)

Inductive BookingStatus :=
| PENDING | RESERVED | CONFIRMED | CANCELLED | EXPIRED | REFUNDED.

#[global] Instance BookingStatus_eq_dec : EqDecision BookingStatus.
Proof. solve_decision. Defined.

Definition BookingStatus_str (s : BookingStatus) : string :=
  match s with
  | PENDING => "PENDING"
  | RESERVED => "RESERVED"
  | CONFIRMED => "CONFIRMED"
  | CANCELLED => "CANCELLED"
  | EXPIRED => "EXPIRED"
  | REFUNDED => "REFUNDED"
  end.

Module Booking.
Record t := {
  id : string;
  userId : string;
  routeId : string;
  scheduleId : string;
  seatNumber : option string;
  passengerName : string;
  passengerEmail : string;
  passengerPhone : option string;
  price : Z;
  currency : string;
  status : BookingStatus;
  paymentId : option string;
  reservedAt : option Z;
  confirmedAt : option Z;
  cancelledAt : option Z;
  expiresAt : option Z;
  createdAt : Z;
  updatedAt : Z
}.
End Booking.

Module BookTicketCommand.
Record t := {
  userId : string;
  routeId : string;
  scheduleId : string;
  seatNumber : option string;
  passengerName : string;
  passengerEmail : string;
  passengerPhone : option string;
  price : Z;
  currency : option string
}.
End BookTicketCommand.

Module ReserveTicketCommand.
Record t := {
  userId : string;
  routeId : string;
  scheduleId : string;
  seatNumber : option string;
  passengerName : string;
  passengerEmail : string;
  passengerPhone : option string;
  price : Z;
  currency : option string;
  reservationDurationMinutes : option Z
}.
End ReserveTicketCommand.

Module ConfirmTicketCommand.
Record t := {
  bookingId : string;
  paymentId : string
}.
End ConfirmTicketCommand.

(** [userId] is declared a string, and is left out by service-to-service
    callers; the handler tests it for truthiness. *)
Module CancelTicketCommand.
Record t := {
  bookingId : string;
  userId : option string;
  reason : option string
}.
End CancelTicketCommand.

Module GetUserTicketsQuery.
Record t := {
  userId : string;
  status : option BookingStatus;
  page : option Z;
  limit : option Z
}.
End GetUserTicketsQuery.

(** ** utils/errors.ts *)

(** What a schema reports about a member of the request, by the code of
    the issue; [ValidationError] carries the issues under their paths. *)
Inductive ZodIssueCode := invalid_type | invalid_string | too_small | too_big.

Inductive AppError :=
| BadRequestError (message : string)
| ForbiddenError (message : string)
| ValidationError (message : string) (errors : list (string * ZodIssueCode))
| InsufficientSeatsError (message : string)
| BookingNotFoundError (bookingId : string)
| InvalidBookingStateError (currentState : BookingStatus) (requiredState : string)
| DriverError (message : string)
| TypeError (message : string).

(** [DriverError] stands for what the [pg] and [kafkajs] clients throw (a
    lost connection, a violated constraint) and [TypeError] for the
    runtime's own error:
    they are not [AppError]s of the service, and the error handler answers
    them as internal errors. *)
Definition statusCode (e : AppError) : Z :=
  match e with
  | BadRequestError _ => 400
  | ForbiddenError _ => 403
  | ValidationError _ _ => 422
  | InsufficientSeatsError _ => 409
  | BookingNotFoundError _ => 404
  | InvalidBookingStateError _ _ => 409
  | DriverError _ => 500
  | TypeError _ => 500
  end.

Definition code (e : AppError) : string :=
  match e with
  | BadRequestError _ => "BAD_REQUEST"
  | ForbiddenError _ => "FORBIDDEN"
  | ValidationError _ _ => "VALIDATION_ERROR"
  | InsufficientSeatsError _ => "INSUFFICIENT_SEATS"
  | BookingNotFoundError _ => "NOT_FOUND"
  | InvalidBookingStateError _ _ => "INVALID_BOOKING_STATE"
  | DriverError _ => "INTERNAL_ERROR"
  | TypeError _ => "INTERNAL_ERROR"
  end.

Definition message (e : AppError) : string :=
  match e with
  | BadRequestError m => m
  | ForbiddenError m => m
  | ValidationError m _ => m
  | InsufficientSeatsError m => m
  | BookingNotFoundError bookingId =>
      "Booking with ID " +:+ bookingId +:+ " not found"
  | InvalidBookingStateError currentState requiredState =>
      "Invalid booking state: " +:+ BookingStatus_str currentState
        +:+ ". Required: " +:+ requiredState
  | DriverError m => m
  | TypeError m => m
  end.

Inductive Result (A : Type) :=
| Ok (a : A)
| Err (e : AppError).
Arguments Ok {A} a.
Arguments Err {A} e.

Definition is_ok {A} (r : Result A) : bool :=
  match r with Ok _ => true | Err _ => false end.

#[global] Instance Result_ret : MRet Result := λ A a, Ok a.

#[global] Instance Result_bind : MBind Result := λ A B f m,
  match m with
  | Ok a => f a
  | Err e => Err e
  end.

(** ** events/types.ts *)

Inductive TicketEventType :=
| TICKET_BOOKED | TICKET_RESERVED | TICKET_CONFIRMED
| TICKET_CANCELLED | TICKET_EXPIRED | TICKET_REFUNDED.

#[global] Instance TicketEventType_eq_dec : EqDecision TicketEventType.
Proof. solve_decision. Defined.

Definition TicketEventType_str (t : TicketEventType) : string :=
  match t with
  | TICKET_BOOKED => "TICKET_BOOKED"
  | TICKET_RESERVED => "TICKET_RESERVED"
  | TICKET_CONFIRMED => "TICKET_CONFIRMED"
  | TICKET_CANCELLED => "TICKET_CANCELLED"
  | TICKET_EXPIRED => "TICKET_EXPIRED"
  | TICKET_REFUNDED => "TICKET_REFUNDED"
  end.

(** A payload is the object literal the code builds, member by member in
    the order written; a member whose value is [undefined] is dropped by
    [JSON.stringify] and reads back as [undefined]. *)
Inductive JsValue :=
| JUndefined
| JNull
| JString (s : string)
| JNumber (n : Z)
| JDate (t : Z).

Definition Payload : Type := list (string * JsValue).

Fixpoint member (k : string) (o : Payload) : JsValue :=
  match o with
  | [] => JUndefined
  | (k', v) :: o' => if String.eqb k k' then v else member k o'
  end.

Definition js_string (o : option string) : JsValue :=
  match o with Some s => JString s | None => JUndefined end.

Definition js_number (o : option Z) : JsValue :=
  match o with Some n => JNumber n | None => JNull end.

(** A member read where a string is expected. *)
Definition as_string (v : JsValue) : option string :=
  match v with JString s => Some s | _ => None end.

Definition as_number (v : JsValue) : option Z :=
  match v with JNumber n => Some n | _ => None end.

Module DomainEvent.
Record t := {
  eventId : string;
  eventType : string;
  aggregateId : string;
  aggregateType : string;
  timestamp : Z;
  version : Z;
  correlationId : option string;
  payload : Payload
}.
End DomainEvent.

(** ** The types of the columns

    A parameter is read by the input function of the type of its column
    when the statement is bound: a [UUID] column refuses a text that is
    not a UUID (22P02), a text column the byte 0 (22021), a [JSONB]
    column the escape of the character 0. A value is fitted to its column
    when the row is built: a [VARCHAR(n)] column refuses more than [n]
    characters (22001) unless the characters in excess are all spaces,
    which it cuts off; a [DECIMAL(10, 2)] column refuses ten digits or
    more before the point (22003). [uuid] is PostgreSQL's test of the
    text of a UUID. *)

Definition pg_uuid (uuid : string → bool) (v : string) : Result () :=
  if uuid v then Ok () else Err (DriverError "invalid input syntax for type uuid").

Definition pg_text (v : string) : Result () :=
  if has_nul v then Err (DriverError "invalid byte sequence for encoding UTF8: 0x00")
  else Ok ().

Definition pg_jsonb (payload : Payload) : Result () :=
  if existsb (λ m, match m.2 with JString v => has_nul v | _ => false end) payload
  then Err (DriverError "unsupported Unicode escape sequence")
  else Ok ().

Definition pg_varchar (n : nat) (v : string) : Result () :=
  if (char_length v <=? n)%nat || all_spaces (drop_chars n v) then Ok ()
  else Err (DriverError "value too long for type character varying").

(** The value a [VARCHAR(n)] column keeps of a text it has accepted. *)
Definition varchar (n : nat) (v : string) : string :=
  if (char_length v <=? n)%nat then v else take_chars n v.

(** Prices are counted in minor units: ten digits in all, two of them
    after the point. *)
Definition pg_decimal_10_2 (v : Z) : Result () :=
  if Z.abs v <? 10 ^ 10 then Ok () else Err (DriverError "numeric field overflow").

(** A nullable column. *)
Definition pg_null {A} (check : A → Result ()) (o : option A) : Result () :=
  match o with
  | Some v => check v
  | None => Ok ()
  end.

(** ** Write store: the tables of the write database schema *)

Module Bookings.
Record row := {
  id : string;
  user_id : string;
  route_id : string;
  schedule_id : string;
  seat_number : option string;
  passenger_name : string;
  passenger_email : string;
  passenger_phone : option string;
  price : Z;
  currency : string;
  status : BookingStatus;
  payment_id : option string;
  reserved_at : option Z;
  confirmed_at : option Z;
  cancelled_at : option Z;
  expires_at : option Z;
  created_at : Z;
  updated_at : Z
}.

(** [SET status = 'CONFIRMED', payment_id = $2, confirmed_at = $3,
    updated_at = $4, expires_at = NULL] *)
Definition set_confirmed (paymentId : string) (now : Z) (r : row) : row :=
  {| id := id r; user_id := user_id r; route_id := route_id r;
     schedule_id := schedule_id r; seat_number := seat_number r;
     passenger_name := passenger_name r; passenger_email := passenger_email r;
     passenger_phone := passenger_phone r; price := price r;
     currency := currency r;
     status := CONFIRMED;
     payment_id := Some paymentId;
     reserved_at := reserved_at r;
     confirmed_at := Some now;
     cancelled_at := cancelled_at r;
     expires_at := None;
     created_at := created_at r;
     updated_at := now |}.

(** [SET status = 'CANCELLED', cancelled_at = $2, updated_at = $3,
    expires_at = NULL] *)
Definition set_cancelled (now : Z) (r : row) : row :=
  {| id := id r; user_id := user_id r; route_id := route_id r;
     schedule_id := schedule_id r; seat_number := seat_number r;
     passenger_name := passenger_name r; passenger_email := passenger_email r;
     passenger_phone := passenger_phone r; price := price r;
     currency := currency r;
     status := CANCELLED;
     payment_id := payment_id r;
     reserved_at := reserved_at r;
     confirmed_at := confirmed_at r;
     cancelled_at := Some now;
     expires_at := None;
     created_at := created_at r;
     updated_at := now |}.

(** The parameters of an insertion as the columns take them: the
    identifiers and the texts when the statement is bound, in the order
    of the parameters, then the widths and the price when the row is
    built, in the order of the columns. *)
Definition accepts (uuid : string → bool) (r : row) : Result () :=
  pg_uuid uuid (id r);;
  pg_uuid uuid (user_id r);;
  pg_uuid uuid (route_id r);;
  pg_uuid uuid (schedule_id r);;
  pg_null pg_text (seat_number r);;
  pg_text (passenger_name r);;
  pg_text (passenger_email r);;
  pg_null pg_text (passenger_phone r);;
  pg_text (currency r);;
  pg_null (pg_varchar 10) (seat_number r);;
  pg_varchar 255 (passenger_name r);;
  pg_varchar 255 (passenger_email r);;
  pg_null (pg_varchar 20) (passenger_phone r);;
  pg_decimal_10_2 (price r);;
  pg_varchar 3 (currency r).

(** The row as the table keeps it. *)
Definition stored (r : row) : row :=
  {| id := id r; user_id := user_id r; route_id := route_id r;
     schedule_id := schedule_id r;
     seat_number := varchar 10 <$> seat_number r;
     passenger_name := varchar 255 (passenger_name r);
     passenger_email := varchar 255 (passenger_email r);
     passenger_phone := varchar 20 <$> passenger_phone r;
     price := price r;
     currency := varchar 3 (currency r);
     status := status r;
     payment_id := payment_id r;
     reserved_at := reserved_at r;
     confirmed_at := confirmed_at r;
     cancelled_at := cancelled_at r;
     expires_at := expires_at r;
     created_at := created_at r;
     updated_at := updated_at r |}.
End Bookings.

Inductive SeatStatus := AVAILABLE | LOCKED | BOOKED.

#[global] Instance SeatStatus_eq_dec : EqDecision SeatStatus.
Proof. solve_decision. Defined.

(** Keyed by [UNIQUE(schedule_id, seat_number)]. *)
Module SeatAvailability.
Record row := {
  booking_id : option string;
  status : SeatStatus;
  locked_until : option Z;
  updated_at : Z
}.

(** [SET status = 'BOOKED', booking_id = $1, updated_at = $2] *)
Definition set_booked_by (bookingId : string) (now : Z) (r : row) : row :=
  {| booking_id := Some bookingId; status := BOOKED;
     locked_until := locked_until r; updated_at := now |}.

(** [SET status = 'LOCKED', booking_id = $1, locked_until = $2,
    updated_at = $3] *)
Definition set_locked (bookingId : string) (expiresAt now : Z) (r : row) : row :=
  {| booking_id := Some bookingId; status := LOCKED;
     locked_until := Some expiresAt; updated_at := now |}.

(** [SET status = 'BOOKED', locked_until = NULL, updated_at = $1] *)
Definition set_booked (now : Z) (r : row) : row :=
  {| booking_id := booking_id r; status := BOOKED;
     locked_until := None; updated_at := now |}.

(** [SET status = 'AVAILABLE', booking_id = NULL, locked_until = NULL,
    updated_at = $1] *)
Definition set_available (now : Z) (r : row) : row :=
  {| booking_id := None; status := AVAILABLE;
     locked_until := None; updated_at := now |}.
End SeatAvailability.

Module BookingEvents.
Record row := {
  event_id : string;
  event_type : string;
  aggregate_id : string;
  aggregate_type : string;
  payload : Payload;
  correlation_id : option string;
  version : Z
}.

(** The parameters of an insertion as the columns take them. *)
Definition accepts (uuid : string → bool) (e : row) : Result () :=
  pg_uuid uuid (event_id e);;
  pg_text (event_type e);;
  pg_uuid uuid (aggregate_id e);;
  pg_text (aggregate_type e);;
  pg_jsonb (payload e);;
  pg_null (pg_uuid uuid) (correlation_id e);;
  pg_varchar 50 (event_type e);;
  pg_varchar 50 (aggregate_type e).
End BookingEvents.

Record WriteStore := {
  bookings : gmap string Bookings.row;
  seat_availability : gmap (string * string) SeatAvailability.row;
  booking_events : list BookingEvents.row
}.

Definition set_bookings (f : gmap string Bookings.row → gmap string Bookings.row)
    (s : WriteStore) : WriteStore :=
  {| bookings := f (bookings s);
     seat_availability := seat_availability s;
     booking_events := booking_events s |}.

Definition set_seat_availability
    (f : gmap (string * string) SeatAvailability.row
         → gmap (string * string) SeatAvailability.row)
    (s : WriteStore) : WriteStore :=
  {| bookings := bookings s;
     seat_availability := f (seat_availability s);
     booking_events := booking_events s |}.

Definition set_booking_events
    (f : list BookingEvents.row → list BookingEvents.row)
    (s : WriteStore) : WriteStore :=
  {| bookings := bookings s;
     seat_availability := seat_availability s;
     booking_events := f (booking_events s) |}.

(** ** infrastructure/database/writeDb.ts

    A [PoolClient] holds the database as this connection sees it and a
    fault plan: [budget = Some n] lets [n] more statements through and
    then loses the connection, [None] never fails. A transaction body is a
    computation over the client that either returns or throws. *)

Record PoolClient := {
  db : WriteStore;
  budget : option nat
}.

Definition Tx (A : Type) : Type := PoolClient → Result A * PoolClient.

#[global] Instance Tx_ret : MRet Tx := λ A a c, (Ok a, c).

#[global] Instance Tx_bind : MBind Tx := λ A B f m c,
  match m c with
  | (Ok a, c') => f a c'
  | (Err e, c') => (Err e, c')
  end.

Definition throw {A} (e : AppError) : Tx A := λ c, (Err e, c).

(** [client.query(text, params)]: one statement, acting on the database
    unless the connection is gone. *)
Definition query {A} (stmt : WriteStore → Result A * WriteStore) : Tx A := λ c,
  match budget c with
  | Some O => (Err (DriverError "Connection terminated"), c)
  | b =>
      let '(r, s') := stmt (db c) in
      (r, {| db := s'; budget := Nat.pred <$> b |})
  end.

(** [BEGIN], [COMMIT] and [ROLLBACK] as statements: the snapshot and its
    restoration are done by [transaction] below. *)
Definition control : WriteStore → Result () * WriteStore := λ s, (Ok (), s).

(** [writeDb.transaction(callback)]: what the callback has written is kept
    when [COMMIT] has run, and is undone otherwise (by [ROLLBACK], or by
    the server when the connection is lost); the error of the [catch]
    block is rethrown, unless [ROLLBACK] itself throws. *)
Definition transaction {A} (fault : option nat) (callback : Tx A)
    (s : WriteStore) : Result A * WriteStore :=
  let client := {| db := s; budget := fault |} in
  match (query control ≫= λ _, callback ≫= λ result,
         query control ≫= λ _, mret result) client with
  | (Ok result, client') => (Ok result, db client')
  | (Err error, client') =>
      match query control client' with
      | (Ok _, _) => (Err error, s)
      | (Err error', _) => (Err error', s)
      end
  end.

(** ** The statements the command handlers send *)

Definition Statement (A : Type) : Type := WriteStore → Result A * WriteStore.

(** [SELECT * FROM bookings WHERE id = $1 FOR UPDATE] *)
Definition select_booking (id : string) : Statement (option Bookings.row) :=
  λ s, (Ok (bookings s !! id), s).

(** [SELECT .. FROM seat_availability WHERE schedule_id = $1 AND
    seat_number = $2 AND <cond> FOR UPDATE] *)
Definition select_seat (cond : SeatAvailability.row → bool)
    (schedule_id seat_number : string) : Statement (option SeatAvailability.row) :=
  λ s, (Ok (match seat_availability s !! (schedule_id, seat_number) with
            | Some r => if cond r then Some r else None
            | None => None
            end), s).

Definition is_available (r : SeatAvailability.row) : bool :=
  bool_decide (SeatAvailability.status r = AVAILABLE).

(** [status = 'AVAILABLE' OR (status = 'LOCKED' AND locked_until < NOW())];
    a comparison with a NULL [locked_until] is not true. *)
Definition is_acquirable (now : Z) (r : SeatAvailability.row) : bool :=
  bool_decide (SeatAvailability.status r = AVAILABLE)
  || (bool_decide (SeatAvailability.status r = LOCKED)
      && match SeatAvailability.locked_until r with
         | Some t => t <? now
         | None => false
         end).

(** [INSERT INTO bookings (..) VALUES (..) RETURNING *]: the values
    are taken by the columns, and [id] is the primary key. *)
Definition insert_booking (uuid : string → bool) (r : Bookings.row)
    : Statement Bookings.row :=
  λ s, match Bookings.accepts uuid r with
       | Err e => (Err e, s)
       | Ok _ =>
           let r' := Bookings.stored r in
           match bookings s !! Bookings.id r' with
           | Some _ =>
               (Err (DriverError "duplicate key value violates unique constraint bookings_pkey"), s)
           | None => (Ok r', set_bookings (insert (Bookings.id r') r') s)
           end
       end.

(** [UPDATE bookings SET .. WHERE id = $n RETURNING *] *)
Definition update_booking (f : Bookings.row → Bookings.row) (id : string)
    : Statement (option Bookings.row) :=
  λ s, (Ok (f <$> bookings s !! id), set_bookings (alter f id) s).

(** [UPDATE bookings SET status = $1, payment_id = $2, confirmed_at = $3,
    updated_at = $4, expires_at = NULL WHERE id = $5 RETURNING *];
    [payment_id] is a [UUID] column. *)
Definition update_booking_payment (uuid : string → bool) (paymentId : string)
    (now : Z) (id : string) : Statement (option Bookings.row) :=
  λ s, match pg_uuid uuid paymentId with
       | Err e => (Err e, s)
       | Ok _ => update_booking (Bookings.set_confirmed paymentId now) id s
       end.

(** [UPDATE seat_availability SET .. WHERE schedule_id = $n AND
    seat_number = $m] *)
Definition update_seat (f : SeatAvailability.row → SeatAvailability.row)
    (schedule_id seat_number : string) : Statement () :=
  λ s, (Ok (), set_seat_availability (alter f (schedule_id, seat_number)) s).

(** [INSERT INTO booking_events (..) VALUES (..)]: the values are taken
    by the columns ([correlation_id] is a [UUID] column), [event_id] is
    UNIQUE, (aggregate_id, version) is an index without uniqueness. *)
Definition insert_event (uuid : string → bool) (e : BookingEvents.row) : Statement () :=
  λ s, match BookingEvents.accepts uuid e with
       | Err e' => (Err e', s)
       | Ok _ =>
           if existsb (λ e', String.eqb (BookingEvents.event_id e')
                                       (BookingEvents.event_id e))
                      (booking_events s)
           then (Err (DriverError "duplicate key value violates unique constraint booking_events_event_id_key"), s)
           else (Ok (), set_booking_events (λ l, l ++ [e]) s)
       end.

(** ** infrastructure/messaging/kafka.ts and events/publisher.ts *)

Module Message.
Record t := {
  key : string;
  value : DomainEvent.t;
  eventType : string;
  correlationId : string
}.
End Message.

Record World := {
  writeDb : WriteStore;
  ticket_events : list Message.t
}.

(** What one handler invocation reads from outside: the clock, the
    successive results of [uuidv4()], the fault plan of its database
    connection, whether the producer can send, and the test PostgreSQL
    makes of the text of a UUID. *)
Record Env := {
  now : Z;
  uuidv4 : nat → string;
  dbFault : option nat;
  busUp : bool;
  pgUuid : string → bool
}.

(** The message [producer.send] is given for an event. *)
Definition message_of (event : DomainEvent.t) : Message.t :=
  {| Message.key := DomainEvent.aggregateId event;
     Message.value := event;
     Message.eventType := DomainEvent.eventType event;
     Message.correlationId :=
       default EmptyString (or_null (DomainEvent.correlationId event)) |}.

Definition publishEvent (env : Env) (event : DomainEvent.t)
    (topic : list Message.t) : Result () * list Message.t :=
  if busUp env then (Ok (), topic ++ [message_of event])
  else (Err (DriverError "KafkaJSConnectionError"), topic).

Definition createBaseEvent (env : Env) (n : nat) (eventType : TicketEventType)
    (aggregateId : string) (correlationId : option string) (payload : Payload)
    : DomainEvent.t :=
  {| DomainEvent.eventId := uuidv4 env n;
     DomainEvent.eventType := TicketEventType_str eventType;
     DomainEvent.aggregateId := aggregateId;
     DomainEvent.aggregateType := "Booking";
     DomainEvent.timestamp := now env;
     DomainEvent.version := 1;
     DomainEvent.correlationId := correlationId;
     DomainEvent.payload := payload |}.

(** The event each [publishTicket..] builds; [n] is the rank of its
    [uuidv4()] call in the handler's invocation. *)
Definition TicketBookedEvent (env : Env) (n : nat) (booking : Booking.t)
    (correlationId : option string) : DomainEvent.t :=
  createBaseEvent env n TICKET_BOOKED (Booking.id booking) correlationId
    [ ("bookingId", JString (Booking.id booking));
      ("userId", JString (Booking.userId booking));
      ("routeId", JString (Booking.routeId booking));
      ("scheduleId", JString (Booking.scheduleId booking));
      ("seatNumber", match Booking.seatNumber booking with
                     | Some x => JString x | None => JNull end);
      ("passengerName", JString (Booking.passengerName booking));
      ("passengerEmail", JString (Booking.passengerEmail booking));
      ("price", JNumber (Booking.price booking));
      ("currency", JString (Booking.currency booking)) ].

Definition TicketReservedEvent (env : Env) (n : nat) (booking : Booking.t)
    (expiresAt : Z) (correlationId : option string) : DomainEvent.t :=
  createBaseEvent env n TICKET_RESERVED (Booking.id booking) correlationId
    [ ("bookingId", JString (Booking.id booking));
      ("userId", JString (Booking.userId booking));
      ("routeId", JString (Booking.routeId booking));
      ("scheduleId", JString (Booking.scheduleId booking));
      ("seatNumber", match Booking.seatNumber booking with
                     | Some x => JString x | None => JNull end);
      ("passengerName", JString (Booking.passengerName booking));
      ("passengerEmail", JString (Booking.passengerEmail booking));
      ("price", JNumber (Booking.price booking));
      ("currency", JString (Booking.currency booking));
      ("expiresAt", JDate expiresAt) ].

Definition TicketConfirmedEvent (env : Env) (n : nat)
    (bookingId userId paymentId : string) (correlationId : option string)
    : DomainEvent.t :=
  createBaseEvent env n TICKET_CONFIRMED bookingId correlationId
    [ ("bookingId", JString bookingId);
      ("userId", JString userId);
      ("paymentId", JString paymentId);
      ("confirmedAt", JDate (now env)) ].

Definition TicketCancelledEvent (env : Env) (n : nat)
    (bookingId userId : string) (reason : option string)
    (refundAmount : option Z) (correlationId : option string) : DomainEvent.t :=
  createBaseEvent env n TICKET_CANCELLED bookingId correlationId
    [ ("bookingId", JString bookingId);
      ("userId", JString userId);
      ("reason", js_string reason);
      ("cancelledAt", JDate (now env));
      ("refundAmount", match refundAmount with
                       | Some x => JNumber x | None => JUndefined end) ].

Definition TicketExpiredEvent (env : Env) (n : nat)
    (bookingId userId : string) (correlationId : option string) : DomainEvent.t :=
  createBaseEvent env n TICKET_EXPIRED bookingId correlationId
    [ ("bookingId", JString bookingId);
      ("userId", JString userId);
      ("expiredAt", JDate (now env)) ].

Definition publishTicketBooked (env : Env) (n : nat) (booking : Booking.t)
    (correlationId : option string) (topic : list Message.t)
    : Result () * list Message.t :=
  publishEvent env (TicketBookedEvent env n booking correlationId) topic.

Definition publishTicketReserved (env : Env) (n : nat) (booking : Booking.t)
    (expiresAt : Z) (correlationId : option string) (topic : list Message.t)
    : Result () * list Message.t :=
  publishEvent env (TicketReservedEvent env n booking expiresAt correlationId) topic.

Definition publishTicketConfirmed (env : Env) (n : nat)
    (bookingId userId paymentId : string) (correlationId : option string)
    (topic : list Message.t) : Result () * list Message.t :=
  publishEvent env
    (TicketConfirmedEvent env n bookingId userId paymentId correlationId) topic.

Definition publishTicketCancelled (env : Env) (n : nat)
    (bookingId userId : string) (reason : option string)
    (refundAmount : option Z) (correlationId : option string)
    (topic : list Message.t) : Result () * list Message.t :=
  publishEvent env
    (TicketCancelledEvent env n bookingId userId reason refundAmount correlationId)
    topic.

(** No handler and no task of the service calls this one. *)
Definition publishTicketExpired (env : Env) (n : nat)
    (bookingId userId : string) (correlationId : option string)
    (topic : list Message.t) : Result () * list Message.t :=
  publishEvent env (TicketExpiredEvent env n bookingId userId correlationId) topic.

(** ** commands: shared pieces *)

Definition mapRowToBooking (row : Bookings.row) : Booking.t :=
  {| Booking.id := Bookings.id row;
     Booking.userId := Bookings.user_id row;
     Booking.routeId := Bookings.route_id row;
     Booking.scheduleId := Bookings.schedule_id row;
     Booking.seatNumber := Bookings.seat_number row;
     Booking.passengerName := Bookings.passenger_name row;
     Booking.passengerEmail := Bookings.passenger_email row;
     Booking.passengerPhone := Bookings.passenger_phone row;
     Booking.price := Bookings.price row;
     Booking.currency := Bookings.currency row;
     Booking.status := Bookings.status row;
     Booking.paymentId := Bookings.payment_id row;
     Booking.reservedAt := Bookings.reserved_at row;
     Booking.confirmedAt := Bookings.confirmed_at row;
     Booking.cancelledAt := Bookings.cancelled_at row;
     Booking.expiresAt := Bookings.expires_at row;
     Booking.createdAt := Bookings.created_at row;
     Booking.updatedAt := Bookings.updated_at row |}.

(** [mapRowToBooking(result.rows[0])] *)
Definition first_row (rows : option Bookings.row) : Tx Booking.t :=
  match rows with
  | Some row => mret (mapRowToBooking row)
  | None => throw (TypeError "Cannot read properties of undefined")
  end.

Definition event_row (env : Env) (n : nat) (eventType : TicketEventType)
    (aggregateId : string) (payload : Payload) (correlationId : option string)
    (version : Z) : BookingEvents.row :=
  {| BookingEvents.event_id := uuidv4 env n;
     BookingEvents.event_type := TicketEventType_str eventType;
     BookingEvents.aggregate_id := aggregateId;
     BookingEvents.aggregate_type := "Booking";
     BookingEvents.payload := payload;
     BookingEvents.correlation_id := or_null correlationId;
     BookingEvents.version := version |}.

(** A failed publish is logged by the handler and goes no further. *)
Definition try_publish (r : Result () * list Message.t) : list Message.t := snd r.

(** ** commands/bookTicket.ts *)

Definition validateBookTicketCommand (command : BookTicketCommand.t) : Result () :=
  if negb (truthy (BookTicketCommand.userId command)) then
    Err (BadRequestError "userId is required")
  else if negb (truthy (BookTicketCommand.routeId command)) then
    Err (BadRequestError "routeId is required")
  else if negb (truthy (BookTicketCommand.scheduleId command)) then
    Err (BadRequestError "scheduleId is required")
  else if negb (truthy (BookTicketCommand.passengerName command)) then
    Err (BadRequestError "passengerName is required")
  else if negb (truthy (BookTicketCommand.passengerEmail command)) then
    Err (BadRequestError "passengerEmail is required")
  else if BookTicketCommand.price command <=? 0 then
    Err (BadRequestError "price must be greater than 0")
  else Ok ().

Definition bookTicket_callback (env : Env) (command : BookTicketCommand.t)
    (correlationId : option string) : Tx Booking.t :=
  let seat := or_null (BookTicketCommand.seatNumber command) in
  match seat with
  | Some seatNumber =>
      seatCheck ← query (select_seat is_available
                           (BookTicketCommand.scheduleId command) seatNumber);
      match seatCheck with
      | None => throw (InsufficientSeatsError
                         ("Seat " +:+ seatNumber +:+ " is not available"))
      | Some _ => mret ()
      end
  | None => mret ()
  end;;
  let bookingId := uuidv4 env 0 in
  result ← query (insert_booking (pgUuid env)
    {| Bookings.id := bookingId;
       Bookings.user_id := BookTicketCommand.userId command;
       Bookings.route_id := BookTicketCommand.routeId command;
       Bookings.schedule_id := BookTicketCommand.scheduleId command;
       Bookings.seat_number := seat;
       Bookings.passenger_name := BookTicketCommand.passengerName command;
       Bookings.passenger_email := BookTicketCommand.passengerEmail command;
       Bookings.passenger_phone := or_null (BookTicketCommand.passengerPhone command);
       Bookings.price := BookTicketCommand.price command;
       Bookings.currency := default "USD" (or_null (BookTicketCommand.currency command));
       Bookings.status := PENDING;
       Bookings.payment_id := None;
       Bookings.reserved_at := None;
       Bookings.confirmed_at := None;
       Bookings.cancelled_at := None;
       Bookings.expires_at := None;
       Bookings.created_at := now env;
       Bookings.updated_at := now env |});
  match seat with
  | Some seatNumber =>
      query (update_seat (SeatAvailability.set_booked_by bookingId (now env))
               (BookTicketCommand.scheduleId command) seatNumber)
  | None => mret ()
  end;;
  query (insert_event (pgUuid env)
    (event_row env 1 TICKET_BOOKED bookingId
       [ ("bookingId", JString bookingId);
         ("userId", JString (BookTicketCommand.userId command));
         ("routeId", JString (BookTicketCommand.routeId command));
         ("scheduleId", JString (BookTicketCommand.scheduleId command));
         ("seatNumber", js_string (BookTicketCommand.seatNumber command));
         ("price", JNumber (BookTicketCommand.price command)) ]
       correlationId 1));;
  mret (mapRowToBooking result).

Definition bookTicketHandler (env : Env) (command : BookTicketCommand.t)
    (correlationId : option string) (w : World) : Result Booking.t * World :=
  match validateBookTicketCommand command with
  | Err e => (Err e, w)
  | Ok _ =>
      match transaction (dbFault env) (bookTicket_callback env command correlationId)
                        (writeDb w) with
      | (Err e, s) => (Err e, {| writeDb := s; ticket_events := ticket_events w |})
      | (Ok booking, s) =>
          (Ok booking,
           {| writeDb := s;
              ticket_events :=
                try_publish (publishTicketBooked env 2 booking correlationId
                               (ticket_events w)) |})
      end
  end.

(** ** commands/reserveTicket.ts *)

Definition DEFAULT_RESERVATION_DURATION_MINUTES : Z := 15.

Module ReserveTicketResult.
Record t := {
  booking : Booking.t;
  expiresAt : Z
}.
End ReserveTicketResult.

Definition validateReserveTicketCommand (command : ReserveTicketCommand.t) : Result () :=
  if negb (truthy (ReserveTicketCommand.userId command)) then
    Err (BadRequestError "userId is required")
  else if negb (truthy (ReserveTicketCommand.routeId command)) then
    Err (BadRequestError "routeId is required")
  else if negb (truthy (ReserveTicketCommand.scheduleId command)) then
    Err (BadRequestError "scheduleId is required")
  else if negb (truthy (ReserveTicketCommand.passengerName command)) then
    Err (BadRequestError "passengerName is required")
  else if negb (truthy (ReserveTicketCommand.passengerEmail command)) then
    Err (BadRequestError "passengerEmail is required")
  else if ReserveTicketCommand.price command <=? 0 then
    Err (BadRequestError "price must be greater than 0")
  else Ok ().

Definition reservationDuration (command : ReserveTicketCommand.t) : Z :=
  or_num (ReserveTicketCommand.reservationDurationMinutes command)
         DEFAULT_RESERVATION_DURATION_MINUTES.

Definition reserveTicket_callback (env : Env) (command : ReserveTicketCommand.t)
    (correlationId : option string) : Tx ReserveTicketResult.t :=
  let seat := or_null (ReserveTicketCommand.seatNumber command) in
  match seat with
  | Some seatNumber =>
      seatCheck ← query (select_seat (is_acquirable (now env))
                           (ReserveTicketCommand.scheduleId command) seatNumber);
      match seatCheck with
      | None => throw (InsufficientSeatsError
                         ("Seat " +:+ seatNumber +:+ " is not available"))
      | Some _ => mret ()
      end
  | None => mret ()
  end;;
  let bookingId := uuidv4 env 0 in
  let expiresAt := now env + reservationDuration command * 60 * 1000 in
  bookingResult ← query (insert_booking (pgUuid env)
    {| Bookings.id := bookingId;
       Bookings.user_id := ReserveTicketCommand.userId command;
       Bookings.route_id := ReserveTicketCommand.routeId command;
       Bookings.schedule_id := ReserveTicketCommand.scheduleId command;
       Bookings.seat_number := seat;
       Bookings.passenger_name := ReserveTicketCommand.passengerName command;
       Bookings.passenger_email := ReserveTicketCommand.passengerEmail command;
       Bookings.passenger_phone := or_null (ReserveTicketCommand.passengerPhone command);
       Bookings.price := ReserveTicketCommand.price command;
       Bookings.currency := default "USD" (or_null (ReserveTicketCommand.currency command));
       Bookings.status := RESERVED;
       Bookings.payment_id := None;
       Bookings.reserved_at := Some (now env);
       Bookings.confirmed_at := None;
       Bookings.cancelled_at := None;
       Bookings.expires_at := Some expiresAt;
       Bookings.created_at := now env;
       Bookings.updated_at := now env |});
  match seat with
  | Some seatNumber =>
      query (update_seat (SeatAvailability.set_locked bookingId expiresAt (now env))
               (ReserveTicketCommand.scheduleId command) seatNumber)
  | None => mret ()
  end;;
  query (insert_event (pgUuid env)
    (event_row env 1 TICKET_RESERVED bookingId
       [ ("bookingId", JString bookingId);
         ("userId", JString (ReserveTicketCommand.userId command));
         ("routeId", JString (ReserveTicketCommand.routeId command));
         ("scheduleId", JString (ReserveTicketCommand.scheduleId command));
         ("seatNumber", js_string (ReserveTicketCommand.seatNumber command));
         ("price", JNumber (ReserveTicketCommand.price command));
         ("expiresAt", JDate expiresAt) ]
       correlationId 1));;
  mret {| ReserveTicketResult.booking := mapRowToBooking bookingResult;
          ReserveTicketResult.expiresAt := expiresAt |}.

Definition reserveTicketHandler (env : Env) (command : ReserveTicketCommand.t)
    (correlationId : option string) (w : World)
    : Result ReserveTicketResult.t * World :=
  match validateReserveTicketCommand command with
  | Err e => (Err e, w)
  | Ok _ =>
      match transaction (dbFault env) (reserveTicket_callback env command correlationId)
                        (writeDb w) with
      | (Err e, s) => (Err e, {| writeDb := s; ticket_events := ticket_events w |})
      | (Ok result, s) =>
          (Ok result,
           {| writeDb := s;
              ticket_events :=
                try_publish (publishTicketReserved env 2
                               (ReserveTicketResult.booking result)
                               (ReserveTicketResult.expiresAt result)
                               correlationId (ticket_events w)) |})
      end
  end.

(** ** commands/confirmTicket.ts *)

Definition validateConfirmTicketCommand (command : ConfirmTicketCommand.t) : Result () :=
  if negb (truthy (ConfirmTicketCommand.bookingId command)) then
    Err (BadRequestError "bookingId is required")
  else if negb (truthy (ConfirmTicketCommand.paymentId command)) then
    Err (BadRequestError "paymentId is required")
  else Ok ().

(** [existingBooking.expires_at && new Date(existingBooking.expires_at) < new Date()] *)
Definition has_expired (now : Z) (existingBooking : Bookings.row) : bool :=
  match Bookings.expires_at existingBooking with
  | Some t => t <? now
  | None => false
  end.

Definition confirmTicket_callback (env : Env) (command : ConfirmTicketCommand.t)
    (correlationId : option string) : Tx Booking.t :=
  currentBooking ← query (select_booking (ConfirmTicketCommand.bookingId command));
  match currentBooking with
  | None => throw (BookingNotFoundError (ConfirmTicketCommand.bookingId command))
  | Some existingBooking =>
      if bool_decide (Bookings.status existingBooking ≠ RESERVED)
         && bool_decide (Bookings.status existingBooking ≠ PENDING) then
        throw (InvalidBookingStateError (Bookings.status existingBooking)
                 (BookingStatus_str RESERVED +:+ " or " +:+ BookingStatus_str PENDING))
      else if has_expired (now env) existingBooking then
        throw (InvalidBookingStateError (Bookings.status existingBooking)
                 "Reservation has expired")
      else
        result ← query (update_booking_payment (pgUuid env)
          (ConfirmTicketCommand.paymentId command) (now env)
          (ConfirmTicketCommand.bookingId command));
        match or_null (Bookings.seat_number existingBooking) with
        | Some seat_number =>
            query (update_seat (SeatAvailability.set_booked (now env))
                     (Bookings.schedule_id existingBooking) seat_number)
        | None => mret ()
        end;;
        query (insert_event (pgUuid env)
          (event_row env 0 TICKET_CONFIRMED (ConfirmTicketCommand.bookingId command)
             [ ("bookingId", JString (ConfirmTicketCommand.bookingId command));
               ("paymentId", JString (ConfirmTicketCommand.paymentId command));
               ("confirmedAt", JDate (now env)) ]
             correlationId 2));;
        first_row result
  end.

Definition confirmTicketHandler (env : Env) (command : ConfirmTicketCommand.t)
    (correlationId : option string) (w : World) : Result Booking.t * World :=
  match validateConfirmTicketCommand command with
  | Err e => (Err e, w)
  | Ok _ =>
      match transaction (dbFault env) (confirmTicket_callback env command correlationId)
                        (writeDb w) with
      | (Err e, s) => (Err e, {| writeDb := s; ticket_events := ticket_events w |})
      | (Ok booking, s) =>
          (Ok booking,
           {| writeDb := s;
              ticket_events :=
                try_publish (publishTicketConfirmed env 1 (Booking.id booking)
                               (Booking.userId booking)
                               (ConfirmTicketCommand.paymentId command)
                               correlationId (ticket_events w)) |})
      end
  end.

(** ** commands/cancelTicket.ts *)

Module CancelTicketResult.
Record t := {
  booking : Booking.t;
  refundAmount : option Z
}.
End CancelTicketResult.

Definition validateCancelTicketCommand (command : CancelTicketCommand.t) : Result () :=
  if negb (truthy (CancelTicketCommand.bookingId command)) then
    Err (BadRequestError "bookingId is required")
  else Ok ().

Definition cancellableStates : list BookingStatus := [PENDING; RESERVED; CONFIRMED].

(** [cancellableStates.join(' or ')] *)
Fixpoint join (sep : string) (l : list string) : string :=
  match l with
  | [] => EmptyString
  | [x] => x
  | x :: l' => x +:+ sep +:+ join sep l'
  end.

Definition cancelTicket_callback (env : Env) (command : CancelTicketCommand.t)
    (correlationId : option string) : Tx CancelTicketResult.t :=
  currentBooking ← query (select_booking (CancelTicketCommand.bookingId command));
  match currentBooking with
  | None => throw (BookingNotFoundError (CancelTicketCommand.bookingId command))
  | Some existingBooking =>
      let actualUserId :=
        default (Bookings.user_id existingBooking)
                (or_null (CancelTicketCommand.userId command)) in
      if negb (truthy actualUserId) then
        throw (BadRequestError "userId is required")
      else if truthy_opt (CancelTicketCommand.userId command)
              && bool_decide (Some (Bookings.user_id existingBooking)
                              ≠ CancelTicketCommand.userId command) then
        throw (ForbiddenError "You are not authorized to cancel this booking")
      else if negb (bool_decide (Bookings.status existingBooking ∈ cancellableStates)) then
        throw (InvalidBookingStateError (Bookings.status existingBooking)
                 (join " or " (BookingStatus_str <$> cancellableStates)))
      else
        let refundAmount :=
          if bool_decide (Bookings.status existingBooking = CONFIRMED)
          then Some (Bookings.price existingBooking) else None in
        updateResult ← query (update_booking
          (Bookings.set_cancelled (now env))
          (CancelTicketCommand.bookingId command));
        match or_null (Bookings.seat_number existingBooking) with
        | Some seat_number =>
            query (update_seat (SeatAvailability.set_available (now env))
                     (Bookings.schedule_id existingBooking) seat_number)
        | None => mret ()
        end;;
        query (insert_event (pgUuid env)
          (event_row env 0 TICKET_CANCELLED (CancelTicketCommand.bookingId command)
             [ ("bookingId", JString (CancelTicketCommand.bookingId command));
               ("userId", JString actualUserId);
               ("reason", js_string (CancelTicketCommand.reason command));
               ("cancelledAt", JDate (now env));
               ("refundAmount", js_number refundAmount) ]
             correlationId 2));;
        booking ← first_row updateResult;
        mret {| CancelTicketResult.booking := booking;
                CancelTicketResult.refundAmount := refundAmount |}
  end.

(** [result.refundAmount || undefined] *)
Definition or_undefined (o : option Z) : option Z :=
  match o with
  | Some n => if n =? 0 then None else Some n
  | None => None
  end.

Definition cancelTicketHandler (env : Env) (command : CancelTicketCommand.t)
    (correlationId : option string) (w : World)
    : Result CancelTicketResult.t * World :=
  match validateCancelTicketCommand command with
  | Err e => (Err e, w)
  | Ok _ =>
      match transaction (dbFault env) (cancelTicket_callback env command correlationId)
                        (writeDb w) with
      | (Err e, s) => (Err e, {| writeDb := s; ticket_events := ticket_events w |})
      | (Ok result, s) =>
          (Ok result,
           {| writeDb := s;
              ticket_events :=
                try_publish (publishTicketCancelled env 1
                               (Booking.id (CancelTicketResult.booking result))
                               (Booking.userId (CancelTicketResult.booking result))
                               (CancelTicketCommand.reason command)
                               (or_undefined (CancelTicketResult.refundAmount result))
                               correlationId (ticket_events w)) |})
      end
  end.

(** ** routes/commands.ts: the commands of the service *)

Inductive Command :=
| Book (command : BookTicketCommand.t)
| Reserve (command : ReserveTicketCommand.t)
| Confirm (command : ConfirmTicketCommand.t)
| Cancel (command : CancelTicketCommand.t).

(** The outcome of a command, without its data. *)
Definition run (env : Env) (c : Command) (correlationId : option string)
    (w : World) : Result () * World :=
  match c with
  | Book command =>
      let '(r, w') := bookTicketHandler env command correlationId w in
      (match r with Ok _ => Ok () | Err e => Err e end, w')
  | Reserve command =>
      let '(r, w') := reserveTicketHandler env command correlationId w in
      (match r with Ok _ => Ok () | Err e => Err e end, w')
  | Confirm command =>
      let '(r, w') := confirmTicketHandler env command correlationId w in
      (match r with Ok _ => Ok () | Err e => Err e end, w')
  | Cancel command =>
      let '(r, w') := cancelTicketHandler env command correlationId w in
      (match r with Ok _ => Ok () | Err e => Err e end, w')
  end.


(** ** Read store: the tables of the read database schema *)

Module UserTicketsView.
Record row := {
  id : string;
  user_id : string;
  route_id : string;
  route_name : option string;
  schedule_id : string;
  departure_time : option Z;
  arrival_time : option Z;
  origin_stop : option string;
  destination_stop : option string;
  seat_number : option string;
  passenger_name : string;
  passenger_email : string;
  price : Z;
  currency : option string;
  status : BookingStatus;
  created_at : Z;
  updated_at : Z
}.

Definition set_status (st : BookingStatus) (now : Z) (r : row) : row :=
  {| id := id r; user_id := user_id r; route_id := route_id r;
     route_name := route_name r; schedule_id := schedule_id r;
     departure_time := departure_time r; arrival_time := arrival_time r;
     origin_stop := origin_stop r; destination_stop := destination_stop r;
     seat_number := seat_number r; passenger_name := passenger_name r;
     passenger_email := passenger_email r; price := price r;
     currency := currency r; status := st; created_at := created_at r;
     updated_at := now |}.
End UserTicketsView.

Module ScheduleAvailabilityView.
Record row := {
  total_seats : Z;
  booked_seats : Z;
  updated_at : Z
}.

(** The generated column. *)
Definition available_seats (r : row) : Z := total_seats r - booked_seats r.
End ScheduleAvailabilityView.

Module ProjectionCheckpoints.
Record row := {
  last_processed_event_id : string;
  last_processed_at : Z
}.
End ProjectionCheckpoints.

Record ReadStore := {
  user_tickets_view : gmap string UserTicketsView.row;
  schedule_availability_view : gmap string ScheduleAvailabilityView.row;
  projection_checkpoints : gmap string ProjectionCheckpoints.row
}.

(** ** projections/ticketProjector.ts

    [readDb.query] runs each statement on its own: what a handler has
    written stays when a later statement throws. The cache invalidations
    ([redis.del], [redis.delPattern], which log their errors and never
    throw) act on the cache only and are left out. *)

Definition Proj (A : Type) : Type := ReadStore → Result A * ReadStore.

#[global] Instance Proj_ret : MRet Proj := λ A a s, (Ok a, s).

#[global] Instance Proj_bind : MBind Proj := λ A B f m s,
  match m s with
  | (Ok a, s') => f a s'
  | (Err e, s') => (Err e, s')
  end.

Definition not_null {A} (column : string) (v : option A) : Result A :=
  match v with
  | Some a => Ok a
  | None => Err (DriverError ("null value in column " +:+ column
                          +:+ " violates not-null constraint"))
  end.

(** [INSERT INTO user_tickets_view (..) VALUES (..)
    ON CONFLICT (id) DO UPDATE SET status = EXCLUDED.status,
    updated_at = NOW()]; the proposed row is checked against the NOT NULL
    columns before the conflict is looked at. *)
Definition upsert_ticket (now : Z) (payload : Payload) (status : BookingStatus)
    (created_at : Z) : Proj () := λ s,
  let proposed : Result UserTicketsView.row :=
    id ← not_null "id" (as_string (member "bookingId" payload));
    user_id ← not_null "user_id" (as_string (member "userId" payload));
    route_id ← not_null "route_id" (as_string (member "routeId" payload));
    schedule_id ← not_null "schedule_id" (as_string (member "scheduleId" payload));
    passenger_name ← not_null "passenger_name" (as_string (member "passengerName" payload));
    passenger_email ← not_null "passenger_email" (as_string (member "passengerEmail" payload));
    price ← not_null "price" (as_number (member "price" payload));
    mret {| UserTicketsView.id := id;
            UserTicketsView.user_id := user_id;
            UserTicketsView.route_id := route_id;
            UserTicketsView.route_name := None;
            UserTicketsView.schedule_id := schedule_id;
            UserTicketsView.departure_time := None;
            UserTicketsView.arrival_time := None;
            UserTicketsView.origin_stop := None;
            UserTicketsView.destination_stop := None;
            UserTicketsView.seat_number := as_string (member "seatNumber" payload);
            UserTicketsView.passenger_name := passenger_name;
            UserTicketsView.passenger_email := passenger_email;
            UserTicketsView.price := price;
            UserTicketsView.currency := as_string (member "currency" payload);
            UserTicketsView.status := status;
            UserTicketsView.created_at := created_at;
            UserTicketsView.updated_at := now |} in
  match proposed with
  | Err e => (Err e, s)
  | Ok r =>
      (Ok (),
       {| user_tickets_view :=
            match user_tickets_view s !! UserTicketsView.id r with
            | Some old =>
                <[UserTicketsView.id r :=
                    UserTicketsView.set_status (UserTicketsView.status r) now old]>
                  (user_tickets_view s)
            | None => <[UserTicketsView.id r := r]> (user_tickets_view s)
            end;
          schedule_availability_view := schedule_availability_view s;
          projection_checkpoints := projection_checkpoints s |})
  end.

(** [UPDATE user_tickets_view SET status = $1, updated_at = NOW()
    WHERE id = $2] *)
Definition update_ticket_status (now : Z) (status : BookingStatus)
    (bookingId : JsValue) : Proj () := λ s,
  (Ok (),
   match as_string bookingId with
   | Some id =>
       {| user_tickets_view :=
            alter (UserTicketsView.set_status status now) id (user_tickets_view s);
          schedule_availability_view := schedule_availability_view s;
          projection_checkpoints := projection_checkpoints s |}
   | None => s
   end).

(** [SELECT schedule_id FROM user_tickets_view WHERE id = $1] *)
Definition select_schedule_id (bookingId : JsValue) : Proj (option string) := λ s,
  (Ok (id ← as_string bookingId;
       UserTicketsView.schedule_id <$> user_tickets_view s !! id), s).

(** [GREATEST(0, n)] *)
Definition GREATEST0 (n : Z) : Z := Z.max 0 n.

(** [INSERT INTO schedule_availability_view (schedule_id, total_seats,
    booked_seats) VALUES ($1, 50, GREATEST(0, $2))
    ON CONFLICT (schedule_id) DO UPDATE SET
    booked_seats = GREATEST(0, booked_seats + $2), updated_at = NOW()] *)
Definition updateScheduleAvailability (now : Z) (scheduleId : option string)
    (delta : Z) : Proj () := λ s,
  match not_null "schedule_id" scheduleId with
  | Err e => (Err e, s)
  | Ok schedule_id =>
      (Ok (),
       {| user_tickets_view := user_tickets_view s;
          schedule_availability_view :=
            match schedule_availability_view s !! schedule_id with
            | Some old =>
                <[schedule_id :=
                    {| ScheduleAvailabilityView.total_seats :=
                         ScheduleAvailabilityView.total_seats old;
                       ScheduleAvailabilityView.booked_seats :=
                         GREATEST0 (ScheduleAvailabilityView.booked_seats old + delta);
                       ScheduleAvailabilityView.updated_at := now |}]>
                  (schedule_availability_view s)
            | None =>
                <[schedule_id :=
                    {| ScheduleAvailabilityView.total_seats := 50;
                       ScheduleAvailabilityView.booked_seats := GREATEST0 delta;
                       ScheduleAvailabilityView.updated_at := now |}]>
                  (schedule_availability_view s)
            end;
          projection_checkpoints := projection_checkpoints s |})
  end.

(** [INSERT INTO projection_checkpoints (..) VALUES ($1, $2, NOW())
    ON CONFLICT (projection_name) DO UPDATE SET ..]. The column of the
    event id is of type UUID; the ids on the topic are the [uuidv4] values
    of [createBaseEvent], and the statement is taken as run with such an
    id: the refusal of another text is outside this definition. *)
Definition updateCheckpoint (now : Z) (eventId : string) : Proj () := λ s,
  (Ok (),
   {| user_tickets_view := user_tickets_view s;
      schedule_availability_view := schedule_availability_view s;
      projection_checkpoints :=
        <["ticket_projector" :=
            {| ProjectionCheckpoints.last_processed_event_id := eventId;
               ProjectionCheckpoints.last_processed_at := now |}]>
          (projection_checkpoints s) |}).

Definition handleTicketBooked (now : Z) (event : DomainEvent.t) : Proj () :=
  let payload := DomainEvent.payload event in
  upsert_ticket now payload PENDING (DomainEvent.timestamp event);;
  updateScheduleAvailability now (as_string (member "scheduleId" payload)) 1.

Definition handleTicketReserved (now : Z) (event : DomainEvent.t) : Proj () :=
  let payload := DomainEvent.payload event in
  upsert_ticket now payload RESERVED (DomainEvent.timestamp event);;
  updateScheduleAvailability now (as_string (member "scheduleId" payload)) 1.

Definition handleTicketConfirmed (now : Z) (event : DomainEvent.t) : Proj () :=
  let payload := DomainEvent.payload event in
  update_ticket_status now CONFIRMED (member "bookingId" payload).

Definition handleTicketCancelled (now : Z) (event : DomainEvent.t) : Proj () :=
  let payload := DomainEvent.payload event in
  booking ← select_schedule_id (member "bookingId" payload);
  update_ticket_status now CANCELLED (member "bookingId" payload);;
  match booking with
  | Some schedule_id => updateScheduleAvailability now (Some schedule_id) (-1)
  | None => mret ()
  end.

(** What the consumer hands to [processMessage]: the parsed message value
    and the [eventType] header. *)
Module EachMessagePayload.
Record t := {
  value : option DomainEvent.t;
  eventType : option string
}.
End EachMessagePayload.

Definition deliver (m : Message.t) : EachMessagePayload.t :=
  {| EachMessagePayload.value := Some (Message.value m);
     EachMessagePayload.eventType := Some (Message.eventType m) |}.

Definition processMessage (now : Z) (payload : EachMessagePayload.t) : Proj () :=
  match EachMessagePayload.value payload with
  | None => mret ()
  | Some event =>
      let eventType :=
        default (DomainEvent.eventType event)
                (or_null (EachMessagePayload.eventType payload)) in
      (if String.eqb eventType (TicketEventType_str TICKET_BOOKED) then
         handleTicketBooked now event
       else if String.eqb eventType (TicketEventType_str TICKET_RESERVED) then
         handleTicketReserved now event
       else if String.eqb eventType (TicketEventType_str TICKET_CONFIRMED) then
         handleTicketConfirmed now event
       else if String.eqb eventType (TicketEventType_str TICKET_CANCELLED) then
         handleTicketCancelled now event
       else mret ());;
      updateCheckpoint now (DomainEvent.eventId event)
  end.

(** The consumer's [eachMessage]: an error of the handler is logged and the
    next message is taken; the read store keeps what had been written. *)
Definition eachMessage (now : Z) (payload : EachMessagePayload.t)
    (s : ReadStore) : ReadStore :=
  snd (processMessage now payload s).

(** A stream of messages, every one processed at the instant [now]. *)
Definition project (now : Z) (stream : list EachMessagePayload.t)
    (s : ReadStore) : ReadStore :=
  foldl (λ s payload, eachMessage now payload s) s stream.

(** ** queries/getUserTickets.ts *)

Definition DEFAULT_PAGE : Z := 1.
Definition DEFAULT_LIMIT : Z := 10.
Definition MAX_LIMIT : Z := 100.

Definition validateQuery (query : GetUserTicketsQuery.t) : Result () :=
  if negb (truthy (GetUserTicketsQuery.userId query)) then
    Err (BadRequestError "userId is required")
  else if truthy_num (GetUserTicketsQuery.page query)
          && bool_decide (default 0 (GetUserTicketsQuery.page query) < 1) then
    Err (BadRequestError "page must be at least 1")
  else if truthy_num (GetUserTicketsQuery.limit query)
          && bool_decide (default 0 (GetUserTicketsQuery.limit query) < 1) then
    Err (BadRequestError "limit must be at least 1")
  else Ok ().

Module PaginatedResult.
Record t := {
  data : list UserTicketsView.row;
  total : Z;
  page : Z;
  limit : Z;
  totalPages : Z
}.
End PaginatedResult.

(** [Math.ceil(total / limit)], for a positive [limit]. *)
Definition ceil_div (total limit : Z) : Z := (total + limit - 1) / limit.

(** [redis_get] is the cache as the handler reads it, under the user, page
    and limit of the key; [rows] are the rows of the view as
    [ORDER BY created_at DESC] returns them. [data] holds the selected
    rows ([mapRowToBookingView] renames their columns). The page and the
    limit are whole numbers here; a number with a fraction, which the
    schema of the route admits, is outside this definition. *)
Definition getUserTicketsHandler
    (redis_get : string → Z → Z → option PaginatedResult.t)
    (rows : list UserTicketsView.row)
    (query : GetUserTicketsQuery.t) : Result PaginatedResult.t :=
  match validateQuery query with
  | Err e => Err e
  | Ok _ =>
      let page := or_num (GetUserTicketsQuery.page query) DEFAULT_PAGE in
      let limit := Z.min (or_num (GetUserTicketsQuery.limit query) DEFAULT_LIMIT)
                         MAX_LIMIT in
      let offset := (page - 1) * limit in
      let cached :=
        match GetUserTicketsQuery.status query with
        | None => redis_get (GetUserTicketsQuery.userId query) page limit
        | Some _ => None
        end in
      match cached with
      | Some result => Ok result
      | None =>
          let selected :=
            List.filter
              (λ r, bool_decide (UserTicketsView.user_id r
                                 = GetUserTicketsQuery.userId query)
                    && match GetUserTicketsQuery.status query with
                       | Some st => bool_decide (UserTicketsView.status r = st)
                       | None => true
                       end) rows in
          let total := Z.of_nat (length selected) in
          Ok {| PaginatedResult.data :=
                  take (Z.to_nat limit) (drop (Z.to_nat offset) selected);
                PaginatedResult.total := total;
                PaginatedResult.page := page;
                PaginatedResult.limit := limit;
                PaginatedResult.totalPages := ceil_div total limit |}
      end
  end.

(** ** middleware/validate.ts and the reserve route of routes/commands.ts

    The request body is the parsed JSON object. Whether a string is a UUID
    or an e-mail address is decided by the schema library: [isUuid] and
    [isEmail] stand for its two tests. *)

Record Formats := {
  isUuid : string → bool;
  isEmail : string → bool
}.

Definition Check : Type := JsValue → list ZodIssueCode.

(** [z.string()] followed by a test of the string. *)
Definition z_string (test : string → list ZodIssueCode) : Check := λ v,
  match v with
  | JString s => test s
  | _ => [invalid_type]
  end.

(** [z.number().min(lo).max(hi)] *)
Definition z_number_min_max (lo hi : Z) : Check := λ v,
  match v with
  | JNumber n =>
      (if n <? lo then [too_small] else []) ++ (if hi <? n then [too_big] else [])
  | _ => [invalid_type]
  end.

(** [z.number().positive()] *)
Definition z_number_positive : Check := λ v,
  match v with
  | JNumber n => if n <=? 0 then [too_small] else []
  | _ => [invalid_type]
  end.

(** [.optional()] *)
Definition optional (c : Check) : Check := λ v,
  match v with
  | JUndefined => []
  | _ => c v
  end.

Definition z_uuid (f : Formats) : Check :=
  z_string (λ s, if isUuid f s then [] else [invalid_string]).

(** [z.string().max(n)]; the schema library measures a string by its
    [length]. *)
Definition z_max (n : nat) : Check :=
  z_string (λ s, if bool_decide (js_length s ≤ n)%nat then [] else [too_big]).

Definition schemas_reserveTicket (f : Formats) : list (string * Check) :=
  [ ("routeId", z_uuid f);
    ("scheduleId", z_uuid f);
    ("seatNumber", optional (z_max 10));
    ("passengerName",
      z_string (λ s, (if bool_decide (2 ≤ js_length s)%nat then [] else [too_small])
                     ++ (if bool_decide (js_length s ≤ 255)%nat then [] else [too_big])));
    ("passengerEmail", z_string (λ s, if isEmail f s then [] else [invalid_string]));
    ("passengerPhone", optional (z_max 20));
    ("price", z_number_positive);
    ("currency",
      optional (z_string (λ s, if bool_decide (js_length s = 3%nat) then []
                               else if bool_decide (js_length s < 3)%nat
                                    then [too_small] else [too_big])));
    ("reservationDurationMinutes", optional (z_number_min_max 5 60)) ].

(** [schema.parse(data)]: the issues of every member, under its path. *)
Definition issues (schema : list (string * Check)) (data : Payload)
    : list (string * ZodIssueCode) :=
  '(path, check) ← schema;
  (λ i, (path, i)) <$> check (member path data).

(** [validate(schema)]: the request goes on to the route's handler when
    the schema finds nothing, and to the error handler with a
    [ValidationError] otherwise. *)
Definition validate (schema : list (string * Check)) (data : Payload) : Result () :=
  match issues schema data with
  | [] => Ok ()
  | errors => Err (ValidationError "Validation failed" errors)
  end.

(** [POST /tickets/commands/reserve], for the authenticated user [userId]:
    [validate(schemas.reserveTicket)], then [reserveTicketHandler] on the
    command read off the body ([currency] defaults to USD in the schema). *)
Definition reserve_route (f : Formats) (env : Env) (userId : string)
    (body : Payload) (correlationId : option string) (w : World)
    : Result ReserveTicketResult.t * World :=
  match validate (schemas_reserveTicket f) body with
  | Err e => (Err e, w)
  | Ok _ =>
      reserveTicketHandler env
        {| ReserveTicketCommand.userId := userId;
           ReserveTicketCommand.routeId := default EmptyString (as_string (member "routeId" body));
           ReserveTicketCommand.scheduleId := default EmptyString (as_string (member "scheduleId" body));
           ReserveTicketCommand.seatNumber := as_string (member "seatNumber" body);
           ReserveTicketCommand.passengerName := default EmptyString (as_string (member "passengerName" body));
           ReserveTicketCommand.passengerEmail := default EmptyString (as_string (member "passengerEmail" body));
           ReserveTicketCommand.passengerPhone := as_string (member "passengerPhone" body);
           ReserveTicketCommand.price := default 0 (as_number (member "price" body));
           ReserveTicketCommand.currency := Some (default "USD" (as_string (member "currency" body)));
           ReserveTicketCommand.reservationDurationMinutes :=
             as_number (member "reservationDurationMinutes" body) |}
        correlationId w
  end.

(** ** Notions used by the statements about the code *)

(** The event rows of one aggregate, in insertion order. *)
Definition events_of (aggregateId : string) (s : WriteStore) : list BookingEvents.row :=
  List.filter (λ e, String.eqb (BookingEvents.aggregate_id e) aggregateId)
              (booking_events s).

(** The [bookings] table has no version column: the version of a booking
    is the greatest one its event rows carry (0 when it has none). *)
Definition current_version (aggregateId : string) (s : WriteStore) : Z :=
  foldr Z.max 0 (BookingEvents.version <$> events_of aggregateId s).

(** The [n]-th [uuidv4()] of the invocation is no [event_id] of the store. *)
Definition fresh_event_id (env : Env) (n : nat) (s : WriteStore) : Prop :=
  Forall (λ e, BookingEvents.event_id e ≠ uuidv4 env n) (booking_events s).

(** The [n]-th [uuidv4()] of the invocation is no [id] of a booking. *)
Definition fresh_booking_id (env : Env) (n : nat) (s : WriteStore) : Prop :=
  bookings s !! uuidv4 env n = None.

(** A seat row that a reservation may take at [now]. *)
Definition acquirable (now : Z) (o : option SeatAvailability.row) : Prop :=
  ∃ r, o = Some r
       ∧ (SeatAvailability.status r = AVAILABLE
          ∨ (SeatAvailability.status r = LOCKED
             ∧ ∃ t, SeatAvailability.locked_until r = Some t ∧ t < now)).

(** The caller of a Cancel passes the ownership test of the handler: the
    command names the owner of the booking, or it names nobody and the
    booking has an owner. *)
Definition may_cancel (command : CancelTicketCommand.t) (b : Bookings.row) : Prop :=
  match or_null (CancelTicketCommand.userId command) with
  | Some userId => userId = Bookings.user_id b
  | None => truthy (Bookings.user_id b) = true
  end.

(** Nothing in the world says that a reservation has expired. *)
Definition no_expiry_store (s : WriteStore) : Prop :=
  (∀ id b, bookings s !! id = Some b → Bookings.status b ≠ EXPIRED)
  ∧ Forall (λ e, BookingEvents.event_type e ≠ TicketEventType_str TICKET_EXPIRED)
           (booking_events s).

Definition no_expiry (w : World) : Prop :=
  no_expiry_store (writeDb w)
  ∧ Forall (λ m, Message.eventType m ≠ TicketEventType_str TICKET_EXPIRED)
           (ticket_events w).

(** ** index.ts: what the server runs

    [startServer] creates the topics, starts the projector's consumer and
    starts the HTTP listener; it starts nothing else, and no timer. *)
Inductive Task := CreateTopics | ProjectorConsumer | HttpListener.

Definition startServer : list Task := [CreateTopics; ProjectorConsumer; HttpListener].

Record Service := {
  write_side : World;
  read_side : ReadStore
}.

(** One step of a task: the consumer takes a message of the topic and
    projects it, the listener runs a command on a request (a query writes
    to neither store). Each step has its own clock, identifiers and
    faults. *)
Inductive task_step : Task → Service → Service → Prop :=
| step_CreateTopics sv : task_step CreateTopics sv sv
| step_ProjectorConsumer now m sv :
    m ∈ ticket_events (write_side sv) →
    task_step ProjectorConsumer sv
      {| write_side := write_side sv;
         read_side := eachMessage now (deliver m) (read_side sv) |}
| step_HttpListener env c correlationId sv :
    task_step HttpListener sv
      {| write_side := (run env c correlationId (write_side sv)).2;
         read_side := read_side sv |}.

(** The states of the service after any number of steps of the tasks
    that [startServer] has started. *)
Inductive reachable (sv0 : Service) : Service → Prop :=
| reachable_refl : reachable sv0 sv0
| reachable_step t sv sv' :
    t ∈ startServer → reachable sv0 sv → task_step t sv sv' → reachable sv0 sv'.

(** Every counter of the read store is at least zero. *)
Definition bookedSeats_nonneg (s : ReadStore) : Prop :=
  ∀ scheduleId r, schedule_availability_view s !! scheduleId = Some r →
                  0 ≤ ScheduleAvailabilityView.booked_seats r.

(** The read store after a message that only moves the checkpoint. *)
Definition checkpointed (now : Z) (eventId : string) (s : ReadStore) : ReadStore :=
  {| user_tickets_view := user_tickets_view s;
     schedule_availability_view := schedule_availability_view s;
     projection_checkpoints :=
       <["ticket_projector" :=
           {| ProjectionCheckpoints.last_processed_event_id := eventId;
              ProjectionCheckpoints.last_processed_at := now |}]>
         (projection_checkpoints s) |}.

(** The command with another duration. *)
Definition with_duration (minutes : option Z) (command : ReserveTicketCommand.t)
    : ReserveTicketCommand.t :=
  {| ReserveTicketCommand.userId := ReserveTicketCommand.userId command;
     ReserveTicketCommand.routeId := ReserveTicketCommand.routeId command;
     ReserveTicketCommand.scheduleId := ReserveTicketCommand.scheduleId command;
     ReserveTicketCommand.seatNumber := ReserveTicketCommand.seatNumber command;
     ReserveTicketCommand.passengerName := ReserveTicketCommand.passengerName command;
     ReserveTicketCommand.passengerEmail := ReserveTicketCommand.passengerEmail command;
     ReserveTicketCommand.passengerPhone := ReserveTicketCommand.passengerPhone command;
     ReserveTicketCommand.price := ReserveTicketCommand.price command;
     ReserveTicketCommand.currency := ReserveTicketCommand.currency command;
     ReserveTicketCommand.reservationDurationMinutes := minutes |}.

(** ** The databases the commands leave *)

Definition TicketConfirmedRow (env : Env) (command : ConfirmTicketCommand.t)
    (correlationId : option string) : BookingEvents.row :=
  event_row env 0 TICKET_CONFIRMED (ConfirmTicketCommand.bookingId command)
    [ ("bookingId", JString (ConfirmTicketCommand.bookingId command));
      ("paymentId", JString (ConfirmTicketCommand.paymentId command));
      ("confirmedAt", JDate (now env)) ]
    correlationId 2.

(** After a Confirm of the booking whose row was [b]. *)
Definition confirmed_store (env : Env) (command : ConfirmTicketCommand.t)
    (correlationId : option string) (b : Bookings.row) (s : WriteStore) : WriteStore :=
  {| bookings :=
       alter (Bookings.set_confirmed (ConfirmTicketCommand.paymentId command) (now env))
             (ConfirmTicketCommand.bookingId command) (bookings s);
     seat_availability :=
       match or_null (Bookings.seat_number b) with
       | Some seat_number =>
           alter (SeatAvailability.set_booked (now env))
                 (Bookings.schedule_id b, seat_number) (seat_availability s)
       | None => seat_availability s
       end;
     booking_events := booking_events s ++ [TicketConfirmedRow env command correlationId] |}.

Definition refund_of (b : Bookings.row) : option Z :=
  if bool_decide (Bookings.status b = CONFIRMED) then Some (Bookings.price b) else None.

Definition TicketCancelledRow (env : Env) (command : CancelTicketCommand.t)
    (correlationId : option string) (b : Bookings.row) : BookingEvents.row :=
  event_row env 0 TICKET_CANCELLED (CancelTicketCommand.bookingId command)
    [ ("bookingId", JString (CancelTicketCommand.bookingId command));
      ("userId", JString (default (Bookings.user_id b)
                                  (or_null (CancelTicketCommand.userId command))));
      ("reason", js_string (CancelTicketCommand.reason command));
      ("cancelledAt", JDate (now env));
      ("refundAmount", js_number (refund_of b)) ]
    correlationId 2.

(** After a Cancel of the booking whose row was [b]. *)
Definition cancelled_store (env : Env) (command : CancelTicketCommand.t)
    (correlationId : option string) (b : Bookings.row) (s : WriteStore) : WriteStore :=
  {| bookings :=
       alter (Bookings.set_cancelled (now env))
             (CancelTicketCommand.bookingId command) (bookings s);
     seat_availability :=
       match or_null (Bookings.seat_number b) with
       | Some seat_number =>
           alter (SeatAvailability.set_available (now env))
                 (Bookings.schedule_id b, seat_number) (seat_availability s)
       | None => seat_availability s
       end;
     booking_events := booking_events s ++ [TicketCancelledRow env command correlationId b] |}.

(** The values a Reserve gives to the insertion, and the row it inserts. *)
Definition reserve_values (env : Env) (command : ReserveTicketCommand.t) : Bookings.row :=
  {| Bookings.id := uuidv4 env 0;
     Bookings.user_id := ReserveTicketCommand.userId command;
     Bookings.route_id := ReserveTicketCommand.routeId command;
     Bookings.schedule_id := ReserveTicketCommand.scheduleId command;
     Bookings.seat_number := or_null (ReserveTicketCommand.seatNumber command);
     Bookings.passenger_name := ReserveTicketCommand.passengerName command;
     Bookings.passenger_email := ReserveTicketCommand.passengerEmail command;
     Bookings.passenger_phone := or_null (ReserveTicketCommand.passengerPhone command);
     Bookings.price := ReserveTicketCommand.price command;
     Bookings.currency := default "USD" (or_null (ReserveTicketCommand.currency command));
     Bookings.status := RESERVED;
     Bookings.payment_id := None;
     Bookings.reserved_at := Some (now env);
     Bookings.confirmed_at := None;
     Bookings.cancelled_at := None;
     Bookings.expires_at :=
       Some (now env + reservationDuration command * 60 * 1000);
     Bookings.created_at := now env;
     Bookings.updated_at := now env |}.

Definition reserved_row (env : Env) (command : ReserveTicketCommand.t) : Bookings.row :=
  Bookings.stored (reserve_values env command).

Definition TicketReservedRow (env : Env) (command : ReserveTicketCommand.t)
    (correlationId : option string) : BookingEvents.row :=
  event_row env 1 TICKET_RESERVED (uuidv4 env 0)
    [ ("bookingId", JString (uuidv4 env 0));
      ("userId", JString (ReserveTicketCommand.userId command));
      ("routeId", JString (ReserveTicketCommand.routeId command));
      ("scheduleId", JString (ReserveTicketCommand.scheduleId command));
      ("seatNumber", js_string (ReserveTicketCommand.seatNumber command));
      ("price", JNumber (ReserveTicketCommand.price command));
      ("expiresAt", JDate (now env + reservationDuration command * 60 * 1000)) ]
    correlationId 1.

(** After a Reserve. *)
Definition reserved_store (env : Env) (command : ReserveTicketCommand.t)
    (correlationId : option string) (s : WriteStore) : WriteStore :=
  {| bookings := <[uuidv4 env 0 := reserved_row env command]> (bookings s);
     seat_availability :=
       match or_null (ReserveTicketCommand.seatNumber command) with
       | Some seatNumber =>
           alter (SeatAvailability.set_locked (uuidv4 env 0)
                    (now env + reservationDuration command * 60 * 1000) (now env))
                 (ReserveTicketCommand.scheduleId command, seatNumber)
                 (seat_availability s)
       | None => seat_availability s
       end;
     booking_events := booking_events s ++ [TicketReservedRow env command correlationId] |}.

(** ** Reasoning about transaction bodies *)

(** What holds of the outcome of [m] run on the client [c]. *)
Definition wp {A} (m : Tx A) (c : PoolClient) (Q : Result A → PoolClient → Prop) : Prop :=
  Q (m c).1 (m c).2.

(** A connection without fault. *)
Definition clean (s : WriteStore) : PoolClient := {| db := s; budget := None |}.

(** [m] keeps a property of the database, whatever the faults. *)
Definition preserves {A} (P : WriteStore → Prop) (m : Tx A) : Prop :=
  ∀ c, P (db c) → P (db (m c).2).

Definition Proj_preserves {A} (P : ReadStore → Prop) (m : Proj A) : Prop :=
  ∀ s, P s → P (m s).2.

(** ** Sample data: schedule S1 with seats A1 and A2, user U1 *)

Definition uuids (l : list string) : nat → string :=
  λ n, default EmptyString (l !! n).

(** The identifiers of the sample data are short tokens: a text of one to
    three characters stands for a UUID, a longer one for a text that is
    none. *)
Definition sample_uuid (v : string) : bool :=
  bool_decide (1 ≤ String.length v ≤ 3)%nat.

Definition at_time (t : Z) (ids : list string) : Env :=
  {| now := t; uuidv4 := uuids ids; dbFault := None; busUp := true;
     pgUuid := sample_uuid |}.

Definition free_seat : SeatAvailability.row :=
  {| SeatAvailability.booking_id := None;
     SeatAvailability.status := AVAILABLE;
     SeatAvailability.locked_until := None;
     SeatAvailability.updated_at := 0 |}.

Definition world0 : World :=
  {| writeDb :=
       {| bookings := ∅;
          seat_availability := {[ ("S1", "A1") := free_seat; ("S1", "A2") := free_seat ]};
          booking_events := [] |};
     ticket_events := [] |}.

Definition book_A1 : BookTicketCommand.t :=
  {| BookTicketCommand.userId := "U1";
     BookTicketCommand.routeId := "R1";
     BookTicketCommand.scheduleId := "S1";
     BookTicketCommand.seatNumber := Some "A1";
     BookTicketCommand.passengerName := "Ann";
     BookTicketCommand.passengerEmail := "ann@example.org";
     BookTicketCommand.passengerPhone := None;
     BookTicketCommand.price := 2500;
     BookTicketCommand.currency := None |}.

Definition reserve_A2 (minutes : option Z) : ReserveTicketCommand.t :=
  {| ReserveTicketCommand.userId := "U1";
     ReserveTicketCommand.routeId := "R1";
     ReserveTicketCommand.scheduleId := "S1";
     ReserveTicketCommand.seatNumber := Some "A2";
     ReserveTicketCommand.passengerName := "Ann";
     ReserveTicketCommand.passengerEmail := "ann@example.org";
     ReserveTicketCommand.passengerPhone := None;
     ReserveTicketCommand.price := 2500;
     ReserveTicketCommand.currency := None;
     ReserveTicketCommand.reservationDurationMinutes := minutes |}.


Definition confirm_B (bookingId : string) : ConfirmTicketCommand.t :=
  {| ConfirmTicketCommand.bookingId := bookingId;
     ConfirmTicketCommand.paymentId := "P9" |}.

Definition cancel_B (bookingId : string) (userId : option string) : CancelTicketCommand.t :=
  {| CancelTicketCommand.bookingId := bookingId;
     CancelTicketCommand.userId := userId;
     CancelTicketCommand.reason := None |}.

(** Book seat A1 at t = 1000, confirm at 2000, cancel at 3000. *)
Definition world_booked : World :=
  (bookTicketHandler (at_time 1000 ["B1"; "E1"; "K1"]) book_A1 None world0).2.

Definition world_confirmed : World :=
  (confirmTicketHandler (at_time 2000 ["E2"; "K2"]) (confirm_B "B1") None world_booked).2.

Definition world_cancelled : World :=
  (cancelTicketHandler (at_time 3000 ["E3"; "K3"]) (cancel_B "B1" (Some "U1")) None
     world_confirmed).2.

(** Reserve seat A2 for five minutes at t = 0. *)
Definition world_reserved : World :=
  (reserveTicketHandler (at_time 0 ["B2"; "E4"; "K4"]) (reserve_A2 (Some 5)) None world0).2.

(** The schema library's tests taken as passing on every string. *)
Definition any_format : Formats := {| isUuid := λ _, true; isEmail := λ _, true |}.

(** A reserve request for seat A2 and three minutes. *)
Definition reserve_body : Payload :=
  [ ("routeId", JString "R1");
    ("scheduleId", JString "S1");
    ("seatNumber", JString "A2");
    ("passengerName", JString "Ann");
    ("passengerEmail", JString "ann@example.org");
    ("price", JNumber 2500);
    ("reservationDurationMinutes", JNumber 3) ].

(** The first page asked as page 0, with 500 rows a page. *)
Definition query_page0 : GetUserTicketsQuery.t :=
  {| GetUserTicketsQuery.userId := "U1";
     GetUserTicketsQuery.status := None;
     GetUserTicketsQuery.page := Some 0;
     GetUserTicketsQuery.limit := Some 500 |}.

Definition empty_cache : string → Z → Z → option PaginatedResult.t := λ _ _ _, None.

Definition empty_read_store : ReadStore :=
  {| user_tickets_view := ∅;
     schedule_availability_view := ∅;
     projection_checkpoints := ∅ |}.

(** The messages of Book and Confirm for B1, and the read store once they
    have been projected (at t = 5000). *)
Definition stream_B1 : list EachMessagePayload.t :=
  deliver <$> ticket_events world_confirmed.

Definition read_B1 : ReadStore := project 5000 stream_B1 empty_read_store.

(** The booking B1 as Book returned it. *)
Definition booking_B1 : Booking.t :=
  {| Booking.id := "B1";
     Booking.userId := "U1";
     Booking.routeId := "R1";
     Booking.scheduleId := "S1";
     Booking.seatNumber := Some "A1";
     Booking.passengerName := "Ann";
     Booking.passengerEmail := "ann@example.org";
     Booking.passengerPhone := None;
     Booking.price := 2500;
     Booking.currency := "USD";
     Booking.status := PENDING;
     Booking.paymentId := None;
     Booking.reservedAt := None;
     Booking.confirmedAt := None;
     Booking.cancelledAt := None;
     Booking.expiresAt := None;
     Booking.createdAt := 1000;
     Booking.updatedAt := 1000 |}.

(** The message of Reserve for B2, and the read store once it has been
    projected (at t = 10). *)
Definition read_B2 : ReadStore :=
  project 10 (deliver <$> ticket_events world_reserved) empty_read_store.

(** The service with the reservation B2 stored and projected. *)
Definition service_reserved : Service :=
  {| write_side := world_reserved; read_side := read_B2 |}.

(** The message [publishTicketExpired] would send for B2 at t = 360000. *)
Definition expired_B2 : EachMessagePayload.t :=
  deliver (message_of (TicketExpiredEvent (at_time 360000 ["K6"]) 0 "B2" "U1" None)).

(** The connection is lost after the third statement of a transaction
    ([BEGIN], the seat check, the insertion of the booking). *)
Definition env_faulty : Env :=
  {| now := 1000; uuidv4 := uuids ["B1"; "E1"; "K1"]; dbFault := Some 3%nat;
     busUp := true; pgUuid := sample_uuid |}.

(** ** queries/getTicketDetails.ts *)

Module BookingView.
Record t := {
  id : string;
  userId : string;
  routeId : string;
  routeName : option string;
  scheduleId : string;
  departureTime : option Z;
  arrivalTime : option Z;
  originStop : option string;
  destinationStop : option string;
  seatNumber : option string;
  passengerName : string;
  passengerEmail : string;
  price : Z;
  currency : option string;
  status : BookingStatus;
  createdAt : Z
}.
End BookingView.


Module GetTicketDetailsQuery.
Record t := {
  bookingId : string;
  userId : string
}.
End GetTicketDetailsQuery.


(** A call of [redis.set]. *)
Module RedisSet.
Record t := {
  key : string;
  value : BookingView.t;
  ttlSeconds : Z
}.
End RedisSet.

Module GetTicketDetails.

Definition validateQuery (query : GetTicketDetailsQuery.t) : Result () :=
  if negb (truthy (GetTicketDetailsQuery.bookingId query)) then
    Err (BadRequestError "bookingId is required")
  else if negb (truthy (GetTicketDetailsQuery.userId query)) then
    Err (BadRequestError "userId is required")
  else Ok ().
End GetTicketDetails.


(** The command that the reserve route reads off a validated body. *)
Definition reserve_command (userId : string) (body : Payload) : ReserveTicketCommand.t :=
  {| ReserveTicketCommand.userId := userId;
     ReserveTicketCommand.routeId := default EmptyString (as_string (member "routeId" body));
     ReserveTicketCommand.scheduleId := default EmptyString (as_string (member "scheduleId" body));
     ReserveTicketCommand.seatNumber := as_string (member "seatNumber" body);
     ReserveTicketCommand.passengerName := default EmptyString (as_string (member "passengerName" body));
     ReserveTicketCommand.passengerEmail := default EmptyString (as_string (member "passengerEmail" body));
     ReserveTicketCommand.passengerPhone := as_string (member "passengerPhone" body);
     ReserveTicketCommand.price := default 0 (as_number (member "price" body));
     ReserveTicketCommand.currency := Some (default "USD" (as_string (member "currency" body)));
     ReserveTicketCommand.reservationDurationMinutes :=
       as_number (member "reservationDurationMinutes" body) |}.

(** ** What a successful command has done *)

(** The values a Book gives to the insertion, and the row it inserts. *)
Definition book_values (env : Env) (command : BookTicketCommand.t) : Bookings.row :=
  {| Bookings.id := uuidv4 env 0;
     Bookings.user_id := BookTicketCommand.userId command;
     Bookings.route_id := BookTicketCommand.routeId command;
     Bookings.schedule_id := BookTicketCommand.scheduleId command;
     Bookings.seat_number := or_null (BookTicketCommand.seatNumber command);
     Bookings.passenger_name := BookTicketCommand.passengerName command;
     Bookings.passenger_email := BookTicketCommand.passengerEmail command;
     Bookings.passenger_phone := or_null (BookTicketCommand.passengerPhone command);
     Bookings.price := BookTicketCommand.price command;
     Bookings.currency := default "USD" (or_null (BookTicketCommand.currency command));
     Bookings.status := PENDING;
     Bookings.payment_id := None;
     Bookings.reserved_at := None;
     Bookings.confirmed_at := None;
     Bookings.cancelled_at := None;
     Bookings.expires_at := None;
     Bookings.created_at := now env;
     Bookings.updated_at := now env |}.

Definition booked_row (env : Env) (command : BookTicketCommand.t) : Bookings.row :=
  Bookings.stored (book_values env command).

Definition TicketBookedRow (env : Env) (command : BookTicketCommand.t)
    (correlationId : option string) : BookingEvents.row :=
  event_row env 1 TICKET_BOOKED (uuidv4 env 0)
    [ ("bookingId", JString (uuidv4 env 0));
      ("userId", JString (BookTicketCommand.userId command));
      ("routeId", JString (BookTicketCommand.routeId command));
      ("scheduleId", JString (BookTicketCommand.scheduleId command));
      ("seatNumber", js_string (BookTicketCommand.seatNumber command));
      ("price", JNumber (BookTicketCommand.price command)) ]
    correlationId 1.

(** After a Book. *)
Definition booked_store (env : Env) (command : BookTicketCommand.t)
    (correlationId : option string) (s : WriteStore) : WriteStore :=
  {| bookings := <[uuidv4 env 0 := booked_row env command]> (bookings s);
     seat_availability :=
       match or_null (BookTicketCommand.seatNumber command) with
       | Some seatNumber =>
           alter (SeatAvailability.set_booked_by (uuidv4 env 0) (now env))
                 (BookTicketCommand.scheduleId command, seatNumber)
                 (seat_availability s)
       | None => seat_availability s
       end;
     booking_events := booking_events s ++ [TicketBookedRow env command correlationId] |}.

(** A postcondition that speaks of the returns of a body only. *)
Definition on_ok {A} (Post : A → WriteStore → Prop) : Result A → PoolClient → Prop :=
  λ r c, match r with
         | Ok a => Post a (db c)
         | Err _ => True
         end.

(** The seat row that a Book may take. *)
Definition available (o : option SeatAvailability.row) : Prop :=
  ∃ r, o = Some r ∧ SeatAvailability.status r = AVAILABLE.

(** What a command that returned has found and done, whatever the faults
    of its connection: the state of the database it ran on ([s]), its
    result and the database it left. *)
Definition book_done (env : Env) (command : BookTicketCommand.t)
    (correlationId : option string) (s : WriteStore)
    (booking : Booking.t) (s' : WriteStore) : Prop :=
  (∀ seatNumber,
     or_null (BookTicketCommand.seatNumber command) = Some seatNumber →
     available (seat_availability s !! (BookTicketCommand.scheduleId command, seatNumber)))
  ∧ fresh_booking_id env 0 s
  ∧ fresh_event_id env 1 s
  ∧ booking = mapRowToBooking (booked_row env command)
  ∧ s' = booked_store env command correlationId s.

Definition reserve_done (env : Env) (command : ReserveTicketCommand.t)
    (correlationId : option string) (s : WriteStore)
    (result : ReserveTicketResult.t) (s' : WriteStore) : Prop :=
  (∀ seatNumber,
     or_null (ReserveTicketCommand.seatNumber command) = Some seatNumber →
     acquirable (now env)
       (seat_availability s !! (ReserveTicketCommand.scheduleId command, seatNumber)))
  ∧ fresh_booking_id env 0 s
  ∧ fresh_event_id env 1 s
  ∧ result = {| ReserveTicketResult.booking := mapRowToBooking (reserved_row env command);
               ReserveTicketResult.expiresAt :=
                 now env + reservationDuration command * 60 * 1000 |}
  ∧ s' = reserved_store env command correlationId s.

Definition confirm_done (env : Env) (command : ConfirmTicketCommand.t)
    (correlationId : option string) (s : WriteStore)
    (booking : Booking.t) (s' : WriteStore) : Prop :=
  ∃ b, bookings s !! ConfirmTicketCommand.bookingId command = Some b
       ∧ (Bookings.status b = RESERVED ∨ Bookings.status b = PENDING)
       ∧ has_expired (now env) b = false
       ∧ fresh_event_id env 0 s
       ∧ booking = mapRowToBooking
                     (Bookings.set_confirmed (ConfirmTicketCommand.paymentId command)
                        (now env) b)
       ∧ s' = confirmed_store env command correlationId b s.

Definition cancel_done (env : Env) (command : CancelTicketCommand.t)
    (correlationId : option string) (s : WriteStore)
    (result : CancelTicketResult.t) (s' : WriteStore) : Prop :=
  ∃ b, bookings s !! CancelTicketCommand.bookingId command = Some b
       ∧ may_cancel command b
       ∧ Bookings.status b ∈ cancellableStates
       ∧ fresh_event_id env 0 s
       ∧ result = {| CancelTicketResult.booking :=
                       mapRowToBooking (Bookings.set_cancelled (now env) b);
                     CancelTicketResult.refundAmount := refund_of b |}
       ∧ s' = cancelled_store env command correlationId b s.

(** ** The life of a booking, as the commands drive it *)

(** The changes of status that a command makes. *)
Inductive transition : BookingStatus → BookingStatus → Prop :=
| confirm_pending : transition PENDING CONFIRMED
| confirm_reserved : transition RESERVED CONFIRMED
| cancel_pending : transition PENDING CANCELLED
| cancel_reserved : transition RESERVED CANCELLED
| cancel_confirmed : transition CONFIRMED CANCELLED.

Definition terminal (st : BookingStatus) : Prop :=
  st = CANCELLED ∨ st = EXPIRED ∨ st = REFUNDED.

(** The columns that no command writes after the insertion. *)
Definition same_booking (b b' : Bookings.row) : Prop :=
  Bookings.id b' = Bookings.id b
  ∧ Bookings.user_id b' = Bookings.user_id b
  ∧ Bookings.route_id b' = Bookings.route_id b
  ∧ Bookings.schedule_id b' = Bookings.schedule_id b
  ∧ Bookings.seat_number b' = Bookings.seat_number b
  ∧ Bookings.passenger_name b' = Bookings.passenger_name b
  ∧ Bookings.passenger_email b' = Bookings.passenger_email b
  ∧ Bookings.passenger_phone b' = Bookings.passenger_phone b
  ∧ Bookings.price b' = Bookings.price b
  ∧ Bookings.currency b' = Bookings.currency b
  ∧ Bookings.reserved_at b' = Bookings.reserved_at b
  ∧ Bookings.created_at b' = Bookings.created_at b.

(** One command seen from one booking: the row stays, and either nothing
    of it changes or its status moves along a transition. *)
Definition booking_step (b b' : Bookings.row) : Prop :=
  b' = b ∨ (same_booking b b' ∧ transition (Bookings.status b) (Bookings.status b')).

(** The primary key of a row is its [id] column. *)
Definition keyed (s : WriteStore) : Prop :=
  ∀ id b, bookings s !! id = Some b → Bookings.id b = id.

(** The shape of a seat row: a free seat carries no booking and no lock,
    a locked seat carries both, a booked seat carries no lock. *)
Definition seat_shape (r : SeatAvailability.row) : Prop :=
  match SeatAvailability.status r with
  | AVAILABLE => SeatAvailability.booking_id r = None
                 ∧ SeatAvailability.locked_until r = None
  | LOCKED => is_Some (SeatAvailability.booking_id r)
              ∧ is_Some (SeatAvailability.locked_until r)
  | BOOKED => SeatAvailability.locked_until r = None
  end.

Definition seats_shaped (s : WriteStore) : Prop :=
  ∀ k r, seat_availability s !! k = Some r → seat_shape r.

(** Every event row is the event of a stored booking. *)
Definition events_owned (s : WriteStore) : Prop :=
  Forall (λ e, is_Some (bookings s !! BookingEvents.aggregate_id e)) (booking_events s).

(** The environment with the producer up or down. *)
Definition with_bus (up : bool) (env : Env) : Env :=
  {| now := now env; uuidv4 := uuidv4 env; dbFault := dbFault env; busUp := up;
     pgUuid := pgUuid env |}.

(** ** Sample data: more commands and worlds *)

(** Book on schedule S1 with the empty string as seat. *)
Definition book_no_seat : BookTicketCommand.t :=
  {| BookTicketCommand.userId := "U1";
     BookTicketCommand.routeId := "R1";
     BookTicketCommand.scheduleId := "S1";
     BookTicketCommand.seatNumber := Some EmptyString;
     BookTicketCommand.passengerName := "Ann";
     BookTicketCommand.passengerEmail := "ann@example.org";
     BookTicketCommand.passengerPhone := None;
     BookTicketCommand.price := 2500;
     BookTicketCommand.currency := None |}.

(** User U2 reserves seat A2 at t = 400000, when the lock of B2 (until
    t = 300000) has run out and B2 is still RESERVED. *)
Definition reserve_A2_U2 : ReserveTicketCommand.t :=
  {| ReserveTicketCommand.userId := "U2";
     ReserveTicketCommand.routeId := "R1";
     ReserveTicketCommand.scheduleId := "S1";
     ReserveTicketCommand.seatNumber := Some "A2";
     ReserveTicketCommand.passengerName := "Bob";
     ReserveTicketCommand.passengerEmail := "bob@example.org";
     ReserveTicketCommand.passengerPhone := None;
     ReserveTicketCommand.price := 2500;
     ReserveTicketCommand.currency := None;
     ReserveTicketCommand.reservationDurationMinutes := Some 5 |}.

Definition world_retaken : World :=
  (reserveTicketHandler (at_time 400000 ["B3"; "E5"; "K5"]) reserve_A2_U2 None
     world_reserved).2.

(** A TICKET_BOOKED message whose event has no payload. *)
Definition event_without_payload : DomainEvent.t :=
  {| DomainEvent.eventId := "K10";
     DomainEvent.eventType := "TICKET_BOOKED";
     DomainEvent.aggregateId := "B9";
     DomainEvent.aggregateType := "Booking";
     DomainEvent.timestamp := 6000;
     DomainEvent.version := 1;
     DomainEvent.correlationId := None;
     DomainEvent.payload := [] |}.

Definition booked_without_payload : EachMessagePayload.t :=
  {| EachMessagePayload.value := Some event_without_payload;
     EachMessagePayload.eventType := Some "TICKET_BOOKED" |}.

(** The message of a Confirm of a booking B7 that the view has not. *)
Definition confirmed_B7 : EachMessagePayload.t :=
  deliver (message_of (TicketConfirmedEvent (at_time 7000 ["E11"; "K11"]) 1 "B7" "U1" "P9"
                         None)).

(** The ticket of B1 in the view, once Book and Confirm are projected. *)
Definition ticket_B1 : UserTicketsView.row :=
  {| UserTicketsView.id := "B1";
     UserTicketsView.user_id := "U1";
     UserTicketsView.route_id := "R1";
     UserTicketsView.route_name := None;
     UserTicketsView.schedule_id := "S1";
     UserTicketsView.departure_time := None;
     UserTicketsView.arrival_time := None;
     UserTicketsView.origin_stop := None;
     UserTicketsView.destination_stop := None;
     UserTicketsView.seat_number := Some "A1";
     UserTicketsView.passenger_name := "Ann";
     UserTicketsView.passenger_email := "ann@example.org";
     UserTicketsView.price := 2500;
     UserTicketsView.currency := Some "USD";
     UserTicketsView.status := CONFIRMED;
     UserTicketsView.created_at := 1000;
     UserTicketsView.updated_at := 5000 |}.

(** The first page of the tickets of U1 when the view holds [ticket_B1]. *)
Definition page_B1 : PaginatedResult.t :=
  {| PaginatedResult.data := [ticket_B1];
     PaginatedResult.total := 1;
     PaginatedResult.page := 1;
     PaginatedResult.limit := 100;
     PaginatedResult.totalPages := 1 |}.

(** The schema library's tests taken as refusing the empty string only. *)
Definition nonempty_format : Formats := {| isUuid := truthy; isEmail := truthy |}.

(** ** The view and the bookings *)

(** The columns of a ticket of the view that no message changes once the
    row is there. *)
Definition same_ticket (r r' : UserTicketsView.row) : Prop :=
  UserTicketsView.id r' = UserTicketsView.id r
  ∧ UserTicketsView.user_id r' = UserTicketsView.user_id r
  ∧ UserTicketsView.route_id r' = UserTicketsView.route_id r
  ∧ UserTicketsView.schedule_id r' = UserTicketsView.schedule_id r
  ∧ UserTicketsView.seat_number r' = UserTicketsView.seat_number r
  ∧ UserTicketsView.passenger_name r' = UserTicketsView.passenger_name r
  ∧ UserTicketsView.passenger_email r' = UserTicketsView.passenger_email r
  ∧ UserTicketsView.price r' = UserTicketsView.price r
  ∧ UserTicketsView.currency r' = UserTicketsView.currency r
  ∧ UserTicketsView.created_at r' = UserTicketsView.created_at r.

(** The ticket [id], once in the view with the columns of [r], stays. *)
Definition ticket_kept (id : string) (r : UserTicketsView.row) (s : ReadStore) : Prop :=
  ∃ r', user_tickets_view s !! id = Some r' ∧ same_ticket r r'.

(** What a booking and its ticket in the view have in common. *)
Record Columns := {
  col_user_id : string;
  col_route_id : string;
  col_schedule_id : string;
  col_seat_number : option string;
  col_passenger_name : string;
  col_passenger_email : string;
  col_price : Z;
  col_currency : option string;
  col_status : BookingStatus
}.

Definition booking_columns (b : Bookings.row) : Columns :=
  {| col_user_id := Bookings.user_id b;
     col_route_id := Bookings.route_id b;
     col_schedule_id := Bookings.schedule_id b;
     col_seat_number := Bookings.seat_number b;
     col_passenger_name := Bookings.passenger_name b;
     col_passenger_email := Bookings.passenger_email b;
     col_price := Bookings.price b;
     col_currency := Some (Bookings.currency b);
     col_status := Bookings.status b |}.

Definition ticket_columns (r : UserTicketsView.row) : Columns :=
  {| col_user_id := UserTicketsView.user_id r;
     col_route_id := UserTicketsView.route_id r;
     col_schedule_id := UserTicketsView.schedule_id r;
     col_seat_number := UserTicketsView.seat_number r;
     col_passenger_name := UserTicketsView.passenger_name r;
     col_passenger_email := UserTicketsView.passenger_email r;
     col_price := UserTicketsView.price r;
     col_currency := UserTicketsView.currency r;
     col_status := UserTicketsView.status r |}.

(** The view has the bookings of the write database and no other, each
    with the owner, route, schedule, seat, passenger, price, currency and
    status of the booking. *)
Definition in_sync (s : WriteStore) (v : ReadStore) : Prop :=
  ∀ id, booking_columns <$> bookings s !! id = ticket_columns <$> user_tickets_view v !! id.

(** * Properties *)

(** ** The transaction wrapper *)

Lemma wp_ret {A} (a : A) c Q : Q (Ok a) c → wp (mret a) c Q.
Proof. done. Qed.

Lemma wp_throw {A} e c (Q : Result A → PoolClient → Prop) :
  Q (Err e) c → wp (throw e) c Q.
Proof. done. Qed.

Lemma wp_bind {A B} (m : Tx A) (f : A → Tx B) c Q :
  wp m c (λ r c', match r with
                  | Ok a => wp (f a) c' Q
                  | Err e => Q (Err e) c'
                  end) →
  wp (m ≫= f) c Q.
Proof. unfold wp, mbind, Tx_bind. by destruct (m c) as [[a|e] c']. Qed.

Lemma wp_query {A} (stmt : Statement A) s Q :
  Q (stmt s).1 (clean (stmt s).2) → wp (query stmt) (clean s) Q.
Proof. unfold wp, query, clean; cbn. by destruct (stmt s). Qed.

(** Without fault, a transaction is its body: committed when the body
    returns, undone when it throws. *)
Lemma wp_transaction {A} (callback : Tx A) s (Q : Result A * WriteStore → Prop) :
  wp callback (clean s)
     (λ r c', budget c' = None
              ∧ Q match r with
                  | Ok result => (Ok result, db c')
                  | Err error => (Err error, s)
                  end) →
  Q (transaction None callback s).
Proof.
  unfold wp, transaction, mbind, Tx_bind, query, clean; cbn.
  destruct (callback _) as [[result|error] [s' b]]; cbn; by intros [-> ?].
Qed.

(** Whatever the faults, a transaction that throws leaves the database as
    it found it. *)
Lemma transaction_rolls_back {A} fault (callback : Tx A) s e s' :
  transaction fault callback s = (Err e, s') → s' = s.
Proof.
  unfold transaction.
  destruct (_ ≫= _) as [[result|error] client']; [intros [=]|].
  destruct (query control client') as [[?|?] ?]; intros [= _ <-]; reflexivity.
Qed.

Lemma preserves_ret {A} P (a : A) : preserves P (mret a).
Proof. by intros c. Qed.

Lemma preserves_throw {A} P e : preserves P (@throw A e).
Proof. by intros c. Qed.

Lemma preserves_bind {A B} P (m : Tx A) (f : A → Tx B) :
  preserves P m → (∀ a, preserves P (f a)) → preserves P (m ≫= f).
Proof.
  intros Hm Hf c Hc. specialize (Hm c Hc). unfold mbind, Tx_bind.
  destruct (m c) as [[a|e] c']; cbn in *; [by apply Hf | done].
Qed.

Lemma preserves_query {A} P (stmt : Statement A) :
  (∀ s, P s → P (stmt s).2) → preserves P (query stmt).
Proof.
  intros Hs [s b] Hc. unfold query; cbn in *.
  specialize (Hs s Hc). destruct (stmt s) as [r s'].
  by destruct b as [[|n]|].
Qed.

Lemma transaction_preserves {A} P fault (callback : Tx A) s :
  preserves P callback → P s → P (transaction fault callback s).2.
Proof.
  intros Hcb Hs. unfold transaction.
  assert (preserves P (query control ≫= λ _, callback ≫= λ result,
                       query control ≫= λ _, mret result)) as Hall.
  { apply preserves_bind; [by apply preserves_query|intros _].
    apply preserves_bind; [done|intros result].
    apply preserves_bind; [by apply preserves_query|intros _].
    apply preserves_ret. }
  specialize (Hall {| db := s; budget := fault |} Hs).
  destruct (_ ≫= _) as [[result|error] client']; cbn in *; [done|].
  by destruct (query control client') as [[?|?] ?].
Qed.

Lemma World_eta w : {| writeDb := writeDb w; ticket_events := ticket_events w |} = w.
Proof. by destruct w. Qed.

(** ** Atomicity of the commands *)

(** C10. A command that returns an error leaves the world as it was: the
    rows of bookings, seat_availability and booking_events are those of
    before, and nothing has been published. The error may be one of the
    handler's own checks or a failure of the database at any statement of
    the transaction. *)
Theorem command_error_leaves_world env c correlationId w e w' :
  run env c correlationId w = (Err e, w') → w' = w.
Proof.
  destruct c as [command|command|command|command]; cbn;
    [ unfold bookTicketHandler; destruct (validateBookTicketCommand command)
    | unfold reserveTicketHandler; destruct (validateReserveTicketCommand command)
    | unfold confirmTicketHandler; destruct (validateConfirmTicketCommand command)
    | unfold cancelTicketHandler; destruct (validateCancelTicketCommand command) ];
    try (intros [= _ <-]; done);
    destruct (transaction _ _ _) as [[result|error] s] eqn:Htx;
    intros [= _ <-]; try done;
    apply transaction_rolls_back in Htx as ->; apply World_eta.
Qed.

(** The booking had been inserted when the connection was lost: the
    command fails and the insertion is undone. *)
Lemma command_error_leaves_world_witness :
  (run env_faulty (Book book_A1) None world0).2 = world0.
Proof.
  apply (command_error_leaves_world env_faulty (Book book_A1) None world0
           (DriverError "Connection terminated")).
  vm_compute. reflexivity.
Defined.

(** In that run the body throws on its third statement, with the booking
    B1 in the database of its connection: it is the wrapper that removes
    it. *)
Example body_had_written :
  let out := bookTicket_callback env_faulty book_A1 None
               {| db := writeDb world0; budget := Some 2%nat |} in
  out.1 = Err (DriverError "Connection terminated")
  ∧ Bookings.status <$> bookings (db out.2) !! "B1" = Some PENDING
  ∧ bookings (writeDb world0) !! "B1" = None.
Proof. repeat split; vm_compute; reflexivity. Qed.

(** ** Running the statements of a body *)

Ltac run_stmt :=
  unfold select_booking, select_seat, insert_booking, update_booking_payment,
         update_booking, update_seat, insert_event, set_bookings, set_seat_availability,
         set_booking_events;
  cbn [fst snd bookings seat_availability booking_events db budget clean
       fmap option_fmap option_map Bookings.id].

Lemma fresh_event_id_existsb env n s e :
  fresh_event_id env n s → BookingEvents.event_id e = uuidv4 env n →
  existsb (λ e', String.eqb (BookingEvents.event_id e') (BookingEvents.event_id e))
          (booking_events s) = false.
Proof.
  intros Hf ->. unfold fresh_event_id in Hf.
  induction Hf as [|e' l Hne _ IH]; cbn; [done|].
  rewrite IH, orb_false_r. by apply String.eqb_neq.
Qed.

Lemma Result_bind_err (a b : Result ()) err :
  (a;; b) = Err err → a = Err err ∨ b = Err err.
Proof. destruct a as [[]|e]; cbn; [by right|by left]. Qed.

Ltac column_refusal H :=
  unfold pg_uuid, pg_text, pg_jsonb, pg_varchar, pg_decimal_10_2, pg_null in H;
  repeat case_match; simplify_eq; eauto.


Lemma Bookings_accepts_driver_error uuid r err :
  Bookings.accepts uuid r = Err err → ∃ m, err = DriverError m.
Proof.
  unfold Bookings.accepts. intros H.
  repeat (apply Result_bind_err in H as [H|H]; [column_refusal H|]).
  column_refusal H.
Qed.

Lemma pg_uuid_driver_error uuid v err :
  pg_uuid uuid v = Err err → ∃ m, err = DriverError m.
Proof. unfold pg_uuid. case_match; intros [= <-]; eauto. Qed.

Lemma pg_uuid_ok uuid v : pg_uuid uuid v = Ok () ↔ uuid v = true.
Proof. unfold pg_uuid. by destruct (uuid v). Qed.

(** The insertion of an event whose values the columns take and whose
    [event_id] is new. *)
Ltac run_insert_event env n :=
  apply wp_query; run_stmt;
  match goal with
  | H : BookingEvents.accepts _ _ = Ok () |- _ => rewrite H
  end;
  rewrite (fresh_event_id_existsb env n) by done;
  cbn [fst snd].

(** ** Confirm *)



Lemma confirm_expired env command correlationId w b :
  validateConfirmTicketCommand command = Ok () →
  dbFault env = None →
  bookings (writeDb w) !! ConfirmTicketCommand.bookingId command = Some b →
  Bookings.status b = RESERVED ∨ Bookings.status b = PENDING →
  has_expired (now env) b = true →
  confirmTicketHandler env command correlationId w
  = (Err (InvalidBookingStateError (Bookings.status b) "Reservation has expired"), w).
Proof.
  intros Hv Hf Hb Hs He. unfold confirmTicketHandler. rewrite Hv, Hf.
  apply (wp_transaction _ _ (λ x, match x with
                                  | (Err e, s) => (Err e, _)
                                  | (Ok booking, s) => _
                                  end = _)).
  unfold confirmTicket_callback.
  apply wp_bind, wp_query. run_stmt. rewrite Hb.
  replace (bool_decide (Bookings.status b ≠ RESERVED)
           && bool_decide (Bookings.status b ≠ PENDING)) with false
    by (by destruct Hs as [-> | ->]).
  rewrite He. apply wp_throw. by rewrite World_eta.
Qed.

Lemma confirm_success env command correlationId w b :
  validateConfirmTicketCommand command = Ok () →
  dbFault env = None →
  fresh_event_id env 0 (writeDb w) →
  bookings (writeDb w) !! ConfirmTicketCommand.bookingId command = Some b →
  Bookings.status b = RESERVED ∨ Bookings.status b = PENDING →
  has_expired (now env) b = false →
  pgUuid env (ConfirmTicketCommand.paymentId command) = true →
  BookingEvents.accepts (pgUuid env) (TicketConfirmedRow env command correlationId)
  = Ok () →
  let booking :=
    mapRowToBooking
      (Bookings.set_confirmed (ConfirmTicketCommand.paymentId command) (now env) b) in
  confirmTicketHandler env command correlationId w
  = (Ok booking,
     {| writeDb := confirmed_store env command correlationId b (writeDb w);
        ticket_events :=
          try_publish (publishTicketConfirmed env 1 (Booking.id booking)
                         (Booking.userId booking)
                         (ConfirmTicketCommand.paymentId command)
                         correlationId (ticket_events w)) |}).
Proof.
  intros Hv Hf Hfresh Hb Hs He Hpay Hacc booking.
  unfold confirmTicketHandler. rewrite Hv, Hf.
  apply (wp_transaction _ _ (λ x, match x with
                                  | (Err e, s) => (Err e, _)
                                  | (Ok booking, s) => _
                                  end = _)).
  unfold confirmTicket_callback. unfold TicketConfirmedRow in Hacc.
  apply wp_bind, wp_query. run_stmt. rewrite Hb.
  replace (bool_decide (Bookings.status b ≠ RESERVED)
           && bool_decide (Bookings.status b ≠ PENDING)) with false
    by (by destruct Hs as [-> | ->]).
  rewrite He.
  apply wp_bind, wp_query. run_stmt. unfold pg_uuid. rewrite Hpay, Hb.
  cbn [fst snd fmap option_fmap option_map].
  apply wp_bind. unfold confirmed_store.
  destruct (or_null (Bookings.seat_number b)) as [seat_number|].
  - apply wp_query. run_stmt. apply wp_bind. run_insert_event env 0%nat.
    by apply wp_ret.
  - apply wp_ret. apply wp_bind. run_insert_event env 0%nat.
    by apply wp_ret.
Qed.






(** ** Cancel *)

Lemma may_cancel_checks command b :
  may_cancel command b →
  truthy (default (Bookings.user_id b) (or_null (CancelTicketCommand.userId command)))
  = true
  ∧ truthy_opt (CancelTicketCommand.userId command)
    && bool_decide (Some (Bookings.user_id b) ≠ CancelTicketCommand.userId command)
    = false.
Proof.
  unfold may_cancel, or_null.
  destruct (CancelTicketCommand.userId command) as [userId|]; cbn; [|done].
  destruct (truthy userId) eqn:Ht; cbn; [|done].
  intros ->. split; [done|]. by rewrite bool_decide_eq_false_2 by naive_solver.
Qed.

Lemma cancel_success env command correlationId w b :
  validateCancelTicketCommand command = Ok () →
  dbFault env = None →
  fresh_event_id env 0 (writeDb w) →
  bookings (writeDb w) !! CancelTicketCommand.bookingId command = Some b →
  may_cancel command b →
  Bookings.status b ∈ cancellableStates →
  BookingEvents.accepts (pgUuid env) (TicketCancelledRow env command correlationId b)
  = Ok () →
  let result :=
    {| CancelTicketResult.booking := mapRowToBooking (Bookings.set_cancelled (now env) b);
       CancelTicketResult.refundAmount := refund_of b |} in
  cancelTicketHandler env command correlationId w
  = (Ok result,
     {| writeDb := cancelled_store env command correlationId b (writeDb w);
        ticket_events :=
          try_publish (publishTicketCancelled env 1
                         (Booking.id (CancelTicketResult.booking result))
                         (Booking.userId (CancelTicketResult.booking result))
                         (CancelTicketCommand.reason command)
                         (or_undefined (CancelTicketResult.refundAmount result))
                         correlationId (ticket_events w)) |}).
Proof.
  intros Hv Hf Hfresh Hb [Hu Ho]%may_cancel_checks Hs Hacc result.
  unfold TicketCancelledRow, refund_of in Hacc.
  unfold cancelTicketHandler. rewrite Hv, Hf.
  apply (wp_transaction _ _ (λ x, match x with
                                  | (Err e, s) => (Err e, _)
                                  | (Ok booking, s) => _
                                  end = _)).
  unfold cancelTicket_callback.
  apply wp_bind, wp_query. run_stmt. rewrite Hb.
  cbv zeta. rewrite Hu, Ho. cbn [negb].
  rewrite bool_decide_eq_true_2 by done. cbn [negb].
  apply wp_bind, wp_query. run_stmt. rewrite Hb. cbn [fmap option_fmap option_map].
  apply wp_bind. unfold cancelled_store.
  destruct (or_null (Bookings.seat_number b)) as [seat_number|].
  - apply wp_query. run_stmt. apply wp_bind. run_insert_event env 0%nat.
    apply wp_bind, wp_ret. by apply wp_ret.
  - apply wp_ret. apply wp_bind. run_insert_event env 0%nat.
    apply wp_bind, wp_ret. by apply wp_ret.
Qed.




(** ** Reserve *)

Lemma is_acquirable_spec now o :
  acquirable now o
  ↔ ∃ r, o = Some r ∧ is_acquirable now r = true.
Proof.
  unfold acquirable, is_acquirable. split; intros (r & -> & H); exists r; (split; [done|]).
  - destruct H as [->|(-> & t & -> & Hlt)]; [done|].
    cbn. by apply Z.ltb_lt.
  - apply orb_true_iff in H as [H|H].
    + left. by apply bool_decide_eq_true in H.
    + right. apply andb_true_iff in H as [H1 H2].
      apply bool_decide_eq_true in H1. split; [done|].
      destruct (SeatAvailability.locked_until r) as [t|]; [|done].
      exists t. split; [done|]. by apply Z.ltb_lt.
Qed.



Lemma reserve_success env command correlationId w :
  validateReserveTicketCommand command = Ok () →
  dbFault env = None →
  fresh_booking_id env 0 (writeDb w) →
  fresh_event_id env 1 (writeDb w) →
  (∀ seatNumber,
     or_null (ReserveTicketCommand.seatNumber command) = Some seatNumber →
     acquirable (now env)
       (seat_availability (writeDb w)
          !! (ReserveTicketCommand.scheduleId command, seatNumber))) →
  Bookings.accepts (pgUuid env) (reserve_values env command) = Ok () →
  BookingEvents.accepts (pgUuid env) (TicketReservedRow env command correlationId)
  = Ok () →
  let result :=
    {| ReserveTicketResult.booking := mapRowToBooking (reserved_row env command);
       ReserveTicketResult.expiresAt :=
         now env + reservationDuration command * 60 * 1000 |} in
  reserveTicketHandler env command correlationId w
  = (Ok result,
     {| writeDb := reserved_store env command correlationId (writeDb w);
        ticket_events :=
          try_publish (publishTicketReserved env 2
                         (ReserveTicketResult.booking result)
                         (ReserveTicketResult.expiresAt result)
                         correlationId (ticket_events w)) |}).
Proof.
  intros Hv Hf Hfb Hfe Hseat Hrow Hevent result.
  unfold reserveTicketHandler. rewrite Hv, Hf.
  apply (wp_transaction _ _ (λ x, match x with
                                  | (Err e, s) => (Err e, _)
                                  | (Ok booking, s) => _
                                  end = _)).
  unfold reserveTicket_callback, reserved_store. cbv zeta.
  unfold fresh_booking_id in Hfb. unfold TicketReservedRow in Hevent.
  unfold result, reserved_row. unfold reserve_values in *.
  destruct (or_null (ReserveTicketCommand.seatNumber command)) as [seatNumber|] eqn:Hs.
  - specialize (Hseat seatNumber eq_refl).
    apply is_acquirable_spec in Hseat as (r & Hr & Ha).
    apply wp_bind, wp_bind, wp_query. run_stmt. rewrite Hr, Ha.
    apply wp_ret, wp_bind, wp_query.
    run_stmt. rewrite Hrow. cbn [Bookings.id Bookings.stored]. rewrite Hfb. cbn [fst snd].
    apply wp_bind, wp_query. run_stmt.
    apply wp_bind. run_insert_event env 1%nat.
    by apply wp_ret.
  - apply wp_bind, wp_ret, wp_bind, wp_query.
    run_stmt. rewrite Hrow. cbn [Bookings.id Bookings.stored]. rewrite Hfb. cbn [fst snd].
    apply wp_bind, wp_ret.
    apply wp_bind. run_insert_event env 1%nat.
    by apply wp_ret.
Qed.




(** ** The duration of a reservation *)

Lemma validate_issues schema data i :
  i ∈ issues schema data →
  validate schema data = Err (ValidationError "Validation failed" (issues schema data)).
Proof.
  unfold validate. destruct (issues schema data); [by intros ?%elem_of_nil | done].
Qed.

Lemma reserve_duration_issue f data n :
  member "reservationDurationMinutes" data = JNumber n →
  n < 5 ∨ 60 < n →
  ∃ i, ("reservationDurationMinutes", i) ∈ issues (schemas_reserveTicket f) data.
Proof.
  intros Hm Hn.
  assert (∃ i, i ∈ optional (z_number_min_max 5 60)
                     (member "reservationDurationMinutes" data)) as [i Hi].
  { rewrite Hm. cbn. destruct Hn as [Hn|Hn].
    - exists too_small. rewrite (proj2 (Z.ltb_lt n 5) Hn). set_solver.
    - exists too_big. rewrite (proj2 (Z.ltb_lt 60 n) Hn). set_solver. }
  exists i. unfold issues. apply list_elem_of_bind.
  exists ("reservationDurationMinutes", optional (z_number_min_max 5 60)).
  split.
  - apply list_elem_of_fmap. by exists i.
  - unfold schemas_reserveTicket. set_solver.
Qed.

(** C8, as the code has it. A reserve request whose
    reservationDurationMinutes is a number outside [5, 60] is refused by the
    schema of the route, before the handler runs and with nothing changed:
    the error is a ValidationError (422, VALIDATION_ERROR) with an issue
    under the path of that member. The validation of the handler itself
    does not read the duration. *)
Theorem reserve_duration_outside_range f env userId body correlationId w n :
  member "reservationDurationMinutes" body = JNumber n →
  n < 5 ∨ 60 < n →
  (∃ errors,
     reserve_route f env userId body correlationId w
     = (Err (ValidationError "Validation failed" errors), w)
     ∧ (∃ i, ("reservationDurationMinutes", i) ∈ errors)
     ∧ statusCode (ValidationError "Validation failed" errors) = 422
     ∧ code (ValidationError "Validation failed" errors) = "VALIDATION_ERROR")
  ∧ (∀ command,
       validateReserveTicketCommand (with_duration (Some n) command)
       = validateReserveTicketCommand command).
Proof.
  intros Hm Hn. split; [|done].
  destruct (reserve_duration_issue f body n Hm Hn) as [i Hi].
  exists (issues (schemas_reserveTicket f) body).
  unfold reserve_route. rewrite (validate_issues _ _ _ Hi). eauto.
Qed.

Lemma reserve_duration_outside_range_witness :
  ∃ errors,
    reserve_route any_format (at_time 0 ["B2"; "E4"; "K4"]) "U1" reserve_body None world0
    = (Err (ValidationError "Validation failed" errors), world0)
    ∧ ∃ i, ("reservationDurationMinutes", i) ∈ errors.
Proof.
  destruct (reserve_duration_outside_range any_format (at_time 0 ["B2"; "E4"; "K4"])
              "U1" reserve_body None world0 3 eq_refl (or_introl eq_refl))
    as [(errors & Hr & Hi & _) _].
  exists errors. split; [exact Hr | exact Hi].
Defined.

(** C8, as stated, fails: the handler takes a reservation of three
    minutes, and the route refuses the same request with a validation
    error, which is not BadRequest. *)
Lemma reserve_three_minutes :
  ¬ (5 ≤ 3 ≤ 60)
  ∧ (∃ result,
       (reserveTicketHandler (at_time 0 ["B2"; "E4"; "K4"]) (reserve_A2 (Some 3)) None
          world0).1 = Ok result
       ∧ ReserveTicketResult.expiresAt result = 3 * 60 * 1000)
  ∧ (∃ e,
       (reserve_route any_format (at_time 0 ["B2"; "E4"; "K4"]) "U1" reserve_body None
          world0).1 = Err e
       ∧ code e = "VALIDATION_ERROR"
       ∧ code e ≠ code (BadRequestError "Bad request")).
Proof.
  split; [lia|]. split.
  - eexists. split; [vm_compute; reflexivity | reflexivity].
  - eexists. split; [vm_compute; reflexivity | ]. split; [reflexivity | discriminate].
Qed.

(** ** The pages of the list query *)

Lemma limit_clamped redis_get rows query result :
  (∀ userId page limit, redis_get userId page limit = None) →
  getUserTicketsHandler redis_get rows query = Ok result →
  PaginatedResult.limit result
  = Z.min (or_num (GetUserTicketsQuery.limit query) DEFAULT_LIMIT) MAX_LIMIT
  ∧ PaginatedResult.limit result ≤ 100
  ∧ (∀ l, GetUserTicketsQuery.limit query = Some l → 100 < l
          → PaginatedResult.limit result = 100).
Proof.
  intros Hmiss. unfold getUserTicketsHandler.
  destruct (validateQuery query); [|done].
  replace (match GetUserTicketsQuery.status query with
           | Some _ => None
           | None => redis_get _ _ _
           end) with (@None PaginatedResult.t)
    by (by destruct (GetUserTicketsQuery.status query)).
  intros [= <-]. cbn [PaginatedResult.limit]. unfold MAX_LIMIT.
  split; [done|]. split; [lia|].
  intros l -> Hl. unfold or_num. destruct (l =? 0) eqn:H0; lia.
Qed.

Lemma negative_page_rejected query p :
  truthy (GetUserTicketsQuery.userId query) = true →
  GetUserTicketsQuery.page query = Some p → p < 0 →
  validateQuery query = Err (BadRequestError "page must be at least 1").
Proof.
  intros Hu Hp Hlt. unfold validateQuery. rewrite Hu, Hp. cbn.
  destruct (p =? 0) eqn:H0; [lia|]. cbn.
  by rewrite bool_decide_eq_true_2 by lia.
Qed.

(** C9 at page = 0. The validation, whose message is "page must be at
    least 1", lets page 0 through, because it tests the page for
    truthiness first; the handler then serves page 1. (The limit of 500 is
    clamped to 100.) *)
Theorem page_zero_is_served :
  validateQuery query_page0 = Ok ()
  ∧ ∃ result,
      getUserTicketsHandler empty_cache [] query_page0 = Ok result
      ∧ PaginatedResult.page result = 1
      ∧ PaginatedResult.limit result = 100.
Proof. split; [reflexivity|]. eexists. by split. Qed.

(** ** The versions of the event rows *)

(** C1 on Book, Confirm, Cancel. The three commands succeed and each
    writes one event row for the booking, but Confirm and Cancel both
    write the constant version 2: the rows carry 1, 2, 2, there are three
    of them, and the greatest version is 2. *)
Theorem versions_after_book_confirm_cancel :
  is_ok (bookTicketHandler (at_time 1000 ["B1"; "E1"; "K1"]) book_A1 None world0).1 = true
  ∧ is_ok (confirmTicketHandler (at_time 2000 ["E2"; "K2"]) (confirm_B "B1") None
             world_booked).1 = true
  ∧ is_ok (cancelTicketHandler (at_time 3000 ["E3"; "K3"]) (cancel_B "B1" (Some "U1")) None
             world_confirmed).1 = true
  ∧ BookingEvents.version <$> events_of "B1" (writeDb world_cancelled) = [1; 2; 2]
  ∧ length (events_of "B1" (writeDb world_cancelled)) = 3%nat
  ∧ current_version "B1" (writeDb world_cancelled) = 2.
Proof. repeat split; vm_compute; reflexivity. Qed.

(** Whatever the booking, a Confirm and a Cancel that succeed write the
    version 2. *)
Lemma confirm_writes_version_2 env command correlationId w b :
  validateConfirmTicketCommand command = Ok () →
  dbFault env = None →
  fresh_event_id env 0 (writeDb w) →
  bookings (writeDb w) !! ConfirmTicketCommand.bookingId command = Some b →
  Bookings.status b = RESERVED ∨ Bookings.status b = PENDING →
  has_expired (now env) b = false →
  pgUuid env (ConfirmTicketCommand.paymentId command) = true →
  BookingEvents.accepts (pgUuid env) (TicketConfirmedRow env command correlationId)
  = Ok () →
  ∃ e, booking_events (writeDb (confirmTicketHandler env command correlationId w).2)
       = booking_events (writeDb w) ++ [e]
       ∧ BookingEvents.aggregate_id e = ConfirmTicketCommand.bookingId command
       ∧ BookingEvents.version e = 2.
Proof.
  intros. rewrite (confirm_success _ _ _ _ b) by done. by eexists.
Qed.

Lemma cancel_writes_version_2 env command correlationId w b :
  validateCancelTicketCommand command = Ok () →
  dbFault env = None →
  fresh_event_id env 0 (writeDb w) →
  bookings (writeDb w) !! CancelTicketCommand.bookingId command = Some b →
  may_cancel command b →
  Bookings.status b ∈ cancellableStates →
  BookingEvents.accepts (pgUuid env) (TicketCancelledRow env command correlationId b)
  = Ok () →
  ∃ e, booking_events (writeDb (cancelTicketHandler env command correlationId w).2)
       = booking_events (writeDb w) ++ [e]
       ∧ BookingEvents.aggregate_id e = CancelTicketCommand.bookingId command
       ∧ BookingEvents.version e = 2.
Proof.
  intros. rewrite (cancel_success _ _ _ _ b) by done. by eexists.
Qed.

(** ** No command expires a reservation *)

Lemma insert_booking_no_expiry uuid r s :
  Bookings.status r ≠ EXPIRED →
  no_expiry_store s → no_expiry_store (insert_booking uuid r s).2.
Proof.
  intros Hr [Hb He]. unfold insert_booking.
  destruct (Bookings.accepts uuid r); [|done]. cbv zeta.
  destruct (bookings s !! Bookings.id (Bookings.stored r)); [done|]. split; [|done].
  intros id b. cbn. rewrite lookup_insert. case_decide; [by intros [= <-]|apply Hb].
Qed.

Lemma update_booking_payment_no_expiry uuid paymentId now id s :
  no_expiry_store s → no_expiry_store (update_booking_payment uuid paymentId now id s).2.
Proof.
  intros [Hb He]. unfold update_booking_payment. destruct (pg_uuid uuid paymentId); [|done].
  split; [|done].
  intros id' b. cbn. rewrite lookup_alter. case_decide; [subst id'|apply Hb].
  destruct (bookings s !! id) as [r|]; cbn; [by intros [= <-]|done].
Qed.

Lemma update_booking_no_expiry f id s :
  (∀ r, Bookings.status (f r) ≠ EXPIRED) →
  no_expiry_store s → no_expiry_store (update_booking f id s).2.
Proof.
  intros Hf [Hb He]. split; [|done].
  intros id' b. cbn. rewrite lookup_alter. case_decide; [subst id'|apply Hb].
  destruct (bookings s !! id) as [r|]; cbn; [intros [= <-]; apply Hf|done].
Qed.

Lemma update_seat_no_expiry f schedule_id seat_number s :
  no_expiry_store s → no_expiry_store (update_seat f schedule_id seat_number s).2.
Proof. by intros [Hb He]. Qed.

Lemma insert_event_no_expiry uuid e s :
  BookingEvents.event_type e ≠ TicketEventType_str TICKET_EXPIRED →
  no_expiry_store s → no_expiry_store (insert_event uuid e s).2.
Proof.
  intros Ht [Hb He]. unfold insert_event.
  destruct (BookingEvents.accepts uuid e); [|done]. destruct (existsb _ _); [done|].
  split; [done|]. cbn. apply Forall_app. by split; [|constructor].
Qed.

Ltac preserves_step :=
  match goal with
  | |- preserves _ (_ ≫= _) => apply preserves_bind; [|intros ?]
  | |- preserves _ (mret _) => apply preserves_ret
  | |- preserves _ (throw _) => apply preserves_throw
  | |- preserves _ (first_row _) => unfold first_row
  | |- preserves _ (query (select_booking _)) => by apply preserves_query
  | |- preserves _ (query (select_seat _ _ _)) => by apply preserves_query
  | |- preserves _ (query (insert_booking _ _)) =>
      apply preserves_query; intros ?; by apply insert_booking_no_expiry
  | |- preserves _ (query (update_booking_payment _ _ _ _)) =>
      apply preserves_query; intros ?; by apply update_booking_payment_no_expiry
  | |- preserves _ (query (update_booking _ _)) =>
      apply preserves_query; intros ?; by apply update_booking_no_expiry
  | |- preserves _ (query (update_seat _ _ _)) =>
      apply preserves_query; intros ?; by apply update_seat_no_expiry
  | |- preserves _ (query (insert_event _ _)) =>
      apply preserves_query; intros ?; by apply insert_event_no_expiry
  | |- preserves _ (match ?x with _ => _ end) => destruct x
  | |- preserves _ (if ?x then _ else _) => destruct x
  end.

Lemma bookTicket_no_expiry env command correlationId :
  preserves no_expiry_store (bookTicket_callback env command correlationId).
Proof. unfold bookTicket_callback, first_row. cbv zeta. repeat preserves_step. Qed.

Lemma reserveTicket_no_expiry env command correlationId :
  preserves no_expiry_store (reserveTicket_callback env command correlationId).
Proof. unfold reserveTicket_callback, first_row. cbv zeta. repeat preserves_step. Qed.

Lemma confirmTicket_no_expiry env command correlationId :
  preserves no_expiry_store (confirmTicket_callback env command correlationId).
Proof. unfold confirmTicket_callback. repeat preserves_step. Qed.

Lemma cancelTicket_no_expiry env command correlationId :
  preserves no_expiry_store (cancelTicket_callback env command correlationId).
Proof. unfold cancelTicket_callback. cbv zeta. repeat preserves_step. Qed.

Lemma publishEvent_no_expiry env event topic :
  DomainEvent.eventType event ≠ TicketEventType_str TICKET_EXPIRED →
  Forall (λ m, Message.eventType m ≠ TicketEventType_str TICKET_EXPIRED) topic →
  Forall (λ m, Message.eventType m ≠ TicketEventType_str TICKET_EXPIRED)
         (try_publish (publishEvent env event topic)).
Proof.
  intros Ht Htopic. unfold try_publish, publishEvent.
  destruct (busUp env); [|done]. cbn. apply Forall_app. by split; [|constructor].
Qed.

Lemma run_no_expiry env c correlationId w :
  no_expiry w → no_expiry (run env c correlationId w).2.
Proof.
  intros [Hs Ht].
  destruct c as [command|command|command|command]; cbn;
    [ unfold bookTicketHandler; destruct (validateBookTicketCommand command);
      [pose proof (transaction_preserves no_expiry_store (dbFault env) _ (writeDb w)
                     (bookTicket_no_expiry env command correlationId) Hs) as Hs'|done]
    | unfold reserveTicketHandler; destruct (validateReserveTicketCommand command);
      [pose proof (transaction_preserves no_expiry_store (dbFault env) _ (writeDb w)
                     (reserveTicket_no_expiry env command correlationId) Hs) as Hs'|done]
    | unfold confirmTicketHandler; destruct (validateConfirmTicketCommand command);
      [pose proof (transaction_preserves no_expiry_store (dbFault env) _ (writeDb w)
                     (confirmTicket_no_expiry env command correlationId) Hs) as Hs'|done]
    | unfold cancelTicketHandler; destruct (validateCancelTicketCommand command);
      [pose proof (transaction_preserves no_expiry_store (dbFault env) _ (writeDb w)
                     (cancelTicket_no_expiry env command correlationId) Hs) as Hs'|done] ];
    destruct (transaction _ _ _) as [[result|error] s]; cbn in *;
    (split; [done|]); try done;
    by apply publishEvent_no_expiry.
Qed.

Lemma task_step_no_expiry t sv sv' :
  task_step t sv sv' → no_expiry (write_side sv) → no_expiry (write_side sv').
Proof.
  intros Hstep Hsv. destruct Hstep as [sv|now m sv Hm|env c correlationId sv];
    [done|done|]. by apply run_no_expiry.
Qed.

Lemma reachable_no_expiry sv0 sv :
  no_expiry (write_side sv0) → reachable sv0 sv → no_expiry (write_side sv).
Proof.
  intros H0 Hr. induction Hr as [|t sv sv' _ _ IH Hstep]; [done|].
  by apply (task_step_no_expiry t sv).
Qed.

(** C2, as the code has it. [startServer] starts the topics, the
    projector's consumer and the HTTP listener, and no periodic task.
    Whatever these tasks do, in any number of steps and at any times, no
    booking is set to EXPIRED, no TICKET_EXPIRED event row is written and
    no TICKET_EXPIRED event is published: a write side without such marks
    stays without them. *)
Theorem no_task_expires sv0 sv :
  no_expiry (write_side sv0) → reachable sv0 sv →
  (∀ id b, bookings (writeDb (write_side sv)) !! id = Some b
           → Bookings.status b ≠ EXPIRED)
  ∧ Forall (λ e, BookingEvents.event_type e ≠ "TICKET_EXPIRED")
           (booking_events (writeDb (write_side sv)))
  ∧ Forall (λ m, Message.eventType m ≠ "TICKET_EXPIRED")
           (ticket_events (write_side sv)).
Proof.
  intros H0 Hr. destruct (reachable_no_expiry sv0 sv H0 Hr) as [[Hb He] Ht]. done.
Qed.

Lemma world_reserved_no_expiry : no_expiry world_reserved.
Proof.
  apply (run_no_expiry (at_time 0 ["B2"; "E4"; "K4"]) (Reserve (reserve_A2 (Some 5)))
           None world0).
  split; [split|]; [|by constructor..].
  intros id b. unfold world0; cbn [bookings writeDb]. by rewrite lookup_empty.
Qed.

(** One minute after the reservation B2 is due, a Confirm of B2 comes in. *)
Lemma no_task_expires_witness :
  Forall (λ m, Message.eventType m ≠ "TICKET_EXPIRED")
         (ticket_events
            (run (at_time 360000 ["E5"; "K5"]) (Confirm (confirm_B "B2")) None
               world_reserved).2).
Proof.
  apply (no_task_expires service_reserved
           {| write_side := (run (at_time 360000 ["E5"; "K5"]) (Confirm (confirm_B "B2"))
                               None world_reserved).2;
              read_side := read_B2 |}).
  - exact world_reserved_no_expiry.
  - apply (reachable_step _ HttpListener service_reserved);
      [vm_compute; set_solver | apply reachable_refl | apply step_HttpListener].
Defined.

(** C2, as stated, fails. Seat A2 is reserved at t = 0 for five minutes:
    the booking B2 is RESERVED and due at t = 300000. Whatever the tasks
    of the server do afterwards, at whatever times, no booking is EXPIRED,
    and no TICKET_EXPIRED event is stored or published. *)
Lemma overdue_reservation_never_expires :
  (∃ b, bookings (writeDb world_reserved) !! "B2" = Some b
        ∧ Bookings.status b = RESERVED
        ∧ Bookings.expires_at b = Some 300000)
  ∧ ∀ sv, reachable service_reserved sv →
          (∀ id b, bookings (writeDb (write_side sv)) !! id = Some b
                   → Bookings.status b ≠ EXPIRED)
          ∧ Forall (λ e, BookingEvents.event_type e ≠ "TICKET_EXPIRED")
                   (booking_events (writeDb (write_side sv)))
          ∧ Forall (λ m, Message.eventType m ≠ "TICKET_EXPIRED")
                   (ticket_events (write_side sv)).
Proof.
  split.
  - eexists. split; [vm_compute; reflexivity|]. by split.
  - intros sv Hr.
    destruct (reachable_no_expiry service_reserved sv world_reserved_no_expiry Hr)
      as [[Hb He] Ht].
    done.
Qed.

(** ** The projector *)

Lemma Proj_preserves_ret {A} P (a : A) : Proj_preserves P (mret a).
Proof. by intros s. Qed.

Lemma Proj_preserves_bind {A B} P (m : Proj A) (f : A → Proj B) :
  Proj_preserves P m → (∀ a, Proj_preserves P (f a)) → Proj_preserves P (m ≫= f).
Proof.
  intros Hm Hf s Hs. specialize (Hm s Hs). unfold mbind, Proj_bind.
  destruct (m s) as [[a|e] s']; cbn in *; [by apply Hf | done].
Qed.

Lemma upsert_ticket_nonneg now payload status created_at :
  Proj_preserves bookedSeats_nonneg (upsert_ticket now payload status created_at).
Proof.
  intros s Hs. unfold upsert_ticket.
  by destruct (_ ≫= _) as [r|e].
Qed.

Lemma update_ticket_status_nonneg now status bookingId :
  Proj_preserves bookedSeats_nonneg (update_ticket_status now status bookingId).
Proof.
  intros s Hs. unfold update_ticket_status. by destruct (as_string bookingId).
Qed.

Lemma select_schedule_id_nonneg bookingId :
  Proj_preserves bookedSeats_nonneg (select_schedule_id bookingId).
Proof. by intros s Hs. Qed.

Lemma updateCheckpoint_nonneg now eventId :
  Proj_preserves bookedSeats_nonneg (updateCheckpoint now eventId).
Proof. by intros s Hs. Qed.

Lemma updateScheduleAvailability_nonneg now scheduleId delta :
  Proj_preserves bookedSeats_nonneg (updateScheduleAvailability now scheduleId delta).
Proof.
  intros s Hs. unfold updateScheduleAvailability.
  destruct (not_null "schedule_id" scheduleId) as [schedule_id|e]; [|done].
  intros id r. cbn.
  destruct (schedule_availability_view s !! schedule_id) as [old|];
    rewrite lookup_insert; (case_decide; [intros [= <-]; cbn; unfold GREATEST0; lia
                                         | apply Hs]).
Qed.

Lemma processMessage_nonneg now payload :
  Proj_preserves bookedSeats_nonneg (processMessage now payload).
Proof.
  unfold processMessage. destruct (EachMessagePayload.value payload) as [event|];
    [|apply Proj_preserves_ret].
  apply Proj_preserves_bind; [|intros _; apply updateCheckpoint_nonneg].
  repeat case_match; try apply Proj_preserves_ret.
  - apply Proj_preserves_bind;
      [apply upsert_ticket_nonneg|intros _; apply updateScheduleAvailability_nonneg].
  - apply Proj_preserves_bind;
      [apply upsert_ticket_nonneg|intros _; apply updateScheduleAvailability_nonneg].
  - apply update_ticket_status_nonneg.
  - apply Proj_preserves_bind; [apply select_schedule_id_nonneg|intros booking].
    apply Proj_preserves_bind; [apply update_ticket_status_nonneg|intros _].
    destruct booking; [apply updateScheduleAvailability_nonneg|apply Proj_preserves_ret].
Qed.

Lemma project_nonneg now stream s :
  bookedSeats_nonneg s → bookedSeats_nonneg (project now stream s).
Proof.
  unfold project. revert s.
  induction stream as [|payload stream IH]; intros s Hs; [done|].
  cbn. apply IH. by apply processMessage_nonneg.
Qed.

(** The ticket row after a TICKET_BOOKED or TICKET_RESERVED message for a
    booking that the view has already. *)
Lemma booked_on_existing_row env n booking correlationId now s old :
  user_tickets_view s !! Booking.id booking = Some old →
  user_tickets_view
    (eachMessage now (deliver (message_of (TicketBookedEvent env n booking correlationId))) s)
    !! Booking.id booking
  = Some (UserTicketsView.set_status PENDING now old).
Proof.
  intros Hold. unfold eachMessage, processMessage. cbn.
  unfold handleTicketBooked, upsert_ticket, mbind, Proj_bind. cbn.
  rewrite Hold. cbn. by rewrite lookup_insert_eq.
Qed.

Lemma reserved_on_existing_row env n booking expiresAt correlationId now s old :
  user_tickets_view s !! Booking.id booking = Some old →
  user_tickets_view
    (eachMessage now
       (deliver (message_of (TicketReservedEvent env n booking expiresAt correlationId))) s)
    !! Booking.id booking
  = Some (UserTicketsView.set_status RESERVED now old).
Proof.
  intros Hold. unfold eachMessage, processMessage. cbn.
  unfold handleTicketReserved, upsert_ticket, mbind, Proj_bind. cbn.
  rewrite Hold. cbn. by rewrite lookup_insert_eq.
Qed.

Lemma booked_counts_again env n booking correlationId now s r :
  schedule_availability_view s !! Booking.scheduleId booking = Some r →
  ScheduleAvailabilityView.booked_seats
    <$> schedule_availability_view
          (eachMessage now
             (deliver (message_of (TicketBookedEvent env n booking correlationId))) s)
        !! Booking.scheduleId booking
  = Some (GREATEST0 (ScheduleAvailabilityView.booked_seats r + 1)).
Proof.
  intros Hr. unfold eachMessage, processMessage. cbn.
  unfold handleTicketBooked, upsert_ticket, mbind, Proj_bind. cbn.
  destruct (user_tickets_view s !! Booking.id booking); cbn;
    by rewrite Hr, lookup_insert_eq.
Qed.

(** C3, as the code has it. A TICKET_BOOKED (TICKET_RESERVED) message for
    a booking that the view has already sets the status of its row to
    PENDING (RESERVED) whatever the status was, CONFIRMED, CANCELLED,
    EXPIRED and REFUNDED included, and a TICKET_BOOKED message adds 1 to
    the counter of the schedule every time it is applied: a replayed
    stream is not without effect. The counters never go below zero. *)
Theorem replayed_booking_overwrites_status :
  (∀ env n booking correlationId now s old,
     user_tickets_view s !! Booking.id booking = Some old →
     UserTicketsView.status
       <$> user_tickets_view
             (eachMessage now
                (deliver (message_of (TicketBookedEvent env n booking correlationId))) s)
           !! Booking.id booking
     = Some PENDING)
  ∧ (∀ env n booking expiresAt correlationId now s old,
       user_tickets_view s !! Booking.id booking = Some old →
       UserTicketsView.status
         <$> user_tickets_view
               (eachMessage now
                  (deliver (message_of
                     (TicketReservedEvent env n booking expiresAt correlationId))) s)
             !! Booking.id booking
       = Some RESERVED)
  ∧ (∀ env n booking correlationId now s r,
       schedule_availability_view s !! Booking.scheduleId booking = Some r →
       0 ≤ ScheduleAvailabilityView.booked_seats r →
       ScheduleAvailabilityView.booked_seats
         <$> schedule_availability_view
               (eachMessage now
                  (deliver (message_of (TicketBookedEvent env n booking correlationId))) s)
             !! Booking.scheduleId booking
       = Some (ScheduleAvailabilityView.booked_seats r + 1))
  ∧ (∀ now stream s, bookedSeats_nonneg s → bookedSeats_nonneg (project now stream s)).
Proof.
  split; [|split; [|split]].
  - intros * Hold. by rewrite (booked_on_existing_row _ _ _ _ _ _ old).
  - intros * Hold. by rewrite (reserved_on_existing_row _ _ _ _ _ _ _ old).
  - intros * Hr Hnn. rewrite (booked_counts_again _ _ _ _ _ _ r) by done.
    unfold GREATEST0. f_equal. lia.
  - apply project_nonneg.
Qed.

Lemma replayed_booking_overwrites_status_witness :
  UserTicketsView.status
    <$> user_tickets_view
          (eachMessage 6000
             (deliver (message_of
                (TicketBookedEvent (at_time 1000 ["B1"; "E1"; "K1"]) 2 booking_B1 None)))
             read_B1)
        !! "B1"
  = Some PENDING
  ∧ bookedSeats_nonneg (project 6000 stream_B1 read_B1).
Proof.
  destruct replayed_booking_overwrites_status as (Hb & _ & _ & Hnn). split.
  - eapply (Hb (at_time 1000 ["B1"; "E1"; "K1"]) 2%nat booking_B1 None 6000 read_B1).
    vm_compute. reflexivity.
  - apply Hnn, Hnn. intros scheduleId r. unfold empty_read_store; cbn.
    by rewrite lookup_empty.
Defined.

(** C3, as stated, fails. Once the messages of Book and Confirm for B1
    are projected, the row is CONFIRMED and the schedule counts one seat.
    Projecting the same two messages again leaves another read store: the
    counter is at two. And the replay of the first message alone takes the
    row from CONFIRMED back to PENDING. *)
Lemma projector_replay_differs :
  UserTicketsView.status <$> user_tickets_view read_B1 !! "B1" = Some CONFIRMED
  ∧ ScheduleAvailabilityView.booked_seats
      <$> schedule_availability_view read_B1 !! "S1" = Some 1
  ∧ ScheduleAvailabilityView.booked_seats
      <$> schedule_availability_view (project 5000 stream_B1 read_B1) !! "S1" = Some 2
  ∧ project 5000 (stream_B1 ++ stream_B1) empty_read_store
    ≠ project 5000 stream_B1 empty_read_store
  ∧ UserTicketsView.status
      <$> user_tickets_view (project 5000 (take 1 stream_B1) read_B1) !! "B1"
    = Some PENDING.
Proof.
  split; [vm_compute; reflexivity|].
  split; [vm_compute; reflexivity|].
  split; [vm_compute; reflexivity|].
  split; [|vm_compute; reflexivity].
  intros Heq.
  apply (f_equal (λ s, ScheduleAvailabilityView.booked_seats
                         <$> schedule_availability_view s !! "S1")) in Heq.
  vm_compute in Heq. discriminate.
Qed.

(** C4, as the code has it. A message whose event type is TICKET_EXPIRED
    is not known to the projector: it changes no row of the tickets view
    and no counter of the schedules, and only moves the checkpoint to the
    event of the message. *)
Theorem expired_event_only_moves_checkpoint now payload event s :
  EachMessagePayload.value payload = Some event →
  default (DomainEvent.eventType event) (or_null (EachMessagePayload.eventType payload))
  = "TICKET_EXPIRED" →
  processMessage now payload s = (Ok (), checkpointed now (DomainEvent.eventId event) s)
  ∧ user_tickets_view (eachMessage now payload s) = user_tickets_view s
  ∧ schedule_availability_view (eachMessage now payload s)
    = schedule_availability_view s.
Proof.
  intros Hv Ht.
  assert (processMessage now payload s
          = (Ok (), checkpointed now (DomainEvent.eventId event) s)) as Hp.
  { unfold processMessage. rewrite Hv. cbv zeta. by rewrite Ht. }
  unfold eachMessage. by rewrite Hp.
Qed.

Lemma expired_event_only_moves_checkpoint_witness :
  processMessage 400000 expired_B2 read_B2
  = (Ok (), checkpointed 400000 "K6" read_B2)
  ∧ user_tickets_view (eachMessage 400000 expired_B2 read_B2) = user_tickets_view read_B2
  ∧ schedule_availability_view (eachMessage 400000 expired_B2 read_B2)
    = schedule_availability_view read_B2.
Proof.
  apply (expired_event_only_moves_checkpoint 400000 expired_B2
           (TicketExpiredEvent (at_time 360000 ["K6"]) 0 "B2" "U1" None) read_B2);
    reflexivity.
Defined.

(** C4, as stated, fails. The view holds the reservation B2 and counts one
    seat of schedule S1. After the TICKET_EXPIRED message for B2 the row
    is RESERVED still, not EXPIRED, and the counter is 1 still, not 0. *)
Lemma expired_message_changes_nothing :
  UserTicketsView.status <$> user_tickets_view read_B2 !! "B2" = Some RESERVED
  ∧ ScheduleAvailabilityView.booked_seats
      <$> schedule_availability_view read_B2 !! "S1" = Some 1
  ∧ UserTicketsView.status
      <$> user_tickets_view (eachMessage 400000 expired_B2 read_B2) !! "B2"
    = Some RESERVED
  ∧ ScheduleAvailabilityView.booked_seats
      <$> schedule_availability_view (eachMessage 400000 expired_B2 read_B2) !! "S1"
    = Some 1.
Proof. repeat split; vm_compute; reflexivity. Qed.

(** ** What a command that returned has done, whatever the faults *)

Lemma wp_query_any {A} (stmt : Statement A) c Q :
  Q (Err (DriverError "Connection terminated")) c →
  (∀ b, Q (stmt (db c)).1 {| db := (stmt (db c)).2; budget := b |}) →
  wp (query stmt) c Q.
Proof.
  intros Herr Hrun. unfold wp, query. destruct c as [s b]; cbn in *.
  destruct b as [[|n]|]; cbn; [done| specialize (Hrun (Some n)) | specialize (Hrun None)];
    by destruct (stmt s).
Qed.

Lemma existsb_fresh_event_id env n s e :
  BookingEvents.event_id e = uuidv4 env n →
  existsb (λ e', String.eqb (BookingEvents.event_id e') (BookingEvents.event_id e))
          (booking_events s) = false →
  fresh_event_id env n s.
Proof.
  intros -> Hex. unfold fresh_event_id.
  induction (booking_events s) as [|e' l IH]; cbn in *; [done|].
  apply orb_false_iff in Hex as [H1 H2]. constructor; [|by apply IH].
  by apply String.eqb_neq.
Qed.

(** A transaction that returns has run its body to the end on the
    database it was given, and leaves what the body left. *)
Lemma transaction_ok {A} fault (callback : Tx A) s (Post : A → WriteStore → Prop) :
  (∀ b, wp callback {| db := s; budget := b |} (on_ok Post)) →
  ∀ result s', transaction fault callback s = (Ok result, s') → Post result s'.
Proof.
  intros Hcb result s'. unfold transaction, mbind, Tx_bind.
  unfold query at 1; cbn.
  destruct fault as [[|n]|]; cbn.
  - unfold query; cbn. intros [=].
  - specialize (Hcb (Some n)). unfold wp in Hcb.
    destruct (callback _) as [[a|e] [s1 b1]]; cbn in *.
    + unfold query, control; cbn. destruct b1 as [[|n1]|]; cbn; by intros [= <- <-].
    + unfold query, control; cbn. by destruct b1 as [[|n1]|].
  - specialize (Hcb None). unfold wp in Hcb.
    destruct (callback _) as [[a|e] [s1 b1]]; cbn in *.
    + unfold query, control; cbn. destruct b1 as [[|n1]|]; cbn; by intros [= <- <-].
    + unfold query, control; cbn. by destruct b1 as [[|n1]|].
Qed.

Ltac wp_any :=
  apply wp_query_any; [exact I | intros ?; run_stmt].

Lemma bookTicket_callback_done env command correlationId s b :
  wp (bookTicket_callback env command correlationId) {| db := s; budget := b |}
     (on_ok (book_done env command correlationId s)).
Proof.
  unfold bookTicket_callback, book_done, booked_store. cbv zeta.
  destruct (or_null (BookTicketCommand.seatNumber command)) as [seatNumber|] eqn:Hs.
  - apply wp_bind, wp_bind. wp_any.
    destruct (seat_availability s !! _) as [r|] eqn:Hr; [|done].
    destruct (is_available r) eqn:Ha; [|done].
    apply wp_ret, wp_bind. wp_any.
    destruct (Bookings.accepts _ _) as [[]|]; [|done].
    cbn [Bookings.id Bookings.stored].
    destruct (bookings s !! uuidv4 env 0) eqn:Hb; [done|]. cbn [fst snd].
    apply wp_bind. wp_any. apply wp_bind. wp_any.
    destruct (BookingEvents.accepts _ _) as [[]|]; [|done].
    destruct (existsb _ _) eqn:He; [done|]. cbn [fst snd].
    apply wp_ret. cbn. unfold booked_row, book_values. rewrite ?Hs. repeat split; try done.
    + intros ? [= <-]. exists r. split; [done|].
      by apply bool_decide_eq_true in Ha.
    + by apply (existsb_fresh_event_id env 1 s (TicketBookedRow env command correlationId)).
  - apply wp_bind, wp_ret, wp_bind. wp_any.
    destruct (Bookings.accepts _ _) as [[]|]; [|done].
    cbn [Bookings.id Bookings.stored].
    destruct (bookings s !! uuidv4 env 0) eqn:Hb; [done|]. cbn [fst snd].
    apply wp_bind, wp_ret, wp_bind. wp_any.
    destruct (BookingEvents.accepts _ _) as [[]|]; [|done].
    destruct (existsb _ _) eqn:He; [done|]. cbn [fst snd].
    apply wp_ret. cbn. unfold booked_row, book_values. rewrite ?Hs. repeat split; try done.
    by apply (existsb_fresh_event_id env 1 s (TicketBookedRow env command correlationId)).
Qed.

Lemma is_acquirable_true now r :
  is_acquirable now r = true → acquirable now (Some r).
Proof. intros Ha. apply is_acquirable_spec. by exists r. Qed.

Lemma reserveTicket_callback_done env command correlationId s b :
  wp (reserveTicket_callback env command correlationId) {| db := s; budget := b |}
     (on_ok (reserve_done env command correlationId s)).
Proof.
  unfold reserveTicket_callback, reserve_done, reserved_store. cbv zeta.
  destruct (or_null (ReserveTicketCommand.seatNumber command)) as [seatNumber|] eqn:Hs.
  - apply wp_bind, wp_bind. wp_any.
    destruct (seat_availability s !! _) as [r|] eqn:Hr; [|done].
    destruct (is_acquirable (now env) r) eqn:Ha; [|done].
    apply wp_ret, wp_bind. wp_any.
    destruct (Bookings.accepts _ _) as [[]|]; [|done].
    cbn [Bookings.id Bookings.stored].
    destruct (bookings s !! uuidv4 env 0) eqn:Hb; [done|]. cbn [fst snd].
    apply wp_bind. wp_any. apply wp_bind. wp_any.
    destruct (BookingEvents.accepts _ _) as [[]|]; [|done].
    destruct (existsb _ _) eqn:He; [done|]. cbn [fst snd].
    apply wp_ret. cbn. unfold reserved_row, reserve_values. rewrite ?Hs. repeat split; try done.
    + intros ? [= <-]. rewrite Hr. by apply is_acquirable_true.
    + by apply (existsb_fresh_event_id env 1 s
                  (TicketReservedRow env command correlationId)).
  - apply wp_bind, wp_ret, wp_bind. wp_any.
    destruct (Bookings.accepts _ _) as [[]|]; [|done].
    cbn [Bookings.id Bookings.stored].
    destruct (bookings s !! uuidv4 env 0) eqn:Hb; [done|]. cbn [fst snd].
    apply wp_bind, wp_ret, wp_bind. wp_any.
    destruct (BookingEvents.accepts _ _) as [[]|]; [|done].
    destruct (existsb _ _) eqn:He; [done|]. cbn [fst snd].
    apply wp_ret. cbn. unfold reserved_row, reserve_values. rewrite ?Hs. repeat split; try done.
    by apply (existsb_fresh_event_id env 1 s (TicketReservedRow env command correlationId)).
Qed.

Lemma confirmTicket_callback_done env command correlationId s b :
  wp (confirmTicket_callback env command correlationId) {| db := s; budget := b |}
     (on_ok (confirm_done env command correlationId s)).
Proof.
  unfold confirmTicket_callback, confirm_done, confirmed_store.
  apply wp_bind. wp_any.
  destruct (bookings s !! ConfirmTicketCommand.bookingId command) as [r|] eqn:Hr; [|done].
  destruct (bool_decide (Bookings.status r ≠ RESERVED)
            && bool_decide (Bookings.status r ≠ PENDING)) eqn:Hst; [done|].
  destruct (has_expired (now env) r) eqn:Hex; [done|].
  assert (Bookings.status r = RESERVED ∨ Bookings.status r = PENDING) as Hs.
  { apply andb_false_iff in Hst as [H|H]; apply bool_decide_eq_false in H;
      destruct (Bookings.status r); naive_solver. }
  apply wp_bind. wp_any. unfold pg_uuid.
  destruct (pgUuid env (ConfirmTicketCommand.paymentId command)); [|done].
  rewrite Hr. cbn [fst snd fmap option_fmap option_map].
  apply wp_bind.
  destruct (or_null (Bookings.seat_number r)) as [seat_number|] eqn:Hseat.
  - wp_any. apply wp_bind. wp_any.
    destruct (BookingEvents.accepts _ _) as [[]|]; [|done].
    destruct (existsb _ _) eqn:He; [done|]. cbn [fst snd].
    apply wp_ret. cbn. exists r. rewrite Hseat. repeat split; try done.
    by apply (existsb_fresh_event_id env 0 s (TicketConfirmedRow env command correlationId)).
  - apply wp_ret. apply wp_bind. wp_any.
    destruct (BookingEvents.accepts _ _) as [[]|]; [|done].
    destruct (existsb _ _) eqn:He; [done|]. cbn [fst snd].
    apply wp_ret. cbn. exists r. rewrite Hseat. repeat split; try done.
    by apply (existsb_fresh_event_id env 0 s (TicketConfirmedRow env command correlationId)).
Qed.

Lemma may_cancel_of_checks command b :
  truthy (default (Bookings.user_id b) (or_null (CancelTicketCommand.userId command)))
  = true →
  truthy_opt (CancelTicketCommand.userId command)
  && bool_decide (Some (Bookings.user_id b) ≠ CancelTicketCommand.userId command)
  = false →
  may_cancel command b.
Proof.
  unfold may_cancel, or_null.
  destruct (CancelTicketCommand.userId command) as [userId|]; cbn; [|done].
  destruct (truthy userId) eqn:Ht; cbn; [|done].
  intros _ H. apply bool_decide_eq_false in H.
  destruct (decide (userId = Bookings.user_id b)) as [->|Hne]; [done|].
  exfalso. apply H. congruence.
Qed.

Lemma cancelTicket_callback_done env command correlationId s b :
  wp (cancelTicket_callback env command correlationId) {| db := s; budget := b |}
     (on_ok (cancel_done env command correlationId s)).
Proof.
  unfold cancelTicket_callback, cancel_done, cancelled_store.
  apply wp_bind. wp_any.
  destruct (bookings s !! CancelTicketCommand.bookingId command) as [r|] eqn:Hr; [|done].
  cbv zeta.
  destruct (truthy (default (Bookings.user_id r)
                            (or_null (CancelTicketCommand.userId command)))) eqn:Hu;
    [|done]. cbn [negb].
  destruct (truthy_opt (CancelTicketCommand.userId command)
            && bool_decide (Some (Bookings.user_id r) ≠ CancelTicketCommand.userId command))
    eqn:Ho; [done|].
  destruct (bool_decide (Bookings.status r ∈ cancellableStates)) eqn:Hst; [|done].
  cbn [negb]. apply bool_decide_eq_true in Hst.
  pose proof (may_cancel_of_checks command r Hu Ho) as Hm.
  apply wp_bind. wp_any. rewrite Hr. cbn [fmap option_fmap option_map].
  apply wp_bind.
  destruct (or_null (Bookings.seat_number r)) as [seat_number|] eqn:Hseat.
  - wp_any. apply wp_bind. wp_any.
    destruct (BookingEvents.accepts _ _) as [[]|]; [|done].
    destruct (existsb _ _) eqn:He; [done|]. cbn [fst snd].
    apply wp_bind, wp_ret, wp_ret. cbn. exists r. rewrite Hseat. repeat split; try done.
    by apply (existsb_fresh_event_id env 0 s
                (TicketCancelledRow env command correlationId r)).
  - apply wp_ret. apply wp_bind. wp_any.
    destruct (BookingEvents.accepts _ _) as [[]|]; [|done].
    destruct (existsb _ _) eqn:He; [done|]. cbn [fst snd].
    apply wp_bind, wp_ret, wp_ret. cbn. exists r. rewrite Hseat. repeat split; try done.
    by apply (existsb_fresh_event_id env 0 s
                (TicketCancelledRow env command correlationId r)).
Qed.

(** The handlers: a result is returned only after the handler's own
    validation and a committed transaction. *)
Lemma bookTicketHandler_done env command correlationId w booking w' :
  bookTicketHandler env command correlationId w = (Ok booking, w') →
  validateBookTicketCommand command = Ok ()
  ∧ book_done env command correlationId (writeDb w) booking (writeDb w')
  ∧ ticket_events w'
    = try_publish (publishTicketBooked env 2 booking correlationId (ticket_events w)).
Proof.
  unfold bookTicketHandler.
  destruct (validateBookTicketCommand command) as [[]|]; [|intros [=]].
  destruct (transaction _ _ _) as [[r|e] s] eqn:Htx; intros [= <- <-].
  split; [done|]. split; [|done].
  eapply transaction_ok in Htx; [exact Htx|]. intros b.
  apply bookTicket_callback_done.
Qed.

Lemma reserveTicketHandler_done env command correlationId w result w' :
  reserveTicketHandler env command correlationId w = (Ok result, w') →
  validateReserveTicketCommand command = Ok ()
  ∧ reserve_done env command correlationId (writeDb w) result (writeDb w')
  ∧ ticket_events w'
    = try_publish (publishTicketReserved env 2 (ReserveTicketResult.booking result)
                     (ReserveTicketResult.expiresAt result) correlationId
                     (ticket_events w)).
Proof.
  unfold reserveTicketHandler.
  destruct (validateReserveTicketCommand command) as [[]|]; [|intros [=]].
  destruct (transaction _ _ _) as [[r|e] s] eqn:Htx; intros [= <- <-].
  split; [done|]. split; [|done].
  eapply transaction_ok in Htx; [exact Htx|]. intros b.
  apply reserveTicket_callback_done.
Qed.

Lemma confirmTicketHandler_done env command correlationId w booking w' :
  confirmTicketHandler env command correlationId w = (Ok booking, w') →
  validateConfirmTicketCommand command = Ok ()
  ∧ confirm_done env command correlationId (writeDb w) booking (writeDb w')
  ∧ ticket_events w'
    = try_publish (publishTicketConfirmed env 1 (Booking.id booking)
                     (Booking.userId booking) (ConfirmTicketCommand.paymentId command)
                     correlationId (ticket_events w)).
Proof.
  unfold confirmTicketHandler.
  destruct (validateConfirmTicketCommand command) as [[]|]; [|intros [=]].
  destruct (transaction _ _ _) as [[r|e] s] eqn:Htx; intros [= <- <-].
  split; [done|]. split; [|done].
  eapply transaction_ok in Htx; [exact Htx|]. intros b.
  apply confirmTicket_callback_done.
Qed.

Lemma cancelTicketHandler_done env command correlationId w result w' :
  cancelTicketHandler env command correlationId w = (Ok result, w') →
  validateCancelTicketCommand command = Ok ()
  ∧ cancel_done env command correlationId (writeDb w) result (writeDb w')
  ∧ ticket_events w'
    = try_publish (publishTicketCancelled env 1
                     (Booking.id (CancelTicketResult.booking result))
                     (Booking.userId (CancelTicketResult.booking result))
                     (CancelTicketCommand.reason command)
                     (or_undefined (CancelTicketResult.refundAmount result))
                     correlationId (ticket_events w)).
Proof.
  unfold cancelTicketHandler.
  destruct (validateCancelTicketCommand command) as [[]|]; [|intros [=]].
  destruct (transaction _ _ _) as [[r|e] s] eqn:Htx; intros [= <- <-].
  split; [done|]. split; [|done].
  eapply transaction_ok in Htx; [exact Htx|]. intros b.
  apply cancelTicket_callback_done.
Qed.

(** A handler that throws leaves the world as it was. *)
Lemma handler_throws_unchanged {A B} (validation : Result B) fault (callback : Tx A)
    (publish : A → list Message.t) w e w' :
  match validation with
  | Err e => (Err e, w)
  | Ok _ =>
      match transaction fault callback (writeDb w) with
      | (Err e, s) => (Err e, {| writeDb := s; ticket_events := ticket_events w |})
      | (Ok result, s) =>
          (Ok result, {| writeDb := s; ticket_events := publish result |})
      end
  end = (@Err A e, w') →
  w' = w.
Proof.
  destruct validation as [?|]; [|by intros [= _ <-]].
  destruct (transaction _ _ _) as [[result|error] s] eqn:Htx; intros [= _ <-].
  apply transaction_rolls_back in Htx as ->. apply World_eta.
Qed.

(** ** One command, seen from the tables *)

(** What a command does to the write database: nothing, or what one of the
    four commands that returned has done. *)
Lemma run_store env c correlationId w :
  let s := writeDb w in
  let s' := writeDb (run env c correlationId w).2 in
  s' = s
  ∨ (∃ command booking, c = Book command
       ∧ book_done env command correlationId s booking s')
  ∨ (∃ command result, c = Reserve command
       ∧ reserve_done env command correlationId s result s')
  ∨ (∃ command booking, c = Confirm command
       ∧ confirm_done env command correlationId s booking s')
  ∨ (∃ command result, c = Cancel command
       ∧ cancel_done env command correlationId s result s').
Proof.
  cbv zeta. destruct c as [command|command|command|command]; cbn.
  - destruct (bookTicketHandler env command correlationId w) as [[r|e] w'] eqn:H.
    + apply bookTicketHandler_done in H as (_ & H & _). cbn. right; left. eauto.
    + apply handler_throws_unchanged in H as ->. by left.
  - destruct (reserveTicketHandler env command correlationId w) as [[r|e] w'] eqn:H.
    + apply reserveTicketHandler_done in H as (_ & H & _). cbn. right; right; left. eauto.
    + apply handler_throws_unchanged in H as ->. by left.
  - destruct (confirmTicketHandler env command correlationId w) as [[r|e] w'] eqn:H.
    + apply confirmTicketHandler_done in H as (_ & H & _). cbn.
      right; right; right; left. eauto.
    + apply handler_throws_unchanged in H as ->. by left.
  - destruct (cancelTicketHandler env command correlationId w) as [[r|e] w'] eqn:H.
    + apply cancelTicketHandler_done in H as (_ & H & _). cbn.
      right; right; right; right. eauto.
    + apply handler_throws_unchanged in H as ->. by left.
Qed.

Lemma same_booking_refl b : same_booking b b.
Proof. by repeat split. Qed.

Lemma run_booking_step env c correlationId w id b :
  bookings (writeDb w) !! id = Some b →
  ∃ b', bookings (writeDb (run env c correlationId w).2) !! id = Some b'
        ∧ booking_step b b'.
Proof.
  intros Hb.
  destruct (run_store env c correlationId w)
    as [->|[(command & r & _ & H)|[(command & r & _ & H)|[(command & r & _ & H)
         |(command & r & _ & H)]]]].
  - exists b. split; [done|by left].
  - destruct H as (_ & Hfresh & _ & _ & ->). unfold fresh_booking_id in Hfresh.
    exists b. split; [|by left]. cbn.
    rewrite lookup_insert_ne; [done|]. intros <-. congruence.
  - destruct H as (_ & Hfresh & _ & _ & ->). unfold fresh_booking_id in Hfresh.
    exists b. split; [|by left]. cbn.
    rewrite lookup_insert_ne; [done|]. intros <-. congruence.
  - destruct H as (b0 & Hb0 & Hs & _ & _ & _ & ->). cbn.
    rewrite lookup_alter. case_decide as Hid.
    + subst id. rewrite Hb0. rewrite Hb in Hb0. injection Hb0 as <-.
      eexists. split; [done|]. right. split; [by repeat split|].
      cbn. destruct Hs as [-> | ->]; constructor.
    + exists b. split; [done|by left].
  - destruct H as (b0 & Hb0 & _ & Hs & _ & _ & ->). cbn.
    rewrite lookup_alter. case_decide as Hid.
    + subst id. rewrite Hb0. rewrite Hb in Hb0. injection Hb0 as <-.
      eexists. split; [done|]. right. split; [by repeat split|].
      cbn. unfold cancellableStates in Hs.
      apply elem_of_cons in Hs as [->|Hs]; [constructor|].
      apply elem_of_cons in Hs as [->|Hs]; [constructor|].
      apply elem_of_cons in Hs as [->|Hs]; [constructor|].
      by apply elem_of_nil in Hs.
    + exists b. split; [done|by left].
Qed.

(** X1. Whatever the command, the clock, the identifiers and the faults, a
    stored booking is still stored afterwards, and either its row is the
    same or only its status and the columns that go with it have changed,
    the status along PENDING to CONFIRMED or CANCELLED, RESERVED to
    CONFIRMED or CANCELLED, or CONFIRMED to CANCELLED. The columns given
    at the creation (owner, route, schedule, seat, passenger, price,
    currency, createdAt) never change, and no booking is deleted. *)
Theorem command_moves_status_legally env c correlationId w id b :
  bookings (writeDb w) !! id = Some b →
  ∃ b', bookings (writeDb (run env c correlationId w).2) !! id = Some b'
        ∧ same_booking b b'
        ∧ (Bookings.status b' = Bookings.status b
           ∨ transition (Bookings.status b) (Bookings.status b')).
Proof.
  intros Hb. destruct (run_booking_step env c correlationId w id b Hb)
    as (b' & Hb' & [->|[Hsame Ht]]).
  - exists b. split; [done|]. split; [apply same_booking_refl|by left].
  - exists b'. split; [done|]. split; [done|by right].
Qed.

Lemma command_moves_status_legally_witness :
  ∃ b', bookings (writeDb (run (at_time 2000 ["E2"; "K2"]) (Confirm (confirm_B "B1"))
                             None world_booked).2) !! "B1" = Some b'
        ∧ same_booking (booked_row (at_time 1000 ["B1"; "E1"; "K1"]) book_A1) b'
        ∧ (Bookings.status b' = PENDING ∨ transition PENDING (Bookings.status b')).
Proof.
  apply (command_moves_status_legally (at_time 2000 ["E2"; "K2"]) (Confirm (confirm_B "B1"))
           None world_booked "B1" (booked_row (at_time 1000 ["B1"; "E1"; "K1"]) book_A1)).
  vm_compute. reflexivity.
Defined.

Lemma task_step_booking_step t sv sv' id b :
  task_step t sv sv' →
  bookings (writeDb (write_side sv)) !! id = Some b →
  ∃ b', bookings (writeDb (write_side sv')) !! id = Some b' ∧ booking_step b b'.
Proof.
  intros Hstep Hb. destruct Hstep as [sv|now m sv Hm|env c correlationId sv]; cbn.
  - exists b. split; [done|by left].
  - exists b. split; [done|by left].
  - by apply run_booking_step.
Qed.

Lemma terminal_no_transition st st' : terminal st → ¬ transition st st'.
Proof. intros [->|[->| ->]] Ht; inversion Ht. Qed.

(** X2. A booking that is CANCELLED (or EXPIRED, or REFUNDED) stays as it
    is: whatever the tasks of the server do afterwards, its row is the
    same row, status and all. *)
Theorem terminal_booking_is_frozen sv0 sv id b :
  bookings (writeDb (write_side sv0)) !! id = Some b →
  Bookings.status b = CANCELLED ∨ Bookings.status b = EXPIRED
  ∨ Bookings.status b = REFUNDED →
  reachable sv0 sv →
  bookings (writeDb (write_side sv)) !! id = Some b.
Proof.
  intros Hb Ht Hr. induction Hr as [|t sv sv' _ _ IH Hstep]; [done|].
  destruct (task_step_booking_step t sv sv' id b Hstep IH) as (b' & Hb' & [->|[_ Htr]]);
    [done|].
  by apply (terminal_no_transition (Bookings.status b)) in Htr.
Qed.

Lemma terminal_booking_is_frozen_witness :
  bookings (writeDb (run (at_time 4000 ["E5"; "K5"]) (Confirm (confirm_B "B1")) None
                       world_cancelled).2) !! "B1"
  = Some (Bookings.set_cancelled 3000
            (Bookings.set_confirmed "P9" 2000
               (booked_row (at_time 1000 ["B1"; "E1"; "K1"]) book_A1))).
Proof.
  apply (terminal_booking_is_frozen
           {| write_side := world_cancelled; read_side := empty_read_store |}
           {| write_side := (run (at_time 4000 ["E5"; "K5"]) (Confirm (confirm_B "B1")) None
                               world_cancelled).2;
              read_side := empty_read_store |}
           "B1").
  - vm_compute. reflexivity.
  - left. reflexivity.
  - apply (reachable_step _ HttpListener
             {| write_side := world_cancelled; read_side := empty_read_store |}).
    + unfold startServer. set_solver.
    + apply reachable_refl.
    + apply (step_HttpListener (at_time 4000 ["E5"; "K5"]) (Confirm (confirm_B "B1")) None
               {| write_side := world_cancelled; read_side := empty_read_store |}).
Defined.

(** ** What the tasks keep of the write database *)

(** A property of the write database that every command keeps is kept by
    the tasks of the server. *)
Lemma reachable_store_inv (P : WriteStore → Prop) :
  (∀ env c correlationId w, P (writeDb w) → P (writeDb (run env c correlationId w).2)) →
  ∀ sv0 sv, reachable sv0 sv →
            P (writeDb (write_side sv0)) → P (writeDb (write_side sv)).
Proof.
  intros Hrun sv0 sv Hr H0. induction Hr as [|t sv sv' _ _ IH Hstep]; [done|].
  destruct Hstep as [sv|now m sv Hm|env c correlationId sv]; cbn; [done|done|].
  by apply Hrun.
Qed.

Lemma run_seat_dom env c correlationId w :
  dom (seat_availability (writeDb (run env c correlationId w).2))
  = dom (seat_availability (writeDb w)).
Proof.
  destruct (run_store env c correlationId w)
    as [->|[(command & r & _ & H)|[(command & r & _ & H)|[(command & r & _ & H)
         |(command & r & _ & H)]]]]; [done|..].
  - destruct H as (_ & _ & _ & _ & ->). cbn.
    destruct (or_null _); [apply dom_alter_L|done].
  - destruct H as (_ & _ & _ & _ & ->). cbn.
    destruct (or_null _); [apply dom_alter_L|done].
  - destruct H as (b & _ & _ & _ & _ & _ & ->). cbn.
    destruct (or_null _); [apply dom_alter_L|done].
  - destruct H as (b & _ & _ & _ & _ & _ & ->). cbn.
    destruct (or_null _); [apply dom_alter_L|done].
Qed.

(** X3. The commands never create and never delete a seat row: whatever
    the tasks of the server do, the seats of [seat_availability] are the
    seats it had. *)
Theorem seat_rows_are_never_created sv0 sv :
  reachable sv0 sv →
  dom (seat_availability (writeDb (write_side sv)))
  = dom (seat_availability (writeDb (write_side sv0))).
Proof.
  intros Hr.
  apply (reachable_store_inv
           (λ s, dom (seat_availability s) = dom (seat_availability (writeDb (write_side sv0))))
        ) with sv0; [|exact Hr|done].
  intros env c correlationId w <-. apply run_seat_dom.
Qed.

Lemma seat_rows_are_never_created_witness :
  dom (seat_availability (writeDb (run (at_time 1000 ["B1"; "E1"; "K1"]) (Book book_A1) None
                                     world0).2))
  = dom (seat_availability (writeDb world0)).
Proof.
  apply (seat_rows_are_never_created
           {| write_side := world0; read_side := empty_read_store |}
           {| write_side := (run (at_time 1000 ["B1"; "E1"; "K1"]) (Book book_A1) None
                               world0).2;
              read_side := empty_read_store |}).
  apply (reachable_step _ HttpListener
           {| write_side := world0; read_side := empty_read_store |}).
  - unfold startServer. set_solver.
  - apply reachable_refl.
  - apply (step_HttpListener (at_time 1000 ["B1"; "E1"; "K1"]) (Book book_A1) None
             {| write_side := world0; read_side := empty_read_store |}).
Defined.

Lemma seats_shaped_alter (f : SeatAvailability.row → SeatAvailability.row) (k : string * string)
    (m : gmap (string * string) SeatAvailability.row) :
  (∀ r, m !! k = Some r → seat_shape r → seat_shape (f r)) →
  (∀ k r, m !! k = Some r → seat_shape r) →
  ∀ k' r, alter f k m !! k' = Some r → seat_shape r.
Proof.
  intros Hf Hm k' r. rewrite lookup_alter. case_decide as Hk.
  - subst k'. destruct (m !! k) as [r0|] eqn:Hr0; [|done]. intros [= <-].
    apply Hf; [done|]. by apply (Hm k).
  - apply Hm.
Qed.

Lemma run_seats_shaped env c correlationId w :
  seats_shaped (writeDb w) → seats_shaped (writeDb (run env c correlationId w).2).
Proof.
  intros Hw.
  destruct (run_store env c correlationId w)
    as [->|[(command & r & _ & H)|[(command & r & _ & H)|[(command & r & _ & H)
         |(command & r & _ & H)]]]]; [done|..]; unfold seats_shaped.
  - destruct H as (Hseat & _ & _ & _ & ->). cbn.
    destruct (or_null _) as [seatNumber|]; [|done].
    destruct (Hseat seatNumber eq_refl) as (r0 & Hr0 & Hst).
    apply seats_shaped_alter; [|done].
    intros r1 Hr1 Hshape. rewrite Hr0 in Hr1. injection Hr1 as <-.
    unfold seat_shape in *. rewrite Hst in Hshape. cbn. tauto.
  - destruct H as (_ & _ & _ & _ & ->). cbn.
    destruct (or_null _) as [seatNumber|]; [|done].
    apply seats_shaped_alter; [|done].
    intros r1 _ _. unfold seat_shape. cbn. split; eauto.
  - destruct H as (b & _ & _ & _ & _ & _ & ->). cbn.
    destruct (or_null _) as [seatNumber|]; [|done].
    apply seats_shaped_alter; [|done].
    intros r1 _ _. by unfold seat_shape.
  - destruct H as (b & _ & _ & _ & _ & _ & ->). cbn.
    destruct (or_null _) as [seatNumber|]; [|done].
    apply seats_shaped_alter; [|done].
    intros r1 _ _. by unfold seat_shape.
Qed.

(** X4. The shape of the seat rows is kept by every task of the server: if
    at the start every AVAILABLE seat has neither a booking nor a lock,
    every LOCKED seat has both and every BOOKED seat has no lock, this is
    so in every state the service reaches. *)
Theorem seat_rows_keep_their_shape sv0 sv :
  seats_shaped (writeDb (write_side sv0)) →
  reachable sv0 sv →
  seats_shaped (writeDb (write_side sv)).
Proof.
  intros H0 Hr. apply (reachable_store_inv seats_shaped) with sv0; [|done|done].
  intros env c correlationId w. apply run_seats_shaped.
Qed.

Lemma world0_seats_shaped : seats_shaped (writeDb world0).
Proof.
  intros k r. unfold world0. cbn [writeDb seat_availability]. intros H.
  apply lookup_insert_Some in H as [[_ <-]|[_ H]]; [by unfold seat_shape|].
  apply lookup_singleton_Some in H as [_ <-]. by unfold seat_shape.
Qed.

Lemma seat_rows_keep_their_shape_witness :
  seats_shaped (writeDb (run (at_time 0 ["B2"; "E4"; "K4"]) (Reserve (reserve_A2 (Some 5)))
                           None world0).2).
Proof.
  apply (seat_rows_keep_their_shape
           {| write_side := world0; read_side := empty_read_store |}
           {| write_side := (run (at_time 0 ["B2"; "E4"; "K4"]) (Reserve (reserve_A2 (Some 5)))
                               None world0).2;
              read_side := empty_read_store |}).
  - exact world0_seats_shaped.
  - apply (reachable_step _ HttpListener
             {| write_side := world0; read_side := empty_read_store |}).
    + unfold startServer. set_solver.
    + apply reachable_refl.
    + apply (step_HttpListener (at_time 0 ["B2"; "E4"; "K4"]) (Reserve (reserve_A2 (Some 5)))
               None {| write_side := world0; read_side := empty_read_store |}).
Defined.

Lemma run_keyed env c correlationId w :
  keyed (writeDb w) → keyed (writeDb (run env c correlationId w).2).
Proof.
  intros Hw.
  destruct (run_store env c correlationId w)
    as [->|[(command & r & _ & H)|[(command & r & _ & H)|[(command & r & _ & H)
         |(command & r & _ & H)]]]]; [done|..]; intros id b0.
  - destruct H as (_ & _ & _ & _ & ->). cbn.
    intros [[<- <-]|[_ H]]%lookup_insert_Some; [done|by apply Hw].
  - destruct H as (_ & _ & _ & _ & ->). cbn.
    intros [[<- <-]|[_ H]]%lookup_insert_Some; [done|by apply Hw].
  - destruct H as (b & _ & _ & _ & _ & _ & ->). cbn.
    rewrite lookup_alter_Some.
    intros [(_ & b1 & Hb1 & ->)|[_ H]]; [by apply Hw in Hb1|by apply Hw].
  - destruct H as (b & _ & _ & _ & _ & _ & ->). cbn.
    rewrite lookup_alter_Some.
    intros [(_ & b1 & Hb1 & ->)|[_ H]]; [by apply Hw in Hb1|by apply Hw].
Qed.

Lemma run_events_owned env c correlationId w :
  events_owned (writeDb w) → events_owned (writeDb (run env c correlationId w).2).
Proof.
  intros Hw.
  destruct (run_store env c correlationId w)
    as [->|[(command & r & _ & H)|[(command & r & _ & H)|[(command & r & _ & H)
         |(command & r & _ & H)]]]]; [done|..]; unfold events_owned in *.
  - destruct H as (_ & _ & _ & _ & ->). cbn. apply Forall_app. split.
    + eapply Forall_impl; [exact Hw|]. cbn. intros e He.
      rewrite lookup_insert_is_Some. destruct (decide (uuidv4 env 0 = BookingEvents.aggregate_id e)); eauto.
    + apply Forall_singleton. cbn. rewrite lookup_insert_eq. eauto.
  - destruct H as (_ & _ & _ & _ & ->). cbn. apply Forall_app. split.
    + eapply Forall_impl; [exact Hw|]. cbn. intros e He.
      rewrite lookup_insert_is_Some. destruct (decide (uuidv4 env 0 = BookingEvents.aggregate_id e)); eauto.
    + apply Forall_singleton. cbn. rewrite lookup_insert_eq. eauto.
  - destruct H as (b & Hb & _ & _ & _ & _ & ->). cbn. apply Forall_app. split.
    + eapply Forall_impl; [exact Hw|]. cbn. intros e He. by rewrite lookup_alter_is_Some.
    + apply Forall_singleton. cbn. rewrite lookup_alter_is_Some, Hb. eauto.
  - destruct H as (b & Hb & _ & _ & _ & _ & ->). cbn. apply Forall_app. split.
    + eapply Forall_impl; [exact Hw|]. cbn. intros e He. by rewrite lookup_alter_is_Some.
    + apply Forall_singleton. cbn. rewrite lookup_alter_is_Some, Hb. eauto.
Qed.

(** X5. The event store has no orphan: if at the start every row of
    [booking_events] has the id of a stored booking as its aggregate id,
    this is so in every state the service reaches. *)
Theorem events_belong_to_bookings sv0 sv :
  events_owned (writeDb (write_side sv0)) →
  reachable sv0 sv →
  events_owned (writeDb (write_side sv)).
Proof.
  intros H0 Hr. apply (reachable_store_inv events_owned) with sv0; [|done|done].
  intros env c correlationId w. apply run_events_owned.
Qed.

Lemma events_belong_to_bookings_witness :
  events_owned (writeDb (run (at_time 1000 ["B1"; "E1"; "K1"]) (Book book_A1) None
                           world0).2).
Proof.
  apply (events_belong_to_bookings
           {| write_side := world0; read_side := empty_read_store |}
           {| write_side := (run (at_time 1000 ["B1"; "E1"; "K1"]) (Book book_A1) None
                               world0).2;
              read_side := empty_read_store |}).
  - apply Forall_nil_2.
  - apply (reachable_step _ HttpListener
             {| write_side := world0; read_side := empty_read_store |}).
    + unfold startServer. set_solver.
    + apply reachable_refl.
    + apply (step_HttpListener (at_time 1000 ["B1"; "E1"; "K1"]) (Book book_A1) None
               {| write_side := world0; read_side := empty_read_store |}).
Defined.

(** ** Book *)

Lemma available_spec o :
  available o ↔ ∃ r, o = Some r ∧ is_available r = true.
Proof.
  unfold available, is_available. split; intros (r & -> & H); exists r; split; try done.
  - by apply bool_decide_eq_true_2.
  - by apply bool_decide_eq_true_1 in H.
Qed.



Lemma book_success env command correlationId w :
  validateBookTicketCommand command = Ok () →
  dbFault env = None →
  fresh_booking_id env 0 (writeDb w) →
  fresh_event_id env 1 (writeDb w) →
  (∀ seatNumber,
     or_null (BookTicketCommand.seatNumber command) = Some seatNumber →
     available (seat_availability (writeDb w)
                  !! (BookTicketCommand.scheduleId command, seatNumber))) →
  Bookings.accepts (pgUuid env) (book_values env command) = Ok () →
  BookingEvents.accepts (pgUuid env) (TicketBookedRow env command correlationId)
  = Ok () →
  bookTicketHandler env command correlationId w
  = (Ok (mapRowToBooking (booked_row env command)),
     {| writeDb := booked_store env command correlationId (writeDb w);
        ticket_events :=
          try_publish (publishTicketBooked env 2 (mapRowToBooking (booked_row env command))
                         correlationId (ticket_events w)) |}).
Proof.
  intros Hv Hf Hfb Hfe Hseat Hrow Hevent. unfold bookTicketHandler. rewrite Hv, Hf.
  apply (wp_transaction _ _ (λ x, match x with
                                  | (Err e, s) => (Err e, _)
                                  | (Ok booking, s) => _
                                  end = _)).
  unfold bookTicket_callback, booked_store. cbv zeta.
  unfold fresh_booking_id in Hfb. unfold TicketBookedRow in Hevent.
  unfold booked_row. unfold book_values in *.
  destruct (or_null (BookTicketCommand.seatNumber command)) as [seatNumber|] eqn:Hs.
  - specialize (Hseat seatNumber eq_refl).
    apply available_spec in Hseat as (r & Hr & Ha).
    apply wp_bind, wp_bind, wp_query. run_stmt. rewrite Hr, Ha.
    apply wp_ret, wp_bind, wp_query.
    run_stmt. rewrite Hrow. cbn [Bookings.id Bookings.stored]. rewrite Hfb. cbn [fst snd].
    apply wp_bind, wp_query. run_stmt.
    apply wp_bind. run_insert_event env 1%nat.
    by apply wp_ret.
  - apply wp_bind, wp_ret, wp_bind, wp_query.
    run_stmt. rewrite Hrow. cbn [Bookings.id Bookings.stored]. rewrite Hfb. cbn [fst snd].
    apply wp_bind, wp_ret.
    apply wp_bind. run_insert_event env 1%nat.
    by apply wp_ret.
Qed.



(** X7. A Book without a seat (none given, or the empty string) that
    passes the handler's validation, meets no failure of the connection
    and gives values that the columns take (identifiers and correlation
    identifier, if there is one, that are UUIDs, a price below 10^8, texts
    within the widths of their columns) returns, whatever the bookings of
    the schedule: there is no check of its capacity. The booking is stored
    PENDING with no seat, one TICKET_BOOKED row of version 1 is appended,
    and the seat table is left as it was. *)
Theorem book_without_seat env command correlationId w :
  validateBookTicketCommand command = Ok () →
  dbFault env = None →
  fresh_booking_id env 0 (writeDb w) →
  fresh_event_id env 1 (writeDb w) →
  or_null (BookTicketCommand.seatNumber command) = None →
  Bookings.accepts (pgUuid env) (book_values env command) = Ok () →
  BookingEvents.accepts (pgUuid env) (TicketBookedRow env command correlationId)
  = Ok () →
  let out := bookTicketHandler env command correlationId w in
  ∃ booking,
    out.1 = Ok booking
    ∧ Booking.status booking = PENDING
    ∧ Booking.seatNumber booking = None
    ∧ mapRowToBooking <$> bookings (writeDb out.2) !! Booking.id booking = Some booking
    ∧ seat_availability (writeDb out.2) = seat_availability (writeDb w)
    ∧ booking_events (writeDb out.2)
      = booking_events (writeDb w) ++ [TicketBookedRow env command correlationId].
Proof.
  intros Hv Hf Hfb Hfe Hseat Hrow Hevent. cbv zeta.
  rewrite book_success; try done; [|intros seatNumber; by rewrite Hseat].
  exists (mapRowToBooking (booked_row env command)).
  unfold booked_store. cbn [fst snd writeDb bookings seat_availability booking_events].
  rewrite Hseat. cbn. rewrite lookup_insert_eq, Hseat. by repeat split.
Qed.

(** ** The commit and the publication *)

Lemma callbacks_with_bus up env :
  (∀ command correlationId,
     bookTicket_callback (with_bus up env) command correlationId
     = bookTicket_callback env command correlationId)
  ∧ (∀ command correlationId,
       reserveTicket_callback (with_bus up env) command correlationId
       = reserveTicket_callback env command correlationId)
  ∧ (∀ command correlationId,
       confirmTicket_callback (with_bus up env) command correlationId
       = confirmTicket_callback env command correlationId)
  ∧ (∀ command correlationId,
       cancelTicket_callback (with_bus up env) command correlationId
       = cancelTicket_callback env command correlationId).
Proof. by repeat split. Qed.

Lemma try_publish_down env event topic :
  try_publish (publishEvent (with_bus false env) event topic) = topic.
Proof. done. Qed.

(** X8. The commit does not wait for the publication: with the producer
    down, a command returns what it returns with the producer up and
    leaves the same write database, and the topic gets no message. A
    booking, confirmation or cancellation made while the producer is down
    is committed and never announced. *)
Theorem publish_failure_keeps_the_commit env c correlationId w :
  let down := run (with_bus false env) c correlationId w in
  let up := run (with_bus true env) c correlationId w in
  down.1 = up.1
  ∧ writeDb down.2 = writeDb up.2
  ∧ ticket_events down.2 = ticket_events w.
Proof.
  cbv zeta.
  destruct (callbacks_with_bus false env) as (Hb1 & Hr1 & Hc1 & Hx1).
  destruct (callbacks_with_bus true env) as (Hb2 & Hr2 & Hc2 & Hx2).
  destruct c as [command|command|command|command]; cbn.
  - unfold bookTicketHandler. rewrite Hb1, Hb2. cbn [dbFault with_bus].
    destruct (validateBookTicketCommand command); [|done].
    by destruct (transaction _ _ _) as [[r|e] s].
  - unfold reserveTicketHandler. rewrite Hr1, Hr2. cbn [dbFault with_bus].
    destruct (validateReserveTicketCommand command); [|done].
    by destruct (transaction _ _ _) as [[r|e] s].
  - unfold confirmTicketHandler. rewrite Hc1, Hc2. cbn [dbFault with_bus].
    destruct (validateConfirmTicketCommand command); [|done].
    by destruct (transaction _ _ _) as [[r|e] s].
  - unfold cancelTicketHandler. rewrite Hx1, Hx2. cbn [dbFault with_bus].
    destruct (validateCancelTicketCommand command); [|done].
    by destruct (transaction _ _ _) as [[r|e] s].
Qed.

Lemma try_publish_message env event topic :
  try_publish (publishEvent env event topic)
  = if busUp env then topic ++ [message_of event] else topic.
Proof. unfold try_publish, publishEvent. by destruct (busUp env). Qed.

(** X9. A command that returns has appended exactly one row to the event
    store, the event of a stored booking, and (the producer up) exactly
    one message to the topic: the message has the booking id as its key
    and the type of the stored row, its envelope has version 1 whatever
    the version of the row, and its eventId comes from another call of
    uuidv4 than the event_id of the row. With the producer down the topic
    is as it was. *)
Theorem returned_command_records_one_event env c correlationId w w' :
  keyed (writeDb w) →
  run env c correlationId w = (Ok (), w') →
  ∃ e m n n',
    booking_events (writeDb w') = booking_events (writeDb w) ++ [e]
    ∧ is_Some (bookings (writeDb w') !! BookingEvents.aggregate_id e)
    ∧ ticket_events w' = (if busUp env then ticket_events w ++ [m] else ticket_events w)
    ∧ Message.key m = BookingEvents.aggregate_id e
    ∧ Message.eventType m = BookingEvents.event_type e
    ∧ DomainEvent.version (Message.value m) = 1
    ∧ BookingEvents.event_id e = uuidv4 env n
    ∧ DomainEvent.eventId (Message.value m) = uuidv4 env n'
    ∧ n ≠ n'.
Proof.
  intros Hkeyed. destruct c as [command|command|command|command]; cbn.
  - destruct (bookTicketHandler env command correlationId w) as [[r|?] w0] eqn:H;
      intros [= <-]. apply bookTicketHandler_done in H as (_ & H & Hm).
    destruct H as (_ & _ & _ & -> & Hs).
    exists (TicketBookedRow env command correlationId),
           (message_of (TicketBookedEvent env 2 (mapRowToBooking (booked_row env command))
                          correlationId)), 1%nat, 2%nat.
    rewrite Hm, Hs. unfold publishTicketBooked. rewrite try_publish_message.
    cbn. rewrite lookup_insert_eq. repeat split; eauto.
  - destruct (reserveTicketHandler env command correlationId w) as [[r|?] w0] eqn:H;
      intros [= <-]. apply reserveTicketHandler_done in H as (_ & H & Hm).
    destruct H as (_ & _ & _ & -> & Hs).
    exists (TicketReservedRow env command correlationId),
           (message_of (TicketReservedEvent env 2 (mapRowToBooking (reserved_row env command))
                          (now env + reservationDuration command * 60 * 1000)
                          correlationId)), 1%nat, 2%nat.
    rewrite Hm, Hs. unfold publishTicketReserved. rewrite try_publish_message.
    cbn. rewrite lookup_insert_eq. repeat split; eauto.
  - destruct (confirmTicketHandler env command correlationId w) as [[r|?] w0] eqn:H;
      intros [= <-]. apply confirmTicketHandler_done in H as (_ & H & Hm).
    destruct H as (b & Hb & _ & _ & _ & -> & Hs).
    exists (TicketConfirmedRow env command correlationId),
           (message_of (TicketConfirmedEvent env 1 (Bookings.id b) (Bookings.user_id b)
                          (ConfirmTicketCommand.paymentId command) correlationId)),
           0%nat, 1%nat.
    rewrite Hm, Hs. unfold publishTicketConfirmed. rewrite try_publish_message.
    cbn. rewrite lookup_alter_eq, Hb, (Hkeyed _ _ Hb). repeat split; eauto.
  - destruct (cancelTicketHandler env command correlationId w) as [[r|?] w0] eqn:H;
      intros [= <-]. apply cancelTicketHandler_done in H as (_ & H & Hm).
    destruct H as (b & Hb & _ & _ & _ & -> & Hs).
    exists (TicketCancelledRow env command correlationId b),
           (message_of (TicketCancelledEvent env 1 (Bookings.id b) (Bookings.user_id b)
                          (CancelTicketCommand.reason command)
                          (or_undefined (refund_of b)) correlationId)),
           0%nat, 1%nat.
    rewrite Hm, Hs. unfold publishTicketCancelled. rewrite try_publish_message.
    cbn. rewrite lookup_alter_eq, Hb, (Hkeyed _ _ Hb). repeat split; eauto.
Qed.

Lemma returned_command_records_one_event_witness :
  ∃ e m n n',
    booking_events (writeDb world_booked) = booking_events (writeDb world0) ++ [e]
    ∧ is_Some (bookings (writeDb world_booked) !! BookingEvents.aggregate_id e)
    ∧ ticket_events world_booked
      = (if busUp (at_time 1000 ["B1"; "E1"; "K1"]) then ticket_events world0 ++ [m]
         else ticket_events world0)
    ∧ Message.key m = BookingEvents.aggregate_id e
    ∧ Message.eventType m = BookingEvents.event_type e
    ∧ DomainEvent.version (Message.value m) = 1
    ∧ BookingEvents.event_id e = uuidv4 (at_time 1000 ["B1"; "E1"; "K1"]) n
    ∧ DomainEvent.eventId (Message.value m) = uuidv4 (at_time 1000 ["B1"; "E1"; "K1"]) n'
    ∧ n ≠ n'.
Proof.
  apply (returned_command_records_one_event (at_time 1000 ["B1"; "E1"; "K1"])
           (Book book_A1) None world0 world_booked).
  - intros id b. unfold world0. cbn. by rewrite lookup_empty.
  - vm_compute. reflexivity.
Defined.

(** ** Reserve, then Confirm *)

Lemma or_null_Some o s : or_null o = Some s → or_null (Some s) = Some s.
Proof.
  unfold or_null. destruct (truthy_opt o) eqn:Ht; [|done]. intros ->. by rewrite Ht.
Qed.

Lemma varchar_fits n v : (char_length v ≤ n)%nat → varchar n v = v.
Proof. intros H. unfold varchar. by rewrite (proj2 (Nat.leb_le _ _) H). Qed.

(** X10. A reservation of a seat can be confirmed up to and at its
    expiresAt, and not after. Reserve (validation passed, seat acquirable,
    no failure of the connection, values that the columns take: UUIDs as
    identifiers and as correlation identifier, if there is one, a price
    below 10^8, texts within the widths) followed by a Confirm of the new
    booking at now2, with a payment identifier and a correlation
    identifier, if there is one, that are UUIDs: when now2 <= expiresAt
    the booking comes back CONFIRMED with the payment identifier,
    confirmedAt = now2, reservedAt kept and no expiresAt, and the seat row
    is BOOKED by it with no lock; when expiresAt < now2 the Confirm fails
    with "Reservation has expired" and changes nothing: the booking stays
    RESERVED and the seat LOCKED. *)
Theorem reservation_confirms_until_expiry env1 env2 command paymentId
    correlationId1 correlationId2 w seatNumber :
  validateReserveTicketCommand command = Ok () →
  dbFault env1 = None →
  fresh_booking_id env1 0 (writeDb w) →
  fresh_event_id env1 1 (writeDb w) →
  or_null (ReserveTicketCommand.seatNumber command) = Some seatNumber →
  acquirable (now env1)
    (seat_availability (writeDb w)
       !! (ReserveTicketCommand.scheduleId command, seatNumber)) →
  (char_length seatNumber ≤ 10)%nat →
  Bookings.accepts (pgUuid env1) (reserve_values env1 command) = Ok () →
  BookingEvents.accepts (pgUuid env1) (TicketReservedRow env1 command correlationId1)
  = Ok () →
  let bookingId := uuidv4 env1 0 in
  let confirm := {| ConfirmTicketCommand.bookingId := bookingId;
                    ConfirmTicketCommand.paymentId := paymentId |} in
  let w1 := (reserveTicketHandler env1 command correlationId1 w).2 in
  validateConfirmTicketCommand confirm = Ok () →
  dbFault env2 = None →
  fresh_event_id env2 0 (writeDb w1) →
  pgUuid env2 paymentId = true →
  BookingEvents.accepts (pgUuid env2) (TicketConfirmedRow env2 confirm correlationId2)
  = Ok () →
  let expiresAt := now env1 + reservationDuration command * 60 * 1000 in
  let seat := (ReserveTicketCommand.scheduleId command, seatNumber) in
  let out := confirmTicketHandler env2 confirm correlationId2 w1 in
  (now env2 ≤ expiresAt →
     ∃ booking r',
       out.1 = Ok booking
       ∧ Booking.id booking = bookingId
       ∧ Booking.status booking = CONFIRMED
       ∧ Booking.paymentId booking = Some paymentId
       ∧ Booking.confirmedAt booking = Some (now env2)
       ∧ Booking.reservedAt booking = Some (now env1)
       ∧ Booking.expiresAt booking = None
       ∧ Booking.seatNumber booking = Some seatNumber
       ∧ mapRowToBooking <$> bookings (writeDb out.2) !! bookingId = Some booking
       ∧ seat_availability (writeDb out.2) !! seat = Some r'
       ∧ SeatAvailability.status r' = BOOKED
       ∧ SeatAvailability.booking_id r' = Some bookingId
       ∧ SeatAvailability.locked_until r' = None)
  ∧ (expiresAt < now env2 →
       out = (Err (InvalidBookingStateError RESERVED "Reservation has expired"), w1)
       ∧ Bookings.status <$> bookings (writeDb out.2) !! bookingId = Some RESERVED
       ∧ SeatAvailability.status <$> seat_availability (writeDb out.2) !! seat
         = Some LOCKED).
Proof.
  intros Hv Hf Hfb Hfe Hseat Ha Hfit Hrow Hevent. cbv zeta.
  rewrite reserve_success; try done;
    [|intros seatNumber' Hs'; rewrite Hseat in Hs'; by injection Hs' as <-].
  cbn [snd writeDb]. intros Hv2 Hf2 Hfe2 Hpay Hevent2.
  assert (Bookings.seat_number (reserved_row env1 command) = Some seatNumber) as Hstored.
  { unfold reserved_row, reserve_values. cbn [Bookings.seat_number Bookings.stored].
    rewrite Hseat. cbn. by rewrite varchar_fits. }
  assert (bookings (reserved_store env1 command correlationId1 (writeDb w)) !! uuidv4 env1 0
          = Some (reserved_row env1 command)) as Hb.
  { unfold reserved_store. cbn [bookings]. by rewrite lookup_insert_eq. }
  destruct Ha as (r & Hr & _).
  assert (seat_availability (reserved_store env1 command correlationId1 (writeDb w))
            !! (ReserveTicketCommand.scheduleId command, seatNumber)
          = Some (SeatAvailability.set_locked (uuidv4 env1 0)
                    (now env1 + reservationDuration command * 60 * 1000) (now env1) r))
    as Hr1.
  { unfold reserved_store. cbn [seat_availability]. by rewrite Hseat, lookup_alter_eq, Hr. }
  pose proof (or_null_Some _ _ Hseat) as Hseat2.
  split.
  - intros Hle.
    rewrite (confirm_success _ _ _ _ (reserved_row env1 command)); try done;
      [|by left|unfold has_expired; cbn; by apply Z.ltb_ge].
    cbn [fst snd writeDb]. eexists. eexists. split; [done|].
    unfold confirmed_store. cbn [bookings seat_availability].
    rewrite Hstored, Hseat2.
    cbn [Bookings.schedule_id reserved_row reserve_values Bookings.stored
         ConfirmTicketCommand.bookingId ConfirmTicketCommand.paymentId].
    rewrite !lookup_alter_eq, Hb, Hr1.
    cbn [mapRowToBooking Booking.seatNumber Bookings.set_confirmed Bookings.seat_number
         fmap option_fmap option_map].
    rewrite Hstored. by repeat split.
  - intros Hlt.
    rewrite (confirm_expired _ _ _ _ (reserved_row env1 command)); try done;
      [|by left|unfold has_expired; cbn; by apply Z.ltb_lt].
    cbn [fst snd writeDb Bookings.status reserved_row reserve_values Bookings.stored].
    split; [done|]. by rewrite Hb, Hr1.
Qed.

Lemma reservation_confirms_until_expiry_witness :
  let out := confirmTicketHandler (at_time 300000 ["E6"; "K6"]) (confirm_B "B2") None
               world_reserved in
  (300000 ≤ 0 + 5 * 60 * 1000 →
     ∃ booking r',
       out.1 = Ok booking
       ∧ Booking.id booking = "B2"
       ∧ Booking.status booking = CONFIRMED
       ∧ Booking.paymentId booking = Some "P9"
       ∧ Booking.confirmedAt booking = Some 300000
       ∧ Booking.reservedAt booking = Some 0
       ∧ Booking.expiresAt booking = None
       ∧ Booking.seatNumber booking = Some "A2"
       ∧ mapRowToBooking <$> bookings (writeDb out.2) !! "B2" = Some booking
       ∧ seat_availability (writeDb out.2) !! ("S1", "A2") = Some r'
       ∧ SeatAvailability.status r' = BOOKED
       ∧ SeatAvailability.booking_id r' = Some "B2"
       ∧ SeatAvailability.locked_until r' = None)
  ∧ (0 + 5 * 60 * 1000 < 300000 →
       out = (Err (InvalidBookingStateError RESERVED "Reservation has expired"),
              world_reserved)
       ∧ Bookings.status <$> bookings (writeDb out.2) !! "B2" = Some RESERVED
       ∧ SeatAvailability.status <$> seat_availability (writeDb out.2) !! ("S1", "A2")
         = Some LOCKED).
Proof.
  apply (reservation_confirms_until_expiry (at_time 0 ["B2"; "E4"; "K4"])
           (at_time 300000 ["E6"; "K6"]) (reserve_A2 (Some 5)) "P9" None None world0 "A2").
  - reflexivity.
  - reflexivity.
  - vm_compute. reflexivity.
  - vm_compute. constructor.
  - reflexivity.
  - exists free_seat. split; [vm_compute; reflexivity|by left].
  - vm_compute. lia.
  - reflexivity.
  - reflexivity.
  - reflexivity.
  - reflexivity.
  - vm_compute. repeat constructor. intros [=].
  - reflexivity.
  - reflexivity.
Defined.

(** ** Cancel *)






(** X12. A Cancel frees the seat of its booking without looking at who
    holds the seat. If the seat row names another booking (a reservation
    whose lock had run out was never expired, and a later Reserve took the
    seat), the Cancel of the first booking (by a caller who passes the
    ownership test, without failure of the connection, with values that the
    columns of the event store take: a correlation identifier, if there is
    one, that is a UUID) returns, the seat row becomes AVAILABLE with no
    bookingId, and the other booking is left as it was, still naming the
    seat. *)
Theorem cancel_frees_a_seat_held_by_another env command correlationId w b seat_number r
    otherId other :
  validateCancelTicketCommand command = Ok () →
  dbFault env = None →
  fresh_event_id env 0 (writeDb w) →
  bookings (writeDb w) !! CancelTicketCommand.bookingId command = Some b →
  may_cancel command b →
  Bookings.status b ∈ cancellableStates →
  BookingEvents.accepts (pgUuid env) (TicketCancelledRow env command correlationId b)
  = Ok () →
  or_null (Bookings.seat_number b) = Some seat_number →
  seat_availability (writeDb w) !! (Bookings.schedule_id b, seat_number) = Some r →
  SeatAvailability.booking_id r = Some otherId →
  otherId ≠ CancelTicketCommand.bookingId command →
  bookings (writeDb w) !! otherId = Some other →
  let out := cancelTicketHandler env command correlationId w in
  is_ok out.1 = true
  ∧ bookings (writeDb out.2) !! otherId = Some other
  ∧ seat_availability (writeDb out.2) !! (Bookings.schedule_id b, seat_number)
    = Some {| SeatAvailability.booking_id := None;
              SeatAvailability.status := AVAILABLE;
              SeatAvailability.locked_until := None;
              SeatAvailability.updated_at := now env |}.
Proof.
  intros Hv Hf Hfe Hb Hm Hs Hacc Hseat Hr Hother Hne Ho. cbv zeta.
  rewrite (cancel_success _ _ _ _ b) by done. cbn [fst snd writeDb is_ok].
  unfold cancelled_store. cbn [bookings seat_availability].
  rewrite Hseat, lookup_alter_eq, Hr, lookup_alter_ne by done. by repeat split.
Qed.

Lemma cancel_frees_a_seat_held_by_another_witness :
  let out := cancelTicketHandler (at_time 500000 ["E8"; "K8"]) (cancel_B "B2" (Some "U1"))
               None world_retaken in
  is_ok out.1 = true
  ∧ bookings (writeDb out.2) !! "B3"
    = Some (reserved_row (at_time 400000 ["B3"; "E5"; "K5"]) reserve_A2_U2)
  ∧ seat_availability (writeDb out.2) !! ("S1", "A2")
    = Some {| SeatAvailability.booking_id := None;
              SeatAvailability.status := AVAILABLE;
              SeatAvailability.locked_until := None;
              SeatAvailability.updated_at := 500000 |}.
Proof.
  apply (cancel_frees_a_seat_held_by_another (at_time 500000 ["E8"; "K8"])
           (cancel_B "B2" (Some "U1")) None world_retaken
           (reserved_row (at_time 0 ["B2"; "E4"; "K4"]) (reserve_A2 (Some 5))) "A2"
           (SeatAvailability.set_locked "B3" 700000 400000
              (SeatAvailability.set_locked "B2" 300000 0 free_seat))
           "B3" (reserved_row (at_time 400000 ["B3"; "E5"; "K5"]) reserve_A2_U2)).
  - reflexivity.
  - reflexivity.
  - vm_compute. repeat constructor; intros [=].
  - vm_compute. reflexivity.
  - reflexivity.
  - unfold cancellableStates. cbn. set_solver.
  - vm_compute. reflexivity.
  - reflexivity.
  - vm_compute. reflexivity.
  - reflexivity.
  - intros [=].
  - vm_compute. reflexivity.
Defined.

Lemma book_without_seat_witness :
  let out := bookTicketHandler (at_time 1000 ["B4"; "E9"; "K9"]) book_no_seat None world0 in
  ∃ booking,
    out.1 = Ok booking
    ∧ Booking.status booking = PENDING
    ∧ Booking.seatNumber booking = None
    ∧ mapRowToBooking <$> bookings (writeDb out.2) !! Booking.id booking = Some booking
    ∧ seat_availability (writeDb out.2) = seat_availability (writeDb world0)
    ∧ booking_events (writeDb out.2)
      = booking_events (writeDb world0)
        ++ [TicketBookedRow (at_time 1000 ["B4"; "E9"; "K9"]) book_no_seat None].
Proof.
  apply (book_without_seat (at_time 1000 ["B4"; "E9"; "K9"]) book_no_seat None world0).
  - reflexivity.
  - reflexivity.
  - vm_compute. reflexivity.
  - vm_compute. constructor.
  - reflexivity.
  - reflexivity.
  - reflexivity.
Defined.

(** ** The projector and the commands *)

Lemma booked_on_new_row env n booking correlationId t s :
  user_tickets_view s !! Booking.id booking = None →
  (processMessage t
     (deliver (message_of (TicketBookedEvent env n booking correlationId))) s).1 = Ok ()
  ∧ user_tickets_view
      (eachMessage t (deliver (message_of (TicketBookedEvent env n booking correlationId))) s)
    = <[Booking.id booking :=
          {| UserTicketsView.id := Booking.id booking;
             UserTicketsView.user_id := Booking.userId booking;
             UserTicketsView.route_id := Booking.routeId booking;
             UserTicketsView.route_name := None;
             UserTicketsView.schedule_id := Booking.scheduleId booking;
             UserTicketsView.departure_time := None;
             UserTicketsView.arrival_time := None;
             UserTicketsView.origin_stop := None;
             UserTicketsView.destination_stop := None;
             UserTicketsView.seat_number := Booking.seatNumber booking;
             UserTicketsView.passenger_name := Booking.passengerName booking;
             UserTicketsView.passenger_email := Booking.passengerEmail booking;
             UserTicketsView.price := Booking.price booking;
             UserTicketsView.currency := Some (Booking.currency booking);
             UserTicketsView.status := PENDING;
             UserTicketsView.created_at := now env;
             UserTicketsView.updated_at := t |}]> (user_tickets_view s).
Proof.
  intros Hnew. unfold eachMessage, processMessage. cbn.
  unfold handleTicketBooked, upsert_ticket, mbind, Proj_bind. cbn.
  rewrite Hnew. cbn. by destruct (Booking.seatNumber booking).
Qed.

Lemma reserved_on_new_row env n booking expiresAt correlationId t s :
  user_tickets_view s !! Booking.id booking = None →
  (processMessage t
     (deliver (message_of (TicketReservedEvent env n booking expiresAt correlationId))) s).1
  = Ok ()
  ∧ user_tickets_view
      (eachMessage t
         (deliver (message_of (TicketReservedEvent env n booking expiresAt correlationId))) s)
    = <[Booking.id booking :=
          {| UserTicketsView.id := Booking.id booking;
             UserTicketsView.user_id := Booking.userId booking;
             UserTicketsView.route_id := Booking.routeId booking;
             UserTicketsView.route_name := None;
             UserTicketsView.schedule_id := Booking.scheduleId booking;
             UserTicketsView.departure_time := None;
             UserTicketsView.arrival_time := None;
             UserTicketsView.origin_stop := None;
             UserTicketsView.destination_stop := None;
             UserTicketsView.seat_number := Booking.seatNumber booking;
             UserTicketsView.passenger_name := Booking.passengerName booking;
             UserTicketsView.passenger_email := Booking.passengerEmail booking;
             UserTicketsView.price := Booking.price booking;
             UserTicketsView.currency := Some (Booking.currency booking);
             UserTicketsView.status := RESERVED;
             UserTicketsView.created_at := now env;
             UserTicketsView.updated_at := t |}]> (user_tickets_view s).
Proof.
  intros Hnew. unfold eachMessage, processMessage. cbn.
  unfold handleTicketReserved, upsert_ticket, mbind, Proj_bind. cbn.
  rewrite Hnew. cbn. by destruct (Booking.seatNumber booking).
Qed.

Lemma confirmed_on_view env n bookingId userId paymentId correlationId t s :
  (processMessage t
     (deliver (message_of (TicketConfirmedEvent env n bookingId userId paymentId
                             correlationId))) s).1 = Ok ()
  ∧ user_tickets_view
      (eachMessage t
         (deliver (message_of (TicketConfirmedEvent env n bookingId userId paymentId
                                 correlationId))) s)
    = alter (UserTicketsView.set_status CONFIRMED t) bookingId (user_tickets_view s).
Proof. done. Qed.

Lemma cancelled_on_view env n bookingId userId reason refundAmount correlationId t s :
  (processMessage t
     (deliver (message_of (TicketCancelledEvent env n bookingId userId reason refundAmount
                             correlationId))) s).1 = Ok ()
  ∧ user_tickets_view
      (eachMessage t
         (deliver (message_of (TicketCancelledEvent env n bookingId userId reason refundAmount
                                 correlationId))) s)
    = alter (UserTicketsView.set_status CANCELLED t) bookingId (user_tickets_view s).
Proof.
  unfold eachMessage, processMessage. cbn.
  unfold handleTicketCancelled, select_schedule_id, update_ticket_status,
         updateScheduleAvailability, mbind, Proj_bind. cbn.
  by destruct (user_tickets_view s !! bookingId).
Qed.

Lemma in_sync_insert s v id b r (bs : gmap string Bookings.row)
    (ts : gmap string UserTicketsView.row) :
  in_sync s v →
  booking_columns b = ticket_columns r →
  bs = <[id := b]> (bookings s) →
  ts = <[id := r]> (user_tickets_view v) →
  ∀ id', booking_columns <$> bs !! id' = ticket_columns <$> ts !! id'.
Proof.
  intros Hsync Hcol -> -> id'. rewrite !lookup_insert.
  case_decide; [cbn; by rewrite Hcol|apply Hsync].
Qed.

Lemma in_sync_alter s v id (f : Bookings.row → Bookings.row)
    (g : UserTicketsView.row → UserTicketsView.row)
    (bs : gmap string Bookings.row) (ts : gmap string UserTicketsView.row) :
  in_sync s v →
  (∀ b r, booking_columns b = ticket_columns r →
          booking_columns (f b) = ticket_columns (g r)) →
  bs = alter f id (bookings s) →
  ts = alter g id (user_tickets_view v) →
  ∀ id', booking_columns <$> bs !! id' = ticket_columns <$> ts !! id'.
Proof.
  intros Hsync Hcol -> -> id'. rewrite !lookup_alter.
  case_decide; [|apply Hsync]. subst id'. specialize (Hsync id).
  destruct (bookings s !! id) as [b|], (user_tickets_view v !! id) as [r|];
    try (cbn in Hsync; done).
  change (Some (booking_columns b) = Some (ticket_columns r)) in Hsync.
  apply (inj Some) in Hsync.
  change (Some (booking_columns (f b)) = Some (ticket_columns (g r))).
  by rewrite (Hcol b r Hsync).
Qed.

(** X13. The view follows the commands. If the view has the bookings of the
    write database and no other, each with the owner, route, schedule,
    seat, passenger, price, currency and status of the booking, then after
    a command that returns with the producer up, and the projection of the
    one message it has published, this is so again: the projector accepts
    the message, a Book or Reserve adds the ticket as stored, a Confirm or
    Cancel changes its status as stored. *)
Theorem view_follows_the_commands env c correlationId t w w' v :
  keyed (writeDb w) →
  in_sync (writeDb w) v →
  busUp env = true →
  run env c correlationId w = (Ok (), w') →
  ∃ m, ticket_events w' = ticket_events w ++ [m]
       ∧ (processMessage t (deliver m) v).1 = Ok ()
       ∧ in_sync (writeDb w') (eachMessage t (deliver m) v).
Proof.
  intros Hkeyed Hsync Hup. destruct c as [command|command|command|command]; cbn.
  - destruct (bookTicketHandler env command correlationId w) as [[r|?] w0] eqn:H;
      intros [= <-]. apply bookTicketHandler_done in H as (_ & H & Hm).
    destruct H as (_ & Hfresh & _ & -> & Hs).
    eexists. rewrite Hm. unfold publishTicketBooked.
    rewrite try_publish_message, Hup. split; [done|].
    assert (user_tickets_view v !! Booking.id (mapRowToBooking (booked_row env command))
            = None) as Hnew.
    { specialize (Hsync (uuidv4 env 0)). unfold fresh_booking_id in Hfresh.
      rewrite Hfresh in Hsync. cbn in *. by destruct (user_tickets_view v !! _). }
    destruct (booked_on_new_row env 2 _ correlationId t v Hnew) as [Hok Hview].
    split; [done|]. unfold in_sync. rewrite Hview, Hs.
    eapply in_sync_insert; [exact Hsync| |done|done]. done.
  - destruct (reserveTicketHandler env command correlationId w) as [[r|?] w0] eqn:H;
      intros [= <-]. apply reserveTicketHandler_done in H as (_ & H & Hm).
    destruct H as (_ & Hfresh & _ & -> & Hs).
    eexists. rewrite Hm. unfold publishTicketReserved.
    rewrite try_publish_message, Hup. split; [done|].
    cbn [ReserveTicketResult.booking ReserveTicketResult.expiresAt].
    assert (user_tickets_view v !! Booking.id (mapRowToBooking (reserved_row env command))
            = None) as Hnew.
    { specialize (Hsync (uuidv4 env 0)). unfold fresh_booking_id in Hfresh.
      rewrite Hfresh in Hsync. cbn in *. by destruct (user_tickets_view v !! _). }
    destruct (reserved_on_new_row env 2 _ (now env + reservationDuration command * 60 * 1000)
                correlationId t v Hnew) as [Hok Hview].
    split; [done|]. unfold in_sync. rewrite Hview, Hs.
    eapply in_sync_insert; [exact Hsync| |done|done]. done.
  - destruct (confirmTicketHandler env command correlationId w) as [[r|?] w0] eqn:H;
      intros [= <-]. apply confirmTicketHandler_done in H as (_ & H & Hm).
    destruct H as (b & Hb & _ & _ & _ & -> & Hs).
    eexists. rewrite Hm. unfold publishTicketConfirmed.
    rewrite try_publish_message, Hup. split; [done|].
    cbn [Booking.id Booking.userId mapRowToBooking Bookings.id Bookings.user_id
         Bookings.set_confirmed].
    rewrite (Hkeyed _ _ Hb).
    destruct (confirmed_on_view env 1 (ConfirmTicketCommand.bookingId command)
                (Bookings.user_id b) (ConfirmTicketCommand.paymentId command)
                correlationId t v) as [Hok Hview].
    split; [done|]. unfold in_sync. rewrite Hview, Hs.
    eapply in_sync_alter; [exact Hsync| |done|done].
    intros b0 r0 Hcol. unfold booking_columns, ticket_columns in *. cbn.
    by injection Hcol as -> -> -> -> -> -> -> -> _.
  - destruct (cancelTicketHandler env command correlationId w) as [[r|?] w0] eqn:H;
      intros [= <-]. apply cancelTicketHandler_done in H as (_ & H & Hm).
    destruct H as (b & Hb & _ & _ & _ & -> & Hs).
    eexists. rewrite Hm. unfold publishTicketCancelled.
    rewrite try_publish_message, Hup. split; [done|].
    cbn [Booking.id Booking.userId mapRowToBooking Bookings.id Bookings.user_id
         Bookings.set_cancelled CancelTicketResult.booking CancelTicketResult.refundAmount].
    rewrite (Hkeyed _ _ Hb).
    destruct (cancelled_on_view env 1 (CancelTicketCommand.bookingId command)
                (Bookings.user_id b) (CancelTicketCommand.reason command)
                (or_undefined (refund_of b)) correlationId t v) as [Hok Hview].
    split; [done|]. unfold in_sync. rewrite Hview, Hs.
    eapply in_sync_alter; [exact Hsync| |done|done].
    intros b0 r0 Hcol. unfold booking_columns, ticket_columns in *. cbn.
    by injection Hcol as -> -> -> -> -> -> -> -> _.
Qed.

Lemma view_follows_the_commands_witness :
  ∃ m, ticket_events world_booked = ticket_events world0 ++ [m]
       ∧ (processMessage 5000 (deliver m) empty_read_store).1 = Ok ()
       ∧ in_sync (writeDb world_booked) (eachMessage 5000 (deliver m) empty_read_store).
Proof.
  apply (view_follows_the_commands (at_time 1000 ["B1"; "E1"; "K1"]) (Book book_A1) None
           5000 world0 world_booked empty_read_store).
  - intros id b. unfold world0. cbn. by rewrite lookup_empty.
  - intros id. unfold world0, empty_read_store. cbn. by rewrite !lookup_empty.
  - reflexivity.
  - vm_compute. reflexivity.
Defined.

(** ** The projector on its own *)

Lemma upsert_ticket_refused t payload status created_at s column :
  column ∈ ["bookingId"; "userId"; "routeId"; "scheduleId"; "passengerName";
            "passengerEmail"; "price"] →
  member column payload = JUndefined ∨ member column payload = JNull →
  ∃ m, upsert_ticket t payload status created_at s = (Err (DriverError m), s).
Proof.
  intros Hcol Hnull.
  assert (as_string (member column payload) = None
          ∧ as_number (member column payload) = None) as [Hs Hn]
    by (destruct Hnull as [-> | ->]; done).
  unfold upsert_ticket.
  destruct (as_string (member "bookingId" payload)) eqn:E1; [|cbn; eauto].
  destruct (as_string (member "userId" payload)) eqn:E2; [|cbn; eauto].
  destruct (as_string (member "routeId" payload)) eqn:E3; [|cbn; eauto].
  destruct (as_string (member "scheduleId" payload)) eqn:E4; [|cbn; eauto].
  destruct (as_string (member "passengerName" payload)) eqn:E5; [|cbn; eauto].
  destruct (as_string (member "passengerEmail" payload)) eqn:E6; [|cbn; eauto].
  destruct (as_number (member "price" payload)) eqn:E7; [|cbn; eauto].
  exfalso. set_unfold in Hcol. destruct_or!; subst column; congruence.
Qed.

Lemma throw_skips_the_rest (h k : Proj ()) s e :
  h s = (Err e, s) → (h;; k) s = (Err e, s).
Proof. unfold mbind, Proj_bind. by intros ->. Qed.

(** X14. A TICKET_BOOKED or TICKET_RESERVED message whose payload lacks the
    value of a column declared NOT NULL (the booking, user, route or
    schedule id, the passenger's name or e-mail, the price: the member is
    absent or null) is rejected with the error of the driver, and nothing
    of the read store changes: no ticket, no count of the schedule, and the
    checkpoint stays where it was. The statements of a handler are not in a
    transaction; the insertion of the ticket is the first of them. *)
Theorem ticket_lacking_a_column_is_rejected t payload event s column :
  EachMessagePayload.value payload = Some event →
  (let eventType :=
     default (DomainEvent.eventType event)
             (or_null (EachMessagePayload.eventType payload)) in
   eventType = "TICKET_BOOKED" ∨ eventType = "TICKET_RESERVED") →
  column ∈ ["bookingId"; "userId"; "routeId"; "scheduleId"; "passengerName";
            "passengerEmail"; "price"] →
  member column (DomainEvent.payload event) = JUndefined
  ∨ member column (DomainEvent.payload event) = JNull →
  ∃ m, processMessage t payload s = (Err (DriverError m), s).
Proof.
  intros Hv Htype Hcol Hnull. unfold processMessage. rewrite Hv. cbv zeta in *.
  destruct Htype as [-> | ->]; cbn [String.eqb TicketEventType_str Ascii.eqb Bool.eqb].
  - destruct (upsert_ticket_refused t (DomainEvent.payload event) PENDING
                (DomainEvent.timestamp event) s column Hcol Hnull) as [m Hm].
    exists m. apply throw_skips_the_rest. unfold handleTicketBooked.
    cbv zeta. by apply throw_skips_the_rest.
  - destruct (upsert_ticket_refused t (DomainEvent.payload event) RESERVED
                (DomainEvent.timestamp event) s column Hcol Hnull) as [m Hm].
    exists m. apply throw_skips_the_rest. unfold handleTicketReserved.
    cbv zeta. by apply throw_skips_the_rest.
Qed.

Lemma ticket_lacking_a_column_is_rejected_witness :
  ∃ m, processMessage 6000 booked_without_payload read_B1 = (Err (DriverError m), read_B1).
Proof.
  apply (ticket_lacking_a_column_is_rejected 6000 booked_without_payload
           event_without_payload read_B1 "bookingId").
  - reflexivity.
  - left. reflexivity.
  - set_solver.
  - left. reflexivity.
Defined.

Lemma alter_absent {A} (f : A → A) (i : string) (m : gmap string A) :
  m !! i = None → alter f i m = m.
Proof.
  intros Hi. apply map_eq. intros j. rewrite lookup_alter.
  case_decide; [subst j; by rewrite Hi|done].
Qed.

Lemma ReadStore_eta s :
  {| user_tickets_view := user_tickets_view s;
     schedule_availability_view := schedule_availability_view s;
     projection_checkpoints := projection_checkpoints s |} = s.
Proof. by destruct s. Qed.

(** X15. A TICKET_CONFIRMED or TICKET_CANCELLED message for a booking that
    the view has not (its TICKET_BOOKED was not published, or has not come
    yet) is taken as processed and lost: no row is made, no counter
    changes, and the checkpoint moves to the event. *)
Theorem status_change_of_unknown_ticket_is_lost t payload event s :
  EachMessagePayload.value payload = Some event →
  let eventType :=
    default (DomainEvent.eventType event)
            (or_null (EachMessagePayload.eventType payload)) in
  eventType = "TICKET_CONFIRMED" ∨ eventType = "TICKET_CANCELLED" →
  (∀ id, as_string (member "bookingId" (DomainEvent.payload event)) = Some id →
         user_tickets_view s !! id = None) →
  processMessage t payload s = (Ok (), checkpointed t (DomainEvent.eventId event) s).
Proof.
  intros Hv eventType Ht Hnew. unfold processMessage. rewrite Hv. cbv zeta.
  fold eventType. destruct Ht as [-> | ->]; cbn [String.eqb Ascii.eqb Bool.eqb
    TicketEventType_str].
  - unfold handleTicketConfirmed, update_ticket_status, mbind, Proj_bind. cbv zeta.
    destruct (as_string (member "bookingId" (DomainEvent.payload event))) as [id|] eqn:Hid;
      [|done].
    rewrite (alter_absent _ _ _ (Hnew id eq_refl)). by rewrite ReadStore_eta.
  - unfold handleTicketCancelled, select_schedule_id, update_ticket_status,
           mbind, Proj_bind. cbv zeta.
    destruct (as_string (member "bookingId" (DomainEvent.payload event))) as [id|] eqn:Hid;
      [|done].
    cbn [mbind option_bind]. rewrite (Hnew id eq_refl). cbn.
    rewrite (alter_absent _ _ _ (Hnew id eq_refl)). by rewrite ReadStore_eta.
Qed.

Lemma status_change_of_unknown_ticket_is_lost_witness :
  processMessage 8000 confirmed_B7 read_B1 = (Ok (), checkpointed 8000 "K11" read_B1).
Proof.
  apply (status_change_of_unknown_ticket_is_lost 8000 confirmed_B7
           (TicketConfirmedEvent (at_time 7000 ["E11"; "K11"]) 1 "B7" "U1" "P9" None) read_B1).
  - reflexivity.
  - left. reflexivity.
  - intros id [= <-]. vm_compute. reflexivity.
Defined.

Lemma same_ticket_refl r : same_ticket r r.
Proof. by repeat split. Qed.

Lemma same_ticket_set_status st t r r' :
  same_ticket r r' → same_ticket r (UserTicketsView.set_status st t r').
Proof. unfold same_ticket. cbn. tauto. Qed.

Lemma upsert_ticket_kept id r t payload status created_at :
  Proj_preserves (ticket_kept id r) (upsert_ticket t payload status created_at).
Proof.
  intros s (r' & Hr' & Hsame). unfold upsert_ticket.
  destruct (_ ≫= _) as [p|e]; [|by exists r'].
  unfold ticket_kept. cbn [snd user_tickets_view].
  destruct (decide (UserTicketsView.id p = id)) as [->|Hne].
  - rewrite Hr'. exists (UserTicketsView.set_status (UserTicketsView.status p) t r').
    rewrite lookup_insert_eq. split; [done|]. by apply same_ticket_set_status.
  - exists r'. split; [|done].
    destruct (user_tickets_view s !! UserTicketsView.id p); by rewrite lookup_insert_ne.
Qed.

Lemma update_ticket_status_kept id r t status bookingId :
  Proj_preserves (ticket_kept id r) (update_ticket_status t status bookingId).
Proof.
  intros s (r' & Hr' & Hsame). unfold update_ticket_status, ticket_kept. cbn [snd].
  destruct (as_string bookingId) as [id'|]; [|by exists r']. cbn [user_tickets_view].
  rewrite lookup_alter. case_decide.
  - subst id'. rewrite Hr'. eexists. split; [done|]. by apply same_ticket_set_status.
  - by exists r'.
Qed.

Lemma updateScheduleAvailability_kept id r t scheduleId delta :
  Proj_preserves (ticket_kept id r) (updateScheduleAvailability t scheduleId delta).
Proof.
  intros s Hs. unfold updateScheduleAvailability.
  by destruct (not_null "schedule_id" scheduleId).
Qed.

Lemma processMessage_kept id r t payload :
  Proj_preserves (ticket_kept id r) (processMessage t payload).
Proof.
  unfold processMessage. destruct (EachMessagePayload.value payload) as [event|];
    [|apply Proj_preserves_ret].
  apply Proj_preserves_bind; [|by intros _ s Hs].
  repeat case_match; try apply Proj_preserves_ret.
  - apply Proj_preserves_bind;
      [apply upsert_ticket_kept|intros _; apply updateScheduleAvailability_kept].
  - apply Proj_preserves_bind;
      [apply upsert_ticket_kept|intros _; apply updateScheduleAvailability_kept].
  - apply update_ticket_status_kept.
  - apply Proj_preserves_bind; [by intros s Hs|intros booking].
    apply Proj_preserves_bind; [apply update_ticket_status_kept|intros _].
    destruct booking; [apply updateScheduleAvailability_kept|apply Proj_preserves_ret].
Qed.

(** X16. The projector never deletes a ticket and never rewrites it: a row
    of the view is still there after any stream of messages, accepted or
    rejected, with its id, owner, route, schedule, seat, passenger, price,
    currency and createdAt; only its status and updatedAt can have
    changed. A TICKET_BOOKED that comes again with other data for the same
    booking changes nothing but the status. *)
Theorem projector_keeps_the_tickets t stream s id r :
  user_tickets_view s !! id = Some r →
  ∃ r', user_tickets_view (project t stream s) !! id = Some r' ∧ same_ticket r r'.
Proof.
  intros Hr. assert (ticket_kept id r s) as Hs by (exists r; split; [done|apply same_ticket_refl]).
  clear Hr. unfold project. revert s Hs.
  induction stream as [|payload stream IH]; intros s Hs; [done|].
  cbn. apply IH. by apply processMessage_kept.
Qed.

Lemma projector_keeps_the_tickets_witness :
  ∃ r', user_tickets_view
          (project 9000 (booked_without_payload :: confirmed_B7 :: stream_B1) read_B1) !! "B1"
        = Some r'
        ∧ same_ticket ticket_B1 r'.
Proof.
  apply (projector_keeps_the_tickets 9000 (booked_without_payload :: confirmed_B7 :: stream_B1)
           read_B1 "B1" ticket_B1).
  vm_compute. reflexivity.
Defined.

(** ** The queries *)

Lemma ceil_div_bounds total limit :
  0 ≤ total → 1 ≤ limit →
  (ceil_div total limit - 1) * limit < total ≤ ceil_div total limit * limit.
Proof.
  intros Ht Hl. unfold ceil_div.
  pose proof (Z.div_mod (total + limit - 1) limit ltac:(lia)) as Hdm.
  pose proof (Z.mod_pos_bound (total + limit - 1) limit ltac:(lia)) as Hmod.
  nia.
Qed.

Lemma filter_length_le {A} (p : A → bool) (l : list A) :
  (length (List.filter p l) ≤ length l)%nat.
Proof. induction l as [|x l IH]; cbn; [done|]. destruct (p x); cbn; lia. Qed.

(** X17. A page of the tickets of a user, when it is not served from the
    cache (the query has a status filter, or the cache has nothing for
    it): the page is at least 1 and the limit between 1 and 100 whatever
    the query asked; the page has at most limit tickets, each one a row
    of the view that belongs to the user and has the status asked for;
    total counts all such rows; and totalPages is the least number of
    pages that hold them. Which rows the page holds is not stated: page
    and limit are whole numbers here, and the schema of the route does not
    ask that of them. *)
Theorem user_tickets_page redis_get rows query result :
  (GetUserTicketsQuery.status query = None →
   ∀ page limit, redis_get (GetUserTicketsQuery.userId query) page limit = None) →
  getUserTicketsHandler redis_get rows query = Ok result →
  let wanted r :=
    UserTicketsView.user_id r = GetUserTicketsQuery.userId query
    ∧ ∀ st, GetUserTicketsQuery.status query = Some st → UserTicketsView.status r = st in
  1 ≤ PaginatedResult.page result
  ∧ 1 ≤ PaginatedResult.limit result ≤ 100
  ∧ Z.of_nat (length (PaginatedResult.data result)) ≤ PaginatedResult.limit result
  ∧ Forall (λ r, r ∈ rows ∧ wanted r) (PaginatedResult.data result)
  ∧ PaginatedResult.total result
    = Z.of_nat (length (List.filter
                          (λ r, bool_decide (UserTicketsView.user_id r
                                             = GetUserTicketsQuery.userId query)
                                && match GetUserTicketsQuery.status query with
                                   | Some st => bool_decide (UserTicketsView.status r = st)
                                   | None => true
                                   end) rows))
  ∧ (PaginatedResult.totalPages result - 1) * PaginatedResult.limit result
    < PaginatedResult.total result
    ≤ PaginatedResult.totalPages result * PaginatedResult.limit result.
Proof.
  intros Hmiss. unfold getUserTicketsHandler.
  destruct (validateQuery query) eqn:Hv; [|done].
  replace (match GetUserTicketsQuery.status query with
           | Some _ => None
           | None => redis_get _ _ _
           end) with (@None PaginatedResult.t)
    by (destruct (GetUserTicketsQuery.status query); [done|by rewrite Hmiss]).
  cbv zeta. intros [= <-].
  cbn [PaginatedResult.page PaginatedResult.limit PaginatedResult.data
       PaginatedResult.total PaginatedResult.totalPages].
  set (selected := List.filter _ rows).
  set (page := or_num (GetUserTicketsQuery.page query) DEFAULT_PAGE).
  set (limit := Z.min (or_num (GetUserTicketsQuery.limit query) DEFAULT_LIMIT) MAX_LIMIT).
  assert (1 ≤ page) as Hpage.
  { subst page. unfold validateQuery in Hv. unfold or_num, DEFAULT_PAGE.
    destruct (negb (truthy _)); [done|].
    destruct (GetUserTicketsQuery.page query) as [p|]; [|done]. cbn in Hv.
    destruct (p =? 0) eqn:H0; [done|]. cbn in Hv.
    case_bool_decide; [done|lia]. }
  assert (1 ≤ limit ≤ 100) as Hlimit.
  { subst limit. unfold validateQuery in Hv. unfold or_num, DEFAULT_LIMIT, MAX_LIMIT.
    destruct (negb (truthy _)); [done|].
    destruct (_ && _); [done|].
    destruct (GetUserTicketsQuery.limit query) as [l|]; [|lia]. cbn in Hv.
    destruct (l =? 0) eqn:H0; [lia|]. cbn in Hv.
    case_bool_decide; [done|lia]. }
  split; [done|]. split; [done|]. split; [|split; [|split; [done|]]].
  - rewrite length_take. lia.
  - apply Forall_forall. intros r Hr.
    apply subseteq_take, subseteq_drop in Hr. subst selected.
    apply list_elem_of_In, filter_In in Hr as [Hin Hp]. split; [by apply list_elem_of_In|].
    apply andb_true_iff in Hp as [Hu Hs]. apply bool_decide_eq_true_1 in Hu.
    split; [done|]. intros st Hst. rewrite Hst in Hs. by apply bool_decide_eq_true_1 in Hs.
  - apply ceil_div_bounds; lia.
Qed.


Lemma user_tickets_page_witness :
  1 ≤ PaginatedResult.page page_B1
  ∧ 1 ≤ PaginatedResult.limit page_B1 ≤ 100
  ∧ Z.of_nat (length (PaginatedResult.data page_B1)) ≤ PaginatedResult.limit page_B1
  ∧ (PaginatedResult.totalPages page_B1 - 1) * PaginatedResult.limit page_B1
    < PaginatedResult.total page_B1
    ≤ PaginatedResult.totalPages page_B1 * PaginatedResult.limit page_B1.
Proof.
  destruct (user_tickets_page empty_cache [ticket_B1] query_page0 page_B1)
    as (H1 & H2 & H3 & _ & _ & H4).
  - intros _ page limit. reflexivity.
  - vm_compute. reflexivity.
  - done.
Defined.

(** ** The schema of the reserve route and the validation of the handler *)

Lemma validate_ok schema data path check :
  validate schema data = Ok () → (path, check) ∈ schema → check (member path data) = [].
Proof.
  unfold validate. destruct (issues schema data) as [|i l] eqn:Hi; [|done]. intros _ Hin.
  destruct (check (member path data)) as [|c l] eqn:Hc; [done|].
  assert ((path, c) ∈ issues schema data) as H; [|rewrite Hi in H; by apply elem_of_nil in H].
  unfold issues. apply list_elem_of_bind. exists (path, check). split; [|done].
  apply list_elem_of_fmap. exists c. split; [done|]. rewrite Hc. set_solver.
Qed.

Lemma reserve_route_reads_the_body f env userId body correlationId w :
  validate (schemas_reserveTicket f) body = Ok () →
  reserve_route f env userId body correlationId w
  = reserveTicketHandler env (reserve_command userId body) correlationId w.
Proof. unfold reserve_route. by intros ->. Qed.

(** X19. A reserve request that passes the schema of the route never meets
    the validation of the handler: for an authenticated user and a schema
    library whose uuid and email tests refuse the empty string, the
    command read off the body passes validateReserveTicketCommand; its
    price is positive, its duration, the 15 minutes of the default
    included, is between 5 and 60 minutes, and its seat, when there is
    one, has a length of at most 10 as JavaScript counts it, in UTF-16
    code units. The route then is the handler on that command. *)
Theorem schema_covers_the_reserve_validation f userId body :
  truthy userId = true →
  isUuid f EmptyString = false →
  isEmail f EmptyString = false →
  validate (schemas_reserveTicket f) body = Ok () →
  let command := reserve_command userId body in
  validateReserveTicketCommand command = Ok ()
  ∧ 0 < ReserveTicketCommand.price command
  ∧ 5 ≤ reservationDuration command ≤ 60
  ∧ (∀ seatNumber, ReserveTicketCommand.seatNumber command = Some seatNumber →
                   (js_length seatNumber ≤ 10)%nat)
  ∧ ∀ env correlationId w,
      reserve_route f env userId body correlationId w
      = reserveTicketHandler env command correlationId w.
Proof.
  intros Hu Huuid Hemail Hv. cbv zeta.
  pose proof (validate_ok _ _ "routeId" _ Hv ltac:(unfold schemas_reserveTicket; repeat constructor))
    as Hroute.
  pose proof (validate_ok _ _ "scheduleId" _ Hv ltac:(unfold schemas_reserveTicket; repeat constructor))
    as Hschedule.
  pose proof (validate_ok _ _ "seatNumber" _ Hv ltac:(unfold schemas_reserveTicket; repeat constructor))
    as Hseat.
  pose proof (validate_ok _ _ "passengerName" _ Hv
                ltac:(unfold schemas_reserveTicket; repeat constructor)) as Hname.
  pose proof (validate_ok _ _ "passengerEmail" _ Hv
                ltac:(unfold schemas_reserveTicket; repeat constructor)) as Hmail.
  pose proof (validate_ok _ _ "price" _ Hv ltac:(unfold schemas_reserveTicket; repeat constructor))
    as Hprice.
  pose proof (validate_ok _ _ "reservationDurationMinutes" _ Hv
                ltac:(unfold schemas_reserveTicket; repeat constructor)) as Hminutes.
  assert (0 < ReserveTicketCommand.price (reserve_command userId body)) as Hpos.
  { unfold reserve_command. cbn [ReserveTicketCommand.price].
    unfold z_number_positive in Hprice.
    destruct (member "price" body) as [| | |price|]; try done. cbn.
    destruct (price <=? 0) eqn:Hp; [done|]. by apply Z.leb_gt in Hp. }
  split; [|split; [done|split; [|split]]].
  - unfold validateReserveTicketCommand. apply Z.leb_gt in Hpos. rewrite Hpos.
    unfold reserve_command.
    cbn [ReserveTicketCommand.userId ReserveTicketCommand.routeId
         ReserveTicketCommand.scheduleId ReserveTicketCommand.passengerName
         ReserveTicketCommand.passengerEmail].
    unfold z_uuid, z_string in Hroute, Hschedule. unfold z_string in Hname, Hmail.
    destruct (member "routeId" body) as [| |routeId| |]; try done.
    destruct (member "scheduleId" body) as [| |scheduleId| |]; try done.
    destruct (member "passengerName" body) as [| |passengerName| |]; try done.
    destruct (member "passengerEmail" body) as [| |passengerEmail| |]; try done.
    cbn [as_string default from_option id].
    assert (truthy routeId = true) as ->.
    { destruct routeId; [by rewrite Huuid in Hroute|done]. }
    assert (truthy scheduleId = true) as ->.
    { destruct scheduleId; [by rewrite Huuid in Hschedule|done]. }
    assert (truthy passengerName = true) as ->.
    { destruct passengerName; [done|done]. }
    assert (truthy passengerEmail = true) as ->.
    { destruct passengerEmail; [by rewrite Hemail in Hmail|done]. }
    by rewrite Hu.
  - unfold reservationDuration, reserve_command.
    cbn [ReserveTicketCommand.reservationDurationMinutes].
    unfold optional, z_number_min_max in Hminutes. unfold or_num,
      DEFAULT_RESERVATION_DURATION_MINUTES.
    destruct (member "reservationDurationMinutes" body) as [| | |n|]; try done; cbn; try lia.
    destruct (n <? 5) eqn:H5; [done|]. destruct (60 <? n) eqn:H60; [done|].
    destruct (n =? 0) eqn:H0; lia.
  - intros seatNumber. unfold reserve_command. cbn [ReserveTicketCommand.seatNumber].
    unfold optional, z_max, z_string in Hseat.
    destruct (member "seatNumber" body) as [| |s| |]; try done. cbn. intros [= <-].
    destruct (decide (js_length s ≤ 10)%nat) as [Hle|Hgt]; [done|].
    by rewrite bool_decide_eq_false_2 in Hseat by done.
  - intros env correlationId w. by apply reserve_route_reads_the_body.
Qed.

Lemma schema_covers_the_reserve_validation_witness :
  validateReserveTicketCommand (reserve_command "U1" (("reservationDurationMinutes", JNumber 5)
                                                        :: reserve_body)) = Ok ()
  ∧ 5 ≤ reservationDuration (reserve_command "U1" (("reservationDurationMinutes", JNumber 5)
                                                     :: reserve_body)) ≤ 60.
Proof.
  destruct (schema_covers_the_reserve_validation nonempty_format "U1"
              (("reservationDurationMinutes", JNumber 5) :: reserve_body))
    as (H1 & _ & H2 & _).
  - reflexivity.
  - reflexivity.
  - reflexivity.
  - vm_compute. reflexivity.
  - done.
Defined.
